(** * The reconciliation engine of the YDB Kubernetes operator

    A shallow embedding of [controllers/storage/sync.go],
    [controllers/database/sync.go], [pkg/resources/storage.go] and
    [api/v1alpha1/database_defaults.go].

    The Go code threads two pieces of mutable state through every phase of
    a reconciliation: the reconciler's client (the cluster as seen through
    the API server) and the in-memory working copy of the resource (the
    "builder").  Both are made explicit here: a phase is a state
    transformer over a pair of a [World] and a builder, returning the
    [(ctrl.Result, error)] pair of the Go function. *)

From Stdlib Require Import ZArith String List Ascii.
From stdpp Require Import base gmap strings list fin_maps pretty.

Open Scope string_scope.
Open Scope Z_scope.
Open Scope list_scope.

(** ** Errors

    An [error] value of the Go code.  The only distinction the reconcilers
    make is [errors.IsNotFound]. *)
Inductive Err : Type :=
| NotFound (what : string)
| Failure (msg : string).

Global Instance Err_eq_dec : EqDecision Err.
Proof. solve_decision. Defined.

Definition IsNotFound (err : Err) : bool :=
  match err with NotFound _ => true | Failure _ => false end.

(** ** api/v1alpha1 *)
Module v1alpha1.

Record NamespacedRef : Type := {
  ref_Name : string;
  ref_Namespace : string
}.

(** [PullPolicyName] is a [*v1.PullPolicy]: [None] is the nil pointer. *)
Record PodImage : Type := {
  img_Name : string;
  img_PullPolicyName : option string
}.

Record DatabaseSpec : Type := {
  StorageClusterRef : NamespacedRef;
  Image : PodImage;
  YDBVersion : string;
  db_Nodes : Z
}.

(** The part of [StorageSpec] that the reconciler reads. *)
Record StorageSpec : Type := {
  st_Nodes : Z
}.

(** [metav1.Condition], without its clock fields. *)
Record Condition : Type := {
  cType : string;
  cStatus : string;
  cReason : string;
  cMessage : string
}.

(** [Conditions] is a Go slice: [None] is the nil slice, [Some []] the
    empty one. *)
Record Status : Type := {
  State : string;
  Conditions : option (list Condition)
}.

Record Storage : Type := {
  s_Namespace : string;
  s_Name : string;
  s_Spec : StorageSpec;
  s_Status : Status
}.

Record Database : Type := {
  d_Namespace : string;
  d_Name : string;
  d_Spec : DatabaseSpec;
  d_Status : Status
}.

(** [v1.PullIfNotPresent]. *)
Definition PullIfNotPresent : string := "IfNotPresent".

Section Defaults.
  (** Package constants declared outside the translated files, and
      [fmt.Sprintf] at the two string arguments it receives. *)
Variables ImagePathFormat RegistryPath DefaultTag : string.
Variable Sprintf : string -> string -> string -> string.

  (** [SetDatabaseSpecDefaults(ydbCr, ydbSpec)]: reads [ydbCr.Namespace]
      and returns the contents of [*ydbSpec] after the call. *)
Definition SetDatabaseSpecDefaults (ydbCr : Database) (ydbSpec : DatabaseSpec)
    : DatabaseSpec :=
    let ydbSpec :=
      if decide (ref_Namespace (StorageClusterRef ydbSpec) = "") then
        {| StorageClusterRef :=
             {| ref_Name := ref_Name (StorageClusterRef ydbSpec);
                ref_Namespace := d_Namespace ydbCr |};
           Image := Image ydbSpec;
           YDBVersion := YDBVersion ydbSpec;
           db_Nodes := db_Nodes ydbSpec |}
      else ydbSpec in
    let ydbSpec :=
      if decide (img_Name (Image ydbSpec) = "") then
        let name :=
          if decide (YDBVersion ydbSpec = "") then
            Sprintf ImagePathFormat RegistryPath DefaultTag
          else
            Sprintf ImagePathFormat RegistryPath (YDBVersion ydbSpec) in
        {| StorageClusterRef := StorageClusterRef ydbSpec;
           Image := {| img_Name := name;
                       img_PullPolicyName := img_PullPolicyName (Image ydbSpec) |};
           YDBVersion := YDBVersion ydbSpec;
           db_Nodes := db_Nodes ydbSpec |}
      else ydbSpec in
    match img_PullPolicyName (Image ydbSpec) with
    | None =>
        {| StorageClusterRef := StorageClusterRef ydbSpec;
           Image := {| img_Name := img_Name (Image ydbSpec);
                       img_PullPolicyName := Some PullIfNotPresent |};
           YDBVersion := YDBVersion ydbSpec;
           db_Nodes := db_Nodes ydbSpec |}
    | Some _ => ydbSpec
    end.
End Defaults.

End v1alpha1.
Import v1alpha1.

Global Instance Condition_eq_dec : EqDecision Condition.
Proof. solve_decision. Defined.
Global Instance Status_eq_dec : EqDecision Status.
Proof. solve_decision. Defined.

(** ** k8s.io/apimachinery/pkg/api/meta: the condition ledger *)
Module meta.

(** [FindStatusCondition]: the first entry of the given type. *)
Fixpoint FindStatusCondition (conditions : list Condition) (conditionType : string)
  : option Condition :=
  match conditions with
  | [] => None
  | c :: rest =>
      if decide (cType c = conditionType) then Some c
      else FindStatusCondition rest conditionType
  end.

(** [IsStatusConditionTrue]: present and with status ["True"]. *)
Definition IsStatusConditionTrue (conditions : option (list Condition))
    (conditionType : string) : bool :=
  match FindStatusCondition (default [] conditions) conditionType with
  | Some c => bool_decide (cStatus c = "True")
  | None => false
  end.

Fixpoint upsert (conditions : list Condition) (newCondition : Condition)
  : list Condition :=
  match conditions with
  | [] => [newCondition]
  | c :: rest =>
      if decide (cType c = cType newCondition) then
        {| cType := cType c;
           cStatus := cStatus newCondition;
           cReason := cReason newCondition;
           cMessage := cMessage newCondition |} :: rest
      else c :: upsert rest newCondition
  end.

(** [SetStatusCondition(&conditions, newCondition)]: the entry of that
    type is updated in place, or the condition is appended.  The pointer
    handed over by the reconcilers is never nil; a nil slice is appended
    to. *)
Definition SetStatusCondition (conditions : option (list Condition))
    (newCondition : Condition) : option (list Condition) :=
  Some (upsert (default [] conditions) newCondition).

End meta.

(** ** sigs.k8s.io/controller-runtime: the reconcile result *)
Module ctrl.

(** [time.Duration] is a count of nanoseconds. *)
Definition Second : Z := 1000000000.

Record Result : Type := {
  Requeue : bool;
  RequeueAfter : Z
}.

(** [Result.IsZero]: equal to [Result{}]. *)
Definition IsZero (r : Result) : bool :=
  negb (Requeue r) && bool_decide (RequeueAfter r = 0).

End ctrl.

Global Instance Result_eq_dec : EqDecision ctrl.Result.
Proof. solve_decision. Defined.

(** What every phase and [Sync] return: [(ctrl.Result, error)], with
    [None] for the nil error. *)
Definition Outcome : Type := ctrl.Result * option Err.

(** ** controllers: the four ways a phase ends *)
Module controllers.

(** Modelled from the spec: the helpers [Ok], [NoRequeue],
    [RequeueImmediately] and [RequeueAfter] of package [controllers] are
    declared outside the translated files.  They build the three-way
    return of the spec (continue, requeue-after(duration), fail(error)),
    an untimed requeue carrying no delay. *)
Definition Ok : Outcome :=
  ({| ctrl.Requeue := false; ctrl.RequeueAfter := 0 |}, None).

Definition NoRequeue (err : Err) : Outcome :=
  ({| ctrl.Requeue := false; ctrl.RequeueAfter := 0 |}, Some err).

Definition RequeueImmediately : Outcome :=
  ({| ctrl.Requeue := true; ctrl.RequeueAfter := 0 |}, None).

Definition RequeueAfter (duration : Z) (err : option Err) : Outcome :=
  ({| ctrl.Requeue := true; ctrl.RequeueAfter := duration |}, err).

End controllers.

(** [err != nil || !result.IsZero()]: the test on which [Sync] stops. *)
Definition stops (o : Outcome) : bool :=
  match o with
  | (_, Some _) => true
  | (result, None) => negb (ctrl.IsZero result)
  end.

(** ** The cluster as the reconcilers see it *)

(** A child object of a kind the reconcilers create (a Service, a
    ConfigMap, a StatefulSet, a ServiceMonitor).  Of its contents the
    reconcilers themselves read the identity, the controller reference
    and, for a StatefulSet, [Status.Replicas]; everything a builder fills
    in is the payload. *)
Record Object : Type := {
  o_Namespace : string;
  o_Name : string;
  o_Owner : option (string * string);
  o_Payload : string;
  o_Replicas : Z
}.

Global Instance Object_eq_dec : EqDecision Object.
Proof. solve_decision. Defined.

Record Pod : Type := {
  p_Namespace : string;
  p_Labels : gmap string string;
  p_Phase : string
}.

(** The calls that leave the process: to the API server, into a pod, to
    the health probe and to the tenant-management API. *)
Inductive Call : Type :=
| CGet (kind : string) (key : string * string)
| CList (namespace : string) (selector : gmap string string)
| CCreate (kind : string) (key : string * string)
| CUpdate (kind : string) (key : string * string)
| CStatusUpdate (kind : string) (key : string * string) (status : Status)
| CExec (namespace pod container : string) (cmd : list string)
| CHealthCheck (key : string * string)
| CTenantCreate (tenant : string).

Global Instance Call_eq_dec : EqDecision Call.
Proof. solve_decision. Defined.

(** [Recorder.Event(obj, eventtype, reason, message)]; the message text is
    not kept. *)
Record Event : Type := {
  ev_Type : string;
  ev_Reason : string
}.

Definition EventTypeNormal : string := "Normal".
Definition EventTypeWarning : string := "Warning".

(** The state behind the reconciler's client and collaborators.

    - [storages], [databases]: the spec and status of the stored Storage
      and Database resources, by namespace and name;
    - [objects], [pods]: the child objects, by kind, namespace and name,
      and the pods;
    - [apiFaults], [execOutcomes], [probeOutcomes], [tenantOutcomes]: what
      the next calls to the API server, into a pod, to the health probe and
      to the tenant API will answer: [Some msg] is a failure, [None] is
      normal service, and an exhausted list is normal service from then on;
    - [calls]: every call made so far with the error it returned, oldest
      first;
    - [events]: the recorder's events, oldest first. *)
Record World : Type := {
  storages : gmap (string * string) (StorageSpec * Status);
  databases : gmap (string * string) (DatabaseSpec * Status);
  objects : gmap (string * string * string) Object;
  pods : list Pod;
  apiFaults : list (option string);
  execOutcomes : list (option string);
  probeOutcomes : list (option string);
  tenantOutcomes : list (option string);
  calls : list (Call * option Err);
  events : list Event
}.

Definition set_storages (m : gmap (string * string) (StorageSpec * Status)) (w : World) : World :=
  {| storages := m; databases := databases w; objects := objects w;
     pods := pods w; apiFaults := apiFaults w; execOutcomes := execOutcomes w;
     probeOutcomes := probeOutcomes w; tenantOutcomes := tenantOutcomes w;
     calls := calls w; events := events w |}.

Definition set_databases (m : gmap (string * string) (DatabaseSpec * Status)) (w : World) : World :=
  {| storages := storages w; databases := m; objects := objects w;
     pods := pods w; apiFaults := apiFaults w; execOutcomes := execOutcomes w;
     probeOutcomes := probeOutcomes w; tenantOutcomes := tenantOutcomes w;
     calls := calls w; events := events w |}.

Definition set_objects (m : gmap (string * string * string) Object) (w : World) : World :=
  {| storages := storages w; databases := databases w; objects := m;
     pods := pods w; apiFaults := apiFaults w; execOutcomes := execOutcomes w;
     probeOutcomes := probeOutcomes w; tenantOutcomes := tenantOutcomes w;
     calls := calls w; events := events w |}.

Definition set_apiFaults (l : list (option string)) (w : World) : World :=
  {| storages := storages w; databases := databases w; objects := objects w;
     pods := pods w; apiFaults := l; execOutcomes := execOutcomes w;
     probeOutcomes := probeOutcomes w; tenantOutcomes := tenantOutcomes w;
     calls := calls w; events := events w |}.

Definition set_execOutcomes (l : list (option string)) (w : World) : World :=
  {| storages := storages w; databases := databases w; objects := objects w;
     pods := pods w; apiFaults := apiFaults w; execOutcomes := l;
     probeOutcomes := probeOutcomes w; tenantOutcomes := tenantOutcomes w;
     calls := calls w; events := events w |}.

Definition set_probeOutcomes (l : list (option string)) (w : World) : World :=
  {| storages := storages w; databases := databases w; objects := objects w;
     pods := pods w; apiFaults := apiFaults w; execOutcomes := execOutcomes w;
     probeOutcomes := l; tenantOutcomes := tenantOutcomes w;
     calls := calls w; events := events w |}.

Definition set_tenantOutcomes (l : list (option string)) (w : World) : World :=
  {| storages := storages w; databases := databases w; objects := objects w;
     pods := pods w; apiFaults := apiFaults w; execOutcomes := execOutcomes w;
     probeOutcomes := probeOutcomes w; tenantOutcomes := l;
     calls := calls w; events := events w |}.

Definition log (c : Call) (err : option Err) (w : World) : World :=
  {| storages := storages w; databases := databases w; objects := objects w;
     pods := pods w; apiFaults := apiFaults w; execOutcomes := execOutcomes w;
     probeOutcomes := probeOutcomes w; tenantOutcomes := tenantOutcomes w;
     calls := calls w ++ [(c, err)]; events := events w |}.

Definition record (e : Event) (w : World) : World :=
  {| storages := storages w; databases := databases w; objects := objects w;
     pods := pods w; apiFaults := apiFaults w; execOutcomes := execOutcomes w;
     probeOutcomes := probeOutcomes w; tenantOutcomes := tenantOutcomes w;
     calls := calls w; events := events w ++ [e] |}.

(** ** Phases as state transformers *)
Definition Op (S A : Type) : Type := S -> A * S.

Global Instance Op_ret {S} : MRet (Op S) := fun A a s => (a, s).
Global Instance Op_bind {S} : MBind (Op S) :=
  fun A B f m s => let '(a, s') := m s in f a s'.

(** A call on the reconciler's client or a collaborator: it touches the
    world and leaves the working copy alone. *)
Definition call {B A} (f : World -> A * World) : Op (World * B) A :=
  fun s => let '(a, w) := f (fst s) in (a, (w, snd s)).

(** The working copy behind the builder pointer. *)
Definition self {B} : Op (World * B) B := fun s => (snd s, s).
Definition assign {B} (f : B -> B) : Op (World * B) unit :=
  fun s => (tt, (fst s, f (snd s))).

Definition errOf {A} (r : Err + A) : option Err :=
  match r with inl e => Some e | inr _ => None end.

(** A request to the API server: the next entry of [apiFaults] decides
    whether it is served; the call and its error are logged. *)
Definition request {A} (c : Call) (serve : World -> (Err + A) * World)
  : World -> (Err + A) * World :=
  fun w =>
    let w1 := set_apiFaults (tail (apiFaults w)) w in
    match head (apiFaults w) with
    | Some (Some msg) => (inl (Failure msg), log c (Some (Failure msg)) w1)
    | _ => let '(r, w2) := serve w1 in (r, log c (errOf r) w2)
    end.

(** A call to a collaborator whose answer is the next entry of its plan. *)
Definition answer (plan : list (option string)) : option Err :=
  match head plan with
  | Some (Some msg) => Some (Failure msg)
  | _ => None
  end.

(** The next [n] entries of a plan are normal service. *)
Fixpoint clear (n : nat) (plan : list (option string)) : bool :=
  match n, plan with
  | O, _ => true
  | S _, [] => true
  | S _, Some _ :: _ => false
  | S n, None :: rest => clear n rest
  end.

(** What a status write ([setState]) comes to, given the plan of the API
    server and the stored resource: the re-fetch may fail, the resource
    may be gone, the update may fail. *)
Definition persistOutcome {A} (kind : string) (faults : list (option string))
    (stored : option A) : option Err :=
  match head faults with
  | Some (Some msg) => Some (Failure msg)
  | _ =>
      match stored with
      | None => Some (NotFound kind)
      | Some _ =>
          match head (tail faults) with
          | Some (Some msg) => Some (Failure msg)
          | _ => None
          end
      end
  end.

Module client.

Definition found {A} (what : string) (o : option A) : Err + A :=
  match o with
  | Some a => inr a
  | None => inl (NotFound what)
  end.

(** The resource stored under a key. *)
Definition storageAt (key : string * string) (stored : StorageSpec * Status) : Storage :=
  {| s_Namespace := key.1; s_Name := key.2; s_Spec := stored.1; s_Status := stored.2 |}.

Definition databaseAt (key : string * string) (stored : DatabaseSpec * Status) : Database :=
  {| d_Namespace := key.1; d_Name := key.2; d_Spec := stored.1; d_Status := stored.2 |}.

(** [r.Get] on a Storage, on a Database and on a child object. *)
Definition GetStorage (key : string * string) : World -> (Err + Storage) * World :=
  request (CGet "Storage" key)
    (fun w => (found "Storage" (storageAt key <$> storages w !! key), w)).

Definition GetDatabase (key : string * string) : World -> (Err + Database) * World :=
  request (CGet "Database" key)
    (fun w => (found "Database" (databaseAt key <$> databases w !! key), w)).

Definition GetObject (kind : string) (key : string * string)
  : World -> (Err + Object) * World :=
  request (CGet kind key)
    (fun w => (found kind (objects w !! (kind, key.1, key.2)), w)).

(** [client.InNamespace(ns)] with [client.MatchingLabels]: the pods of the
    namespace that carry every label of the selector. *)
Definition selects (namespace : string) (selector : gmap string string) (p : Pod) : bool :=
  bool_decide (p_Namespace p = namespace) && bool_decide (selector ⊆ p_Labels p).

Definition ListPods (namespace : string) (selector : gmap string string)
  : World -> (Err + list Pod) * World :=
  request (CList namespace selector)
    (fun w => (inr (List.filter (selects namespace selector) (pods w)), w)).

(** [c.Create]: refused when the key is taken. *)
Definition Create (kind : string) (obj : Object) : World -> option Err * World :=
  fun w =>
    let key := (o_Namespace obj, o_Name obj) in
    let '(r, w') :=
      request (CCreate kind key)
        (fun w =>
           match objects w !! (kind, key.1, key.2) with
           | Some _ => (inl (Failure "already exists"), w)
           | None => (inr tt, set_objects (<[(kind, key.1, key.2) := obj]> (objects w)) w)
           end) w in
    (errOf r, w').

(** [c.Update]: refused when the object is gone. *)
Definition Update (kind : string) (obj : Object) : World -> option Err * World :=
  fun w =>
    let key := (o_Namespace obj, o_Name obj) in
    let '(r, w') :=
      request (CUpdate kind key)
        (fun w =>
           match objects w !! (kind, key.1, key.2) with
           | Some _ => (inr tt, set_objects (<[(kind, key.1, key.2) := obj]> (objects w)) w)
           | None => (inl (NotFound kind), w)
           end) w in
    (errOf r, w').

(** [r.Status().Update]: only the status of the stored resource changes. *)
Definition StatusUpdateStorage (cr : Storage) : World -> option Err * World :=
  fun w =>
    let key := (s_Namespace cr, s_Name cr) in
    let '(r, w') :=
      request (CStatusUpdate "Storage" key (s_Status cr))
        (fun w =>
           match storages w !! key with
           | Some old =>
               (inr tt, set_storages (<[key := (old.1, s_Status cr)]> (storages w)) w)
           | None => (inl (NotFound "Storage"), w)
           end) w in
    (errOf r, w').

Definition StatusUpdateDatabase (cr : Database) : World -> option Err * World :=
  fun w =>
    let key := (d_Namespace cr, d_Name cr) in
    let '(r, w') :=
      request (CStatusUpdate "Database" key (d_Status cr))
        (fun w =>
           match databases w !! key with
           | Some old =>
               (inr tt, set_databases (<[key := (old.1, d_Status cr)]> (databases w)) w)
           | None => (inl (NotFound "Database"), w)
           end) w in
    (errOf r, w').

End client.

(** The number of [c.Create] calls made so far. *)
Definition is_create (ce : Call * option Err) : bool :=
  match ce.1 with
  | CCreate _ _ => true
  | _ => false
  end.

Definition creates (w : World) : nat := length (List.filter is_create (calls w)).

(** ** Collaborators *)

(** Modelled from the spec: [exec.ExecInPod(scheme, config, namespace,
    pod, container, cmd)] is declared outside the translated files; it
    runs a command in a remote compute unit, a narrow synchronous call
    with a success/failure outcome.  What it wrote to stdout and stderr
    is only printed by the caller. *)
Definition ExecInPod (namespace pod container : string) (cmd : list string)
  : World -> option Err * World :=
  fun w =>
    let err := answer (execOutcomes w) in
    (err, log (CExec namespace pod container cmd) err
            (set_execOutcomes (tail (execOutcomes w)) w)).

(** Modelled from the spec: [healthcheck.CheckBootstrapHealth] is declared
    outside the translated files; it is a narrow synchronous call with a
    success/failure outcome, nil meaning healthy. *)
Definition CheckBootstrapHealth (storage : Storage) : World -> option Err * World :=
  fun w =>
    let err := answer (probeOutcomes w) in
    (err, log (CHealthCheck (s_Namespace storage, s_Name storage)) err
            (set_probeOutcomes (tail (probeOutcomes w)) w)).

(** Modelled from the spec: [cms.NewTenant(name).Create] is declared
    outside the translated files; it is a narrow synchronous call with a
    success/failure outcome. *)
Definition TenantCreate (tenant : string) : World -> option Err * World :=
  fun w =>
    let err := answer (tenantOutcomes w) in
    (err, log (CTenantCreate tenant) err
            (set_tenantOutcomes (tail (tenantOutcomes w)) w)).

(** [r.Recorder.Event]. *)
Definition Recorder_Event {B} (eventtype reason : string) : Op (World * B) unit :=
  call (fun w => (tt, record {| ev_Type := eventtype; ev_Reason := reason |} w)).

(** ** The resource builder set and the apply engine *)

(** The [ResourceBuilder] interface.  [Placeholder] is handed the owner
    and reads its namespace and name; [rb_Kind] is the Go type of the
    object it returns, which [Build] cannot change. *)
Record ResourceBuilder : Type := {
  rb_Kind : string;
  Placeholder : string -> string -> Object;
  Build : Object -> Err + Object
}.

(** The identity under which the child of a builder is stored. *)
Definition identity (namespace name : string) (builder : ResourceBuilder)
  : string * string * string :=
  (rb_Kind builder,
   o_Namespace (Placeholder builder namespace name),
   o_Name (Placeholder builder namespace name)).

Module controllerutil.

Inductive OperationResult : Type :=
| OperationResultNone
| OperationResultCreated
| OperationResultUpdated.

Global Instance OperationResult_eq_dec : EqDecision OperationResult.
Proof. solve_decision. Defined.

(** [SetControllerReference(owner, controlled, scheme)]: the owner must
    live in the namespace of the object, and an object controlled by
    someone else is refused. *)
Definition SetControllerReference (ownerKind ownerNamespace ownerName : string)
    (controlled : Object) : Err + Object :=
  if bool_decide (ownerNamespace <> "") && bool_decide (o_Namespace controlled = "") then
    inl (Failure "cluster-scoped resource must not have a namespace-scoped owner")
  else if bool_decide (ownerNamespace <> "")
          && bool_decide (ownerNamespace <> o_Namespace controlled) then
    inl (Failure "cross-namespace owner references are disallowed")
  else
    match o_Owner controlled with
    | Some existing =>
        if bool_decide (existing = (ownerKind, ownerName)) then inr controlled
        else inl (Failure "object is already owned by another controller")
    | None =>
        inr {| o_Namespace := o_Namespace controlled; o_Name := o_Name controlled;
               o_Owner := Some (ownerKind, ownerName);
               o_Payload := o_Payload controlled; o_Replicas := o_Replicas controlled |}
    end.

(** [mutate(f, key, obj)]: the mutation may not move the object. *)
Definition mutate (f : Object -> World -> (Err + Object) * World)
    (key : string * string) (obj : Object) : World -> (Err + Object) * World :=
  fun w =>
    let '(r, w) := f obj w in
    match r with
    | inl err => (inl err, w)
    | inr obj' =>
        if bool_decide ((o_Namespace obj', o_Name obj') = key) then (inr obj', w)
        else (inl (Failure "MutateFn cannot mutate object name and/or object namespace"), w)
    end.

(** [ctrl.CreateOrUpdate(ctx, c, obj, f)]. *)
Definition CreateOrUpdate (kind : string) (obj : Object)
    (f : Object -> World -> (Err + Object) * World)
  : World -> (OperationResult * option Err) * World :=
  fun w =>
    let key := (o_Namespace obj, o_Name obj) in
    let '(got, w) := client.GetObject kind key w in
    match got with
    | inl err =>
        if IsNotFound err then
          let '(m, w) := mutate f key obj w in
          match m with
          | inl err => ((OperationResultNone, Some err), w)
          | inr obj =>
              let '(err, w) := client.Create kind obj w in
              match err with
              | Some err => ((OperationResultNone, Some err), w)
              | None => ((OperationResultCreated, None), w)
              end
          end
        else ((OperationResultNone, Some err), w)
    | inr existing =>
        let '(m, w) := mutate f key existing w in
        match m with
        | inl err => ((OperationResultNone, Some err), w)
        | inr obj =>
            if bool_decide (existing = obj) then ((OperationResultNone, None), w)
            else
              let '(err, w) := client.Update kind obj w in
              match err with
              | Some err => ((OperationResultNone, Some err), w)
              | None => ((OperationResultUpdated, None), w)
              end
        end
    end.

End controllerutil.

(** The builder values [GetResourceBuilders] puts together, with the
    fields it fills in.  Their methods are declared outside the
    translated files. *)
Inductive Builder : Type :=
| ServiceMonitorBuilder (Object : Storage) (Name : string) (Labels : gmap string string)
| ServiceBuilder (Object : Storage) (Labels : gmap string string) (NameFormat : string)
    (Headless : bool) (Ports : list (string * Z))
| ConfigMapBuilder (Object : Storage) (Data : gmap string string)
    (Labels : gmap string string)
| StorageStatefulSetBuilder (Storage : Storage) (Labels : gmap string string).

(** What the translated files take from the rest of the repository:
    package constants, the helpers of [labels], [configuration] and
    [metrics], the method sets of the builders, the spec defaults of a
    Storage, the builder set and the tenant name of a Database. *)
Record Externals : Type := {
  ImagePathFormat : string;
  RegistryPath : string;
  DefaultTag : string;
  Sprintf : string -> string -> string -> string;
  SetStorageClusterSpecDefaults : StorageSpec -> StorageSpec;
  labels_Common : string -> gmap string string -> gmap string string;
  labels_Merge : gmap string string -> gmap string string -> gmap string string;
  labels_ComponentKey : string;
  labels_StorageComponent : string;
  labels_ClusterLabels : Storage -> gmap string string;
  configuration_Build : Storage -> gmap string string;
  metrics_GetStorageMetricEndpoints : list string;
  grpcServiceNameFormat : string;
  interconnectServiceNameFormat : string;
  statusServiceNameFormat : string;
  GRPCPort : Z;
  InterconnectPort : Z;
  StatusPort : Z;
  methods : Builder -> ResourceBuilder;
  DatabaseResourceBuilders : Database -> list ResourceBuilder;
  GetTenantName : Database -> string
}.

(** ** pkg/resources: the builders *)
Module resources.

(** [StorageClusterBuilder] and [DatabaseBuilder] wrap a pointer to a deep
    copy of the resource: the working copy of one [Sync]. *)
Abbreviation StorageClusterBuilder := Storage (only parsing).
Abbreviation DatabaseBuilder := Database (only parsing).

Definition NewCluster (X : Externals) (ydbCr : Storage) : StorageClusterBuilder :=
  {| s_Namespace := s_Namespace ydbCr; s_Name := s_Name ydbCr;
     s_Spec := SetStorageClusterSpecDefaults X (s_Spec ydbCr);
     s_Status := s_Status ydbCr |}.

Definition seed (st : Status) : Status :=
  match Conditions st with
  | None => {| State := State st; Conditions := Some [] |}
  | Some _ => st
  end.

Definition SetStatusOnFirstReconcile (b : StorageClusterBuilder) : StorageClusterBuilder :=
  {| s_Namespace := s_Namespace b; s_Name := s_Name b; s_Spec := s_Spec b;
     s_Status := seed (s_Status b) |}.

(** [Unwrap] hands out a deep copy. *)
Definition Unwrap (b : StorageClusterBuilder) : Storage := b.

(** [GetResourceBuilders]: a monitor per metric endpoint (of which the
    monitor name is kept), then the three services, the config map and
    the workload.  The error of [configuration.Build] is dropped. *)
Definition GetResourceBuilders (X : Externals) (b : StorageClusterBuilder)
  : list ResourceBuilder :=
  let ll := labels_ClusterLabels X (Unwrap b) in
  let cfg := configuration_Build X (Unwrap b) in
  let serviceMonitors :=
    (fun MonitorName =>
       let smLabels := ll in
       methods X (ServiceMonitorBuilder b (s_Name b +:+ "-" +:+ MonitorName) smLabels))
      <$> metrics_GetStorageMetricEndpoints X in
  serviceMonitors ++
  [ methods X (ServiceBuilder b ll (grpcServiceNameFormat X) false
                 [("grpc", GRPCPort X)]);
    methods X (ServiceBuilder b ll (interconnectServiceNameFormat X) true
                 [("interconnect", InterconnectPort X)]);
    methods X (ServiceBuilder b ll (statusServiceNameFormat X) false
                 [("status", StatusPort X)]);
    methods X (ConfigMapBuilder b cfg ll);
    methods X (StorageStatefulSetBuilder (Unwrap b) ll) ].

(** Modelled from the spec: [NewDatabase] and the Database's
    [SetStatusOnFirstReconcile] are declared outside the translated files.
    The first takes a deep copy and fills in the spec defaults as
    [NewCluster] does; the second ensures the conditions sequence is
    non-nil. *)
Definition NewDatabase (X : Externals) (ydbCr : Database) : DatabaseBuilder :=
  {| d_Namespace := d_Namespace ydbCr; d_Name := d_Name ydbCr;
     d_Spec := SetDatabaseSpecDefaults (ImagePathFormat X) (RegistryPath X)
                 (DefaultTag X) (Sprintf X) ydbCr (d_Spec ydbCr);
     d_Status := d_Status ydbCr |}.

Definition SetStatusOnFirstReconcile_db (b : DatabaseBuilder) : DatabaseBuilder :=
  {| d_Namespace := d_Namespace b; d_Name := d_Name b; d_Spec := d_Spec b;
     d_Status := seed (d_Status b) |}.

(** [GetEndpoint]: the two [fmt.Sprintf] calls put the name, the
    namespace and the decimal of the port constant together. *)
Definition GetEndpoint (X : Externals) (b : Storage) : string :=
  let host := s_Name b +:+ "-grpc." +:+ s_Namespace b +:+ ".svc.cluster.local" in
  host +:+ ":" +:+ pretty (GRPCPort X).

End resources.

(** ** controllers/storage/sync.go *)
Module storage.
Section Reconciler.
Context (X : Externals).

Definition StorageInitializedCondition : string := "StorageInitialized".

Definition Phase : Type := Op (World * resources.StorageClusterBuilder) Outcome.

(** [storage.Status.State = state] and
    [meta.SetStatusCondition(&storage.Status.Conditions, c)] on the
    working copy. *)
Definition with_State (state : string) (b : Storage) : Storage :=
  {| s_Namespace := s_Namespace b; s_Name := s_Name b; s_Spec := s_Spec b;
     s_Status := {| State := state; Conditions := Conditions (s_Status b) |} |}.

Definition with_Condition (c : Condition) (b : Storage) : Storage :=
  {| s_Namespace := s_Namespace b; s_Name := s_Name b; s_Spec := s_Spec b;
     s_Status := {| State := State (s_Status b);
                    Conditions := meta.SetStatusCondition (Conditions (s_Status b)) c |} |}.

Definition setState : Phase :=
  storage ← self;
  got ← call (client.GetStorage (s_Namespace storage, s_Name storage));
  match got with
  | inl err =>
      Recorder_Event EventTypeWarning "ControllerError";;
      mret (controllers.NoRequeue err)
  | inr storageCr =>
      let storageCr :=
        {| s_Namespace := s_Namespace storageCr; s_Name := s_Name storageCr;
           s_Spec := s_Spec storageCr;
           s_Status := {| State := State (s_Status storage);
                          Conditions := Conditions (s_Status storage) |} |} in
      err ← call (client.StatusUpdateStorage storageCr);
      match err with
      | Some err =>
          Recorder_Event EventTypeWarning "ControllerError";;
          mret (controllers.NoRequeue err)
      | None => mret controllers.Ok
      end
  end.

Definition cmdDefineBox : list string :=
  ["/opt/kikimr/bin/kikimr"; "admin"; "bs"; "config"; "invoke";
   "--proto-file"; "/opt/kikimr/cfg/DefineBox.txt"].

Definition cmdConfigureRoot : list string :=
  ["/opt/kikimr/bin/kikimr"; "admin"; "console"; "execute";
   "--domain=Root"; "--retry=10"; "/opt/kikimr/cfg/ConfigureRoot.txt"].

Definition runDefineBoxScript : Phase :=
  storage ← self;
  if meta.IsStatusConditionTrue (Conditions (s_Status storage)) StorageInitializedCondition
  then mret controllers.Ok
  else
    let podName := s_Name storage +:+ "-0" in
    err ← call (ExecInPod (s_Namespace storage) podName "ydb-storage" cmdDefineBox);
    match err with
    | Some err => mret (controllers.RequeueAfter (30 * ctrl.Second) (Some err))
    | None =>
        err ← call (ExecInPod (s_Namespace storage) podName "ydb-storage" cmdConfigureRoot);
        match err with
        | Some err => mret (controllers.RequeueAfter (30 * ctrl.Second) (Some err))
        | None =>
            let resourcesProvided :=
              {| cType := StorageInitializedCondition;
                 cStatus := "True";
                 cReason := "StorageInitialized";
                 cMessage := "Storage initialized successfully" |} in
            assign (with_Condition resourcesProvided);;
            persisted ← setState;
            match snd persisted with
            | Some err => mret (controllers.NoRequeue err)
            | None => mret controllers.RequeueImmediately
            end
        end
    end.

(** The loop over [podList.Items]; a slice cannot hold enough pods for the
    machine integer to wrap. *)
Definition countRunning (items : list Pod) : Z :=
  fold_left
    (fun runningPods e =>
       if bool_decide (p_Phase e = "Running") then runningPods + 1 else runningPods)
    items 0.

(** The selector: [labels.Common(storage.Name, {})] merged with the
    component label; [matchingLabels] is a copy of it. *)
Definition podLabels (storage : Storage) : gmap string string :=
  labels_Merge X (labels_Common X (s_Name storage) ∅)
    {[ labels_ComponentKey X := labels_StorageComponent X ]}.

Definition waitForStatefulSetToScale : Phase :=
  storage ← self;
  got ← call (client.GetObject "StatefulSet" (s_Namespace storage, s_Name storage));
  match got with
  | inl err =>
      if IsNotFound err then mret controllers.Ok
      else
        Recorder_Event EventTypeNormal "Syncing";;
        mret (controllers.NoRequeue err)
  | inr found =>
      let matchingLabels := podLabels storage in
      listed ← call (client.ListPods (s_Namespace storage) matchingLabels);
      match listed with
      | inl err =>
          Recorder_Event EventTypeNormal "Syncing";;
          mret (controllers.NoRequeue err)
      | inr items =>
          let runningPods := countRunning items in
          if bool_decide (runningPods <> st_Nodes (s_Spec storage)) then
            assign (with_State "Provisioning");;
            persisted ← setState;
            match snd persisted with
            | Some err => mret (controllers.NoRequeue err)
            | None =>
                Recorder_Event EventTypeNormal "Provisioning";;
                mret (controllers.RequeueAfter (10 * ctrl.Second) None)
            end
          else if bool_decide (State (s_Status storage) <> "Ready")
                  && meta.IsStatusConditionTrue (Conditions (s_Status storage))
                       StorageInitializedCondition then
            assign (with_State "Ready");;
            persisted ← setState;
            match snd persisted with
            | Some err => mret (controllers.NoRequeue err)
            | None =>
                Recorder_Event EventTypeNormal "ResourcesReady";;
                mret controllers.Ok
            end
          else mret controllers.Ok
      end
  end.

Definition waitForHealthCheck : Phase :=
  storage ← self;
  err ← call (CheckBootstrapHealth storage);
  match err with
  | Some err =>
      Recorder_Event EventTypeNormal "HealthcheckInProgress";;
      mret (controllers.RequeueAfter (30 * ctrl.Second) (Some err))
  | None =>
      Recorder_Event EventTypeNormal "HealthcheckOK";;
      mret controllers.Ok
  end.

(** The closure handed to [ctrl.CreateOrUpdate]: build, then set the
    controller reference to [storage.Unwrap()]. *)
Definition mutateFn (storage : Storage) (builder : ResourceBuilder)
  : Object -> World -> (Err + Object) * World :=
  fun rr w =>
    match Build builder rr with
    | inl err =>
        (inl err, record {| ev_Type := EventTypeWarning; ev_Reason := "ProvisioningFailed" |} w)
    | inr rr =>
        match controllerutil.SetControllerReference "Storage"
                (s_Namespace storage) (s_Name storage) rr with
        | inl err =>
            (inl err, record {| ev_Type := EventTypeWarning; ev_Reason := "ProvisioningFailed" |} w)
        | inr rr => (inr rr, w)
        end
    end.

(** What the closure leaves in [rr], apart from the events it records. *)
Definition desired (storage : Storage) (builder : ResourceBuilder) (rr : Object)
  : Err + Object :=
  match Build builder rr with
  | inl err => inl err
  | inr rr =>
      controllerutil.SetControllerReference "Storage"
        (s_Namespace storage) (s_Name storage) rr
  end.

(** The loop of [handleResourcesSync] from the given builder on, with the
    final events and return. *)
Fixpoint syncEach (storage : Storage) (builders : list ResourceBuilder)
    (areResourcesCreated : bool) : Phase :=
  match builders with
  | [] =>
      Recorder_Event EventTypeNormal "Provisioning";;
      if areResourcesCreated then mret controllers.RequeueImmediately
      else mret controllers.Ok
  | builder :: rest =>
      let rr := Placeholder builder (s_Namespace storage) (s_Name storage) in
      applied ← call (controllerutil.CreateOrUpdate (rb_Kind builder) rr
                        (mutateFn storage builder));
      match snd applied with
      | Some err =>
          Recorder_Event EventTypeWarning "ProvisioningFailed";;
          mret (controllers.NoRequeue err)
      | None =>
          syncEach storage rest
            (areResourcesCreated
             || bool_decide (fst applied = controllerutil.OperationResultCreated))
      end
  end.

Definition handleResourcesSync : Phase :=
  storage ← self;
  Recorder_Event EventTypeNormal "Provisioning";;
  syncEach storage (resources.GetResourceBuilders X storage) false.

Definition phases : Phase :=
  o ← waitForStatefulSetToScale;
  if stops o then mret o else
  o ← handleResourcesSync;
  if stops o then mret o else
  o ← waitForHealthCheck;
  if stops o then mret o else
  o ← runDefineBoxScript;
  if stops o then mret o else
  mret controllers.Ok.

(** [Sync(ctx, cr)]: besides the Go function's results, the world after
    the call and the working copy it ended with. *)
Definition Sync (cr : Storage) (w : World) : Outcome * (World * resources.StorageClusterBuilder) :=
  let storage := resources.SetStatusOnFirstReconcile (resources.NewCluster X cr) in
  phases (w, storage).

End Reconciler.
End storage.

(** ** controllers/database/sync.go *)
Module database.
Section Reconciler.
Context (X : Externals).

Definition Provisioning : string := "Provisioning".
Definition Initializing : string := "Initializing".
Definition Ready : string := "Ready".

Definition DefaultRequeueDelay : Z := 10 * ctrl.Second.
Definition TenantCreationRequeueDelay : Z := 30 * ctrl.Second.
Definition StorageAwaitRequeueDelay : Z := 60 * ctrl.Second.

Definition ConditionTenantInitialized : string := "TenantInitialized".

Definition Phase : Type := Op (World * resources.DatabaseBuilder) Outcome.

Definition with_State (state : string) (b : Database) : Database :=
  {| d_Namespace := d_Namespace b; d_Name := d_Name b; d_Spec := d_Spec b;
     d_Status := {| State := state; Conditions := Conditions (d_Status b) |} |}.

Definition with_Condition (c : Condition) (b : Database) : Database :=
  {| d_Namespace := d_Namespace b; d_Name := d_Name b; d_Spec := d_Spec b;
     d_Status := {| State := State (d_Status b);
                    Conditions := meta.SetStatusCondition (Conditions (d_Status b)) c |} |}.

Definition setState : Phase :=
  database ← self;
  got ← call (client.GetDatabase (d_Namespace database, d_Name database));
  match got with
  | inl err =>
      Recorder_Event EventTypeWarning "ControllerError";;
      mret (controllers.NoRequeue err)
  | inr databaseCr =>
      let databaseCr :=
        {| d_Namespace := d_Namespace databaseCr; d_Name := d_Name databaseCr;
           d_Spec := d_Spec databaseCr;
           d_Status := {| State := State (d_Status database);
                          Conditions := Conditions (d_Status database) |} |} in
      err ← call (client.StatusUpdateDatabase databaseCr);
      match err with
      | Some err =>
          Recorder_Event EventTypeWarning "ControllerError";;
          mret (controllers.NoRequeue err)
      | None => mret controllers.Ok
      end
  end.

Definition waitForClusterResource : Phase :=
  database ← self;
  got ← call (client.GetStorage
                (ref_Namespace (StorageClusterRef (d_Spec database)),
                 ref_Name (StorageClusterRef (d_Spec database))));
  match got with
  | inl err =>
      Recorder_Event EventTypeWarning "Pending";;
      mret (controllers.RequeueAfter StorageAwaitRequeueDelay (Some err))
  | inr found =>
      if bool_decide (State (s_Status found) <> "Ready") then
        Recorder_Event EventTypeWarning "Pending";;
        mret (controllers.RequeueAfter StorageAwaitRequeueDelay None)
      else mret controllers.Ok
  end.

Definition waitForStatefulSetToScale : Phase :=
  database ← self;
  got ← call (client.GetObject "StatefulSet" (d_Namespace database, d_Name database));
  match got with
  | inl err =>
      if IsNotFound err then mret controllers.Ok
      else
        Recorder_Event EventTypeNormal "Syncing";;
        mret (controllers.NoRequeue err)
  | inr found =>
      if bool_decide (o_Replicas found <> db_Nodes (d_Spec database)) then
        assign (with_State Provisioning);;
        persisted ← setState;
        match snd persisted with
        | Some err => mret (controllers.NoRequeue err)
        | None =>
            Recorder_Event EventTypeNormal "Provisioning";;
            mret (controllers.RequeueAfter DefaultRequeueDelay None)
        end
      else if bool_decide (State (d_Status database) <> Ready)
              && meta.IsStatusConditionTrue (Conditions (d_Status database))
                   ConditionTenantInitialized then
        assign (with_State Ready);;
        persisted ← setState;
        match snd persisted with
        | Some err => mret (controllers.NoRequeue err)
        | None =>
            Recorder_Event EventTypeNormal "ResourcesReady";;
            mret controllers.Ok
        end
      else mret controllers.Ok
  end.

Definition mutateFn (database : Database) (builder : ResourceBuilder)
  : Object -> World -> (Err + Object) * World :=
  fun rr w =>
    match Build builder rr with
    | inl err =>
        (inl err, record {| ev_Type := EventTypeWarning; ev_Reason := "ProvisioningFailed" |} w)
    | inr rr =>
        match controllerutil.SetControllerReference "Database"
                (d_Namespace database) (d_Name database) rr with
        | inl err =>
            (inl err, record {| ev_Type := EventTypeWarning; ev_Reason := "ProvisioningFailed" |} w)
        | inr rr => (inr rr, w)
        end
    end.

Definition desired (database : Database) (builder : ResourceBuilder) (rr : Object)
  : Err + Object :=
  match Build builder rr with
  | inl err => inl err
  | inr rr =>
      controllerutil.SetControllerReference "Database"
        (d_Namespace database) (d_Name database) rr
  end.

Fixpoint syncEach (database : Database) (builders : list ResourceBuilder)
    (areResourcesCreated : bool) : Phase :=
  match builders with
  | [] =>
      Recorder_Event EventTypeNormal "Provisioning";;
      if areResourcesCreated then mret controllers.RequeueImmediately
      else mret controllers.Ok
  | builder :: rest =>
      let rr := Placeholder builder (d_Namespace database) (d_Name database) in
      applied ← call (controllerutil.CreateOrUpdate (rb_Kind builder) rr
                        (mutateFn database builder));
      match snd applied with
      | Some err =>
          Recorder_Event EventTypeWarning "ProvisioningFailed";;
          mret (controllers.NoRequeue err)
      | None =>
          syncEach database rest
            (areResourcesCreated
             || bool_decide (fst applied = controllerutil.OperationResultCreated))
      end
  end.

Definition handleResourcesSync : Phase :=
  database ← self;
  Recorder_Event EventTypeNormal "Provisioning";;
  syncEach database (DatabaseResourceBuilders X database) false.

Definition handleTenantCreation : Phase :=
  assign (with_State Initializing);;
  persisted ← setState;
  match snd persisted with
  | Some err => mret (controllers.NoRequeue err)
  | None =>
      database ← self;
      err ← call (TenantCreate (GetTenantName X database));
      match err with
      | Some err =>
          Recorder_Event EventTypeWarning "InitializingFailed";;
          mret (controllers.RequeueAfter TenantCreationRequeueDelay (Some err))
      | None =>
          Recorder_Event EventTypeNormal "Initialized";;
          let resourcesProvided :=
            {| cType := ConditionTenantInitialized;
               cStatus := "True";
               cReason := "TenantInitialized";
               cMessage := "Tenant creation is complete" |} in
          assign (with_Condition resourcesProvided);;
          persisted ← setState;
          match snd persisted with
          | Some err => mret (controllers.NoRequeue err)
          | None => mret controllers.RequeueImmediately
          end
      end
  end.

Definition phases : Phase :=
  _ ← setState;
  o ← waitForClusterResource;
  if stops o then mret o else
  o ← waitForStatefulSetToScale;
  if stops o then mret o else
  o ← handleResourcesSync;
  if stops o then mret o else
  database ← self;
  if negb (meta.IsStatusConditionTrue (Conditions (d_Status database))
             ConditionTenantInitialized) then
    o ← handleTenantCreation;
    if stops o then mret o else mret controllers.Ok
  else mret controllers.Ok.

Definition Sync (ydbCr : Database) (w : World) : Outcome * (World * resources.DatabaseBuilder) :=
  let database := resources.SetStatusOnFirstReconcile_db (resources.NewDatabase X ydbCr) in
  phases (w, database).

End Reconciler.
End database.

(** ** The control loop and what it leaves on record *)

(** The statuses written to the Database under a key, oldest first: the
    status updates the API server accepted. *)
Definition dbWrites (key : string * string) (cs : list (Call * option Err)) : list Status :=
  omap (fun ce =>
          match ce with
          | (CStatusUpdate kind k st, None) =>
              if bool_decide (kind = "Database" /\ k = key) then Some st else None
          | _ => None
          end) cs.

Definition tenantInitialized (st : Status) : bool :=
  meta.IsStatusConditionTrue (Conditions st) database.ConditionTenantInitialized.

(** How often a flag goes from unset to set along a history. *)
Fixpoint settings (prev : bool) (hist : list bool) : nat :=
  match hist with
  | [] => O
  | b :: rest => ((if negb prev && b then 1 else 0) + settings b rest)%nat
  end.

(** Every write of [State] Ready comes after one of Initializing. *)
Definition through_Initializing (hist : list Status) : Prop :=
  forall i st, hist !! i = Some st -> State st = database.Ready ->
    exists j st', (j < i)%nat /\ hist !! j = Some st' /\ State st' = database.Initializing.

(** The calls to the tenant-management API made so far. *)
Definition tenantCalls (cs : list (Call * option Err)) : list (Call * option Err) :=
  List.filter (fun ce => match ce.1 with CTenantCreate _ => true | _ => false end) cs.

(** Modelled from the spec: the dispatch that triggers reconciliation is
    outside the translated files.  It invokes [Sync] with the current
    resource, one invocation at a time for a resource; between two
    invocations anything may change in the cluster except the status of
    the Databases, which only their reconciler writes. *)
Inductive step (X : Externals) : World -> World -> Prop :=
| step_Sync (w : World) (key : string * string) (stored : DatabaseSpec * Status) :
    databases w !! key = Some stored ->
    step X w (database.Sync X (client.databaseAt key stored) w).2.1
| step_other (w w' : World) :
    (forall key, snd <$> databases w' !! key = snd <$> databases w !! key) ->
    (forall key, dbWrites key (calls w') = dbWrites key (calls w)) ->
    step X w w'.

(** The stored status [st] of the Database under [key] agrees with the
    history of its writes. *)
Definition recorded (key : string * string) (w : World) (st : Status) : Prop :=
  let hist := dbWrites key (calls w) in
  last (false :: (tenantInitialized <$> hist)) = Some (tenantInitialized st)
  /\ settings false (tenantInitialized <$> hist)
     = (if tenantInitialized st then 1 else 0)%nat
  /\ through_Initializing hist
  /\ (tenantInitialized st = true -> database.Initializing ∈ State <$> hist)
  /\ (State st = database.Ready -> database.Initializing ∈ State <$> hist).

(** The invariant of a pass of [Sync]: the record is consistent, and a
    working copy of the Database under [key] is ahead of the stored
    status only by what the pass has done. *)
Definition safe (key : string * string) (s : World * Database) : Prop :=
  exists stored,
    databases s.1 !! key = Some stored
    /\ recorded key s.1 stored.2
    /\ ((d_Namespace s.2, d_Name s.2) = key ->
        let hist := dbWrites key (calls s.1) in
        (tenantInitialized (d_Status s.2) = true -> database.Initializing ∈ State <$> hist)
        /\ (State (d_Status s.2) = database.Ready -> database.Initializing ∈ State <$> hist)
        /\ (tenantInitialized stored.2 = true -> tenantInitialized (d_Status s.2) = true)).

(** A Hoare triple over a phase. *)
Definition hoare {S A} (P : S -> Prop) (m : Op S A) (Q : A -> S -> Prop) : Prop :=
  forall s, P s -> Q (m s).1 (m s).2.

(** A change of the world that writes no status and calls no tenant API. *)
Definition inert (w w' : World) : Prop :=
  databases w' = databases w
  /\ exists l, calls w' = calls w ++ l
       /\ Forall (fun ce => match ce.1 with
                            | CTenantCreate _ | CStatusUpdate _ _ _ => False
                            | _ => True
                            end) l.

(** ** A small cluster to run the reconcilers on *)
Module demo.

Definition setPayload (payload : string) (o : Object) : Object :=
  {| o_Namespace := o_Namespace o; o_Name := o_Name o; o_Owner := o_Owner o;
     o_Payload := payload; o_Replicas := o_Replicas o |}.

Definition placeholder (namespace name : string) : Object :=
  {| o_Namespace := namespace; o_Name := name; o_Owner := None;
     o_Payload := ""; o_Replicas := 0 |}.

Definition statefulSetBuilder : ResourceBuilder :=
  {| rb_Kind := "StatefulSet";
     Placeholder := placeholder;
     Build := fun o => inr (setPayload "ydb" o) |}.

(** Builders that name the child after the owner and write a fixed
    payload; a name format is taken as a suffix. *)
Definition builderMethods (b : Builder) : ResourceBuilder :=
  match b with
  | ServiceMonitorBuilder _ Name _ =>
      {| rb_Kind := "ServiceMonitor";
         Placeholder := fun namespace _ => placeholder namespace Name;
         Build := fun o => inr (setPayload "monitor" o) |}
  | ServiceBuilder _ _ NameFormat Headless _ =>
      {| rb_Kind := "Service";
         Placeholder := fun namespace name => placeholder namespace (name +:+ NameFormat);
         Build := fun o => inr (setPayload (if Headless then "headless" else "service") o) |}
  | ConfigMapBuilder _ _ _ =>
      {| rb_Kind := "ConfigMap";
         Placeholder := placeholder;
         Build := fun o => inr (setPayload "config" o) |}
  | StorageStatefulSetBuilder _ _ => statefulSetBuilder
  end.

Definition X : Externals :=
  {| ImagePathFormat := "%s:%s";
     RegistryPath := "cr.yandex/ydb/ydb";
     DefaultTag := "latest";
     Sprintf := fun _ registry tag => registry +:+ ":" +:+ tag;
     SetStorageClusterSpecDefaults := fun spec => spec;
     labels_Common := fun name extra => <["app.kubernetes.io/instance" := name]> extra;
     labels_Merge := fun receiver other => other ∪ receiver;
     labels_ComponentKey := "app.kubernetes.io/component";
     labels_StorageComponent := "storage-node";
     labels_ClusterLabels := fun cr => {[ "app.kubernetes.io/instance" := s_Name cr ]};
     configuration_Build := fun _ => {[ "config.yaml" := "" ]};
     metrics_GetStorageMetricEndpoints := ["storage"];
     grpcServiceNameFormat := "-grpc";
     interconnectServiceNameFormat := "-interconnect";
     statusServiceNameFormat := "-status";
     GRPCPort := 2135;
     InterconnectPort := 19001;
     StatusPort := 8765;
     methods := builderMethods;
     DatabaseResourceBuilders := fun _ => [statefulSetBuilder];
     GetTenantName := fun database => "/root/" +:+ d_Name database |}.

Definition initialized (conditionType : string) : Condition :=
  {| cType := conditionType; cStatus := "True"; cReason := conditionType;
     cMessage := "done" |}.

Definition storageCr (state : string) (conditions : option (list Condition)) : Storage :=
  {| s_Namespace := "ydb"; s_Name := "store";
     s_Spec := {| st_Nodes := 3 |};
     s_Status := {| State := state; Conditions := conditions |} |}.

Definition databaseCr (state : string) (conditions : option (list Condition)) : Database :=
  {| d_Namespace := "ydb"; d_Name := "db";
     d_Spec := {| StorageClusterRef := {| ref_Name := "store"; ref_Namespace := "" |};
                  Image := {| img_Name := ""; img_PullPolicyName := None |};
                  YDBVersion := "";
                  db_Nodes := 3 |};
     d_Status := {| State := state; Conditions := conditions |} |}.

Definition pod (phase : string) : Pod :=
  {| p_Namespace := "ydb";
     p_Labels := storage.podLabels X (storageCr "" None);
     p_Phase := phase |}.

Definition workload (name : string) (replicas : Z) : Object :=
  {| o_Namespace := "ydb"; o_Name := name; o_Owner := None; o_Payload := "ydb";
     o_Replicas := replicas |}.

(** A cluster holding the Storage and the Database with the given
    statuses, their two workload objects at three replicas, and three
    pods of the Storage in the given phases. *)
Definition cluster (storageStatus databaseStatus : Status) (phases : list string)
    (faults : list (option string)) : World :=
  {| storages := {[ ("ydb", "store") := ({| st_Nodes := 3 |}, storageStatus) ]};
     databases := {[ ("ydb", "db") := (d_Spec (databaseCr "" None), databaseStatus) ]};
     objects := {[ ("StatefulSet", "ydb", "store") := workload "store" 3;
                   ("StatefulSet", "ydb", "db") := workload "db" 3 ]};
     pods := pod <$> phases;
     apiFaults := faults;
     execOutcomes := [];
     probeOutcomes := [];
     tenantOutcomes := [];
     calls := [];
     events := [] |}.

Definition fresh : Status := {| State := ""; Conditions := None |}.

Definition bootstrapped : Status :=
  {| State := "Provisioning"; Conditions := Some [initialized "StorageInitialized"] |}.

Definition tenanted : Status :=
  {| State := "Provisioning"; Conditions := Some [initialized "TenantInitialized"] |}.

Definition ready : Status :=
  {| State := "Ready"; Conditions := Some [initialized "StorageInitialized"] |}.

(** Two of the three pods run. *)
Definition underscaled : World :=
  cluster fresh fresh ["Running"; "Running"; "Pending"] [].

(** Both workload objects report three replicas and no pod runs. *)
Definition created_not_running : World :=
  cluster bootstrapped tenanted ["Pending"; "Pending"; "Pending"] [].

(** The API server refuses the next request. *)
Definition unreachable : World :=
  cluster fresh fresh ["Running"; "Running"; "Running"] [Some "etcdserver: request timed out"].

(** The API server serves the re-fetch and refuses the status update. *)
Definition conflicting : World :=
  cluster fresh fresh ["Running"; "Running"; "Running"] [None; Some "conflict"].

(** The Storage is Ready, the Database is new, and the tenant API fails
    once. *)
Definition tenantless : World :=
  set_tenantOutcomes [Some "unavailable"]
    (cluster ready fresh ["Running"; "Running"; "Running"] []).

(** One invocation of the Database reconciler on the stored resource. *)
Definition pass (w : World) : World :=
  match databases w !! ("ydb", "db") with
  | Some stored => (database.Sync X (client.databaseAt ("ydb", "db") stored) w).2.1
  | None => w
  end.

Definition serving : Status :=
  {| State := "Ready"; Conditions := Some [initialized "TenantInitialized"] |}.

(** The cluster after a resource sync of the Storage and of the Database,
    both Ready and initialized, every pod running. *)
Definition converged : World :=
  let w := cluster ready serving ["Running"; "Running"; "Running"] [] in
  let w := (storage.handleResourcesSync X (w, storageCr "Ready" (Conditions ready))).2.1 in
  (database.handleResourcesSync X (w, databaseCr "Ready" (Conditions serving))).2.1.

(** A child as the demo builders leave it. *)
Definition child (owner : string * string) (name payload : string) (replicas : Z) : Object :=
  {| o_Namespace := "ydb"; o_Name := name; o_Owner := Some owner; o_Payload := payload;
     o_Replicas := replicas |}.

End demo.

(** ** Footprints, outcomes and settled children *)

(** ** What a pass may touch *)

(** A change of the world made through calls that are all [allowed],
    and accounted for by them: the pods and every stored spec are as
    before, no object is removed, a stored status that changed was
    written by an accepted status update, and an object that changed
    was written by an accepted create or update. *)
Definition confined (allowed : Call -> Prop) (w w' : World) : Prop :=
  pods w' = pods w
  /\ (forall k, fst <$> storages w' !! k = fst <$> storages w !! k)
  /\ (forall k, fst <$> databases w' !! k = fst <$> databases w !! k)
  /\ (forall k, is_Some (objects w !! k) -> is_Some (objects w' !! k))
  /\ exists l,
       calls w' = calls w ++ l
       /\ Forall (fun ce => allowed ce.1) l
       /\ (forall k,
             storages w' !! k = storages w !! k
             \/ exists st, snd <$> storages w' !! k = Some st
                           /\ (CStatusUpdate "Storage" k st, None) ∈ l)
       /\ (forall k,
             databases w' !! k = databases w !! k
             \/ exists st, snd <$> databases w' !! k = Some st
                           /\ (CStatusUpdate "Database" k st, None) ∈ l)
       /\ (forall kind namespace name,
             objects w' !! (kind, namespace, name) = objects w !! (kind, namespace, name)
             \/ (CCreate kind (namespace, name), None) ∈ l
             \/ (CUpdate kind (namespace, name), None) ∈ l).

(** The working copy of a pass differs from the resource it was made
    from in its status only. *)
Definition storage_copy (X : Externals) (cr : Storage) (st : Status) : Storage :=
  {| s_Namespace := s_Namespace cr; s_Name := s_Name cr;
     s_Spec := SetStorageClusterSpecDefaults X (s_Spec cr); s_Status := st |}.

Definition database_copy (X : Externals) (cr : Database) (st : Status) : Database :=
  {| d_Namespace := d_Namespace cr; d_Name := d_Name cr;
     d_Spec := d_Spec (resources.NewDatabase X cr); d_Status := st |}.

(** The identities of the children of a resource, whatever its status. *)
Definition storage_children (X : Externals) (cr : Storage)
    (k : string * string * string) : Prop :=
  exists st,
    k ∈ identity (s_Namespace cr) (s_Name cr)
          <$> resources.GetResourceBuilders X (storage_copy X cr st).

Definition database_children (X : Externals) (cr : Database)
    (k : string * string * string) : Prop :=
  exists st,
    k ∈ identity (d_Namespace cr) (d_Name cr)
          <$> DatabaseResourceBuilders X (database_copy X cr st).

(** The calls of a pass of the Storage reconciler on [cr]: the status
    of [cr] is fetched and written, its conditions never nil and
    [State] Ready only beside StorageInitialized true; the workload object is fetched and the
    member pods are listed; the children are fetched, created and
    updated; and, when [bootstrap] is set, the health of [cr] is probed
    and the two commands are run in the first member pod. *)
Definition storage_calls (X : Externals) (cr : Storage) (bootstrap : bool) (c : Call)
  : Prop :=
  let key := (s_Namespace cr, s_Name cr) in
  match c with
  | CGet kind k =>
      (kind = "Storage" /\ k = key) \/ (kind = "StatefulSet" /\ k = key)
      \/ storage_children X cr (kind, k.1, k.2)
  | CList namespace selector =>
      namespace = s_Namespace cr /\ selector = storage.podLabels X cr
  | CCreate kind k | CUpdate kind k => storage_children X cr (kind, k.1, k.2)
  | CStatusUpdate kind k st =>
      kind = "Storage" /\ k = key
      /\ Conditions st <> None
      /\ (State st = "Ready" ->
          meta.IsStatusConditionTrue (Conditions st)
            storage.StorageInitializedCondition = true)
  | CExec namespace pod container cmd =>
      bootstrap = true
      /\ namespace = s_Namespace cr /\ pod = s_Name cr +:+ "-0"
      /\ container = "ydb-storage"
      /\ (cmd = storage.cmdDefineBox \/ cmd = storage.cmdConfigureRoot)
  | CHealthCheck k => bootstrap = true /\ k = key
  | CTenantCreate _ => False
  end.

(** The calls of a pass of the Database reconciler on [ydbCr]: the
    status of [ydbCr] is fetched and written, its conditions never nil,
    as it came or with [State] Ready only beside TenantInitialized
    true; the referenced
    Storage and the workload object are fetched; the children are
    fetched, created and updated; the tenant is created. *)
Definition database_calls (X : Externals) (ydbCr : Database) (c : Call) : Prop :=
  let key := (d_Namespace ydbCr, d_Name ydbCr) in
  let spec := d_Spec (resources.NewDatabase X ydbCr) in
  let ref := (ref_Namespace (StorageClusterRef spec), ref_Name (StorageClusterRef spec)) in
  match c with
  | CGet kind k =>
      (kind = "Database" /\ k = key) \/ (kind = "Storage" /\ k = ref)
      \/ (kind = "StatefulSet" /\ k = key)
      \/ database_children X ydbCr (kind, k.1, k.2)
  | CCreate kind k | CUpdate kind k => database_children X ydbCr (kind, k.1, k.2)
  | CStatusUpdate kind k st =>
      kind = "Database" /\ k = key
      /\ Conditions st <> None
      /\ (st = resources.seed (d_Status ydbCr)
          \/ (State st = database.Ready -> tenantInitialized st = true))
  | CTenantCreate tenant =>
      exists st, tenant = GetTenantName X (database_copy X ydbCr st)
  | CList _ _ | CExec _ _ _ _ | CHealthCheck _ => False
  end.

(** The calls into a pod. *)
Definition is_exec (ce : Call * option Err) : bool :=
  match ce.1 with
  | CExec _ _ _ _ => true
  | _ => false
  end.

(** The object stored under a key is controlled by [owner] (its kind
    and name). *)
Definition controlledBy (owner : string * string) (w : World)
    (k : string * string * string) : Prop :=
  exists v, objects w !! k = Some v /\ o_Owner v = Some owner.

(** A change of the world that consists of the API requests [cs], all
    served without error, none of them a write. *)
Definition reads (cs : list Call) (w w' : World) : Prop :=
  storages w' = storages w /\ databases w' = databases w /\ objects w' = objects w
  /\ pods w' = pods w /\ execOutcomes w' = execOutcomes w
  /\ probeOutcomes w' = probeOutcomes w /\ tenantOutcomes w' = tenantOutcomes w
  /\ apiFaults w' = drop (length cs) (apiFaults w)
  /\ calls w' = calls w ++ ((fun c => (c, None)) <$> cs).

(** The fetch [CreateOrUpdate] makes for the child of a builder. *)
Definition fetchOf (namespace name : string) (builder : ResourceBuilder) : Call :=
  CGet (rb_Kind builder)
    (o_Namespace (Placeholder builder namespace name),
     o_Name (Placeholder builder namespace name)).

(** The child of a builder is stored as [desired] makes it. *)
Definition settled (desired : ResourceBuilder -> Object -> Err + Object)
    (namespace name : string) (w : World) (builder : ResourceBuilder) : Prop :=
  exists v,
    objects w !! identity namespace name builder = Some v
    /\ desired builder v = inr v
    /\ (o_Namespace v, o_Name v)
       = (o_Namespace (Placeholder builder namespace name),
          o_Name (Placeholder builder namespace name)).

(** The calls of the bootstrap: the health probe and the commands in a
    pod. *)
Definition bootstrapCalls (cs : list (Call * option Err)) : list (Call * option Err) :=
  List.filter (fun ce => match ce.1 with
                         | CExec _ _ _ _ | CHealthCheck _ => true
                         | _ => false
                         end) cs.

(** A string without a dot, as a DNS label is. *)
Fixpoint nodot (s : string) : bool :=
  match s with
  | EmptyString => true
  | String c rest => negb (Ascii.eqb c "."%char) && nodot rest
  end.

(** The results a pass of the Storage reconciler can return: continue, an
    immediate requeue, an error with no delay, a requeue after 10
    seconds without an error, a requeue after 30 seconds with one. *)
Definition storage_outcome (o : Outcome) : Prop :=
  o = controllers.Ok \/ o = controllers.RequeueImmediately
  \/ (exists e, o = controllers.NoRequeue e)
  \/ o = controllers.RequeueAfter (10 * ctrl.Second) None
  \/ (exists e, o = controllers.RequeueAfter (30 * ctrl.Second) (Some e)).

(** The results of the Database reconciler: those, and a requeue after
    60 seconds with or without an error. *)
Definition database_outcome (o : Outcome) : Prop :=
  storage_outcome o \/ exists err, o = controllers.RequeueAfter (60 * ctrl.Second) err.

(** The cluster with other pods. *)
Definition set_pods (l : list Pod) (w : World) : World :=
  {| storages := storages w; databases := databases w; objects := objects w;
     pods := l; apiFaults := apiFaults w; execOutcomes := execOutcomes w;
     probeOutcomes := probeOutcomes w; tenantOutcomes := tenantOutcomes w;
     calls := calls w; events := events w |}.

(** The precondition that holds of every state. *)
Definition any {S : Type} : S -> Prop := fun _ => True.

(** * Properties *)

(** ** Running a phase by hand *)

Ltac run :=
  cbv beta iota zeta delta
    [mbind mret Op_bind Op_ret call self assign Recorder_Event fst snd
     controllers.Ok controllers.NoRequeue controllers.RequeueImmediately
     controllers.RequeueAfter].

Ltac api :=
  cbv beta iota zeta delta
    [client.GetStorage client.GetDatabase client.GetObject client.ListPods
     client.Create client.Update client.StatusUpdateStorage
     client.StatusUpdateDatabase client.found errOf
     ExecInPod CheckBootstrapHealth TenantCreate
     mbind mret Op_bind Op_ret call self assign Recorder_Event fst snd].

Ltac frame :=
  cbn [storages databases objects pods apiFaults execOutcomes probeOutcomes
       tenantOutcomes calls events set_storages set_databases set_objects
       set_apiFaults set_execOutcomes set_probeOutcomes set_tenantOutcomes
       log record fst snd].

Tactic Notation "frame" "in" hyp(H) :=
  cbn [storages databases objects pods apiFaults execOutcomes probeOutcomes
       tenantOutcomes calls events set_storages set_databases set_objects
       set_apiFaults set_execOutcomes set_probeOutcomes set_tenantOutcomes
       log record fst snd] in H.

Lemma clear_S (n : nat) (plan : list (option string)) :
  clear (S n) plan = true -> clear 1 plan = true /\ clear n (tail plan) = true.
Proof.
  destruct plan as [|[m|] rest]; cbn; intros H; try discriminate; split; auto.
  destruct n; reflexivity.
Qed.

Lemma request_served {A} (c : Call) (serve : World -> (Err + A) * World) (w : World) :
  clear 1 (apiFaults w) = true ->
  request c serve w =
  (let '(r, w2) := serve (set_apiFaults (tail (apiFaults w)) w) in (r, log c (errOf r) w2)).
Proof.
  unfold request. destruct (apiFaults w) as [|[m|] ?]; [reflexivity|discriminate|reflexivity].
Qed.

Lemma request_failed {A} (c : Call) (serve : World -> (Err + A) * World) (w : World)
    (msg : string) :
  head (apiFaults w) = Some (Some msg) ->
  request c serve w =
  (inl (Failure msg), log c (Some (Failure msg)) (set_apiFaults (tail (apiFaults w)) w)).
Proof. unfold request. intros ->. reflexivity. Qed.

(** Either the request is refused by the plan or it is served. *)
Lemma request_cases {A} (c : Call) (serve : World -> (Err + A) * World) (w : World) :
  (exists msg, head (apiFaults w) = Some (Some msg)
     /\ request c serve w =
        (inl (Failure msg), log c (Some (Failure msg)) (set_apiFaults (tail (apiFaults w)) w)))
  \/ (clear 1 (apiFaults w) = true
      /\ request c serve w =
         (let '(r, w2) := serve (set_apiFaults (tail (apiFaults w)) w) in
          (r, log c (errOf r) w2))).
Proof.
  destruct (clear 1 (apiFaults w)) eqn:E.
  - right. split; [reflexivity|]. apply request_served. exact E.
  - left.
    assert (H : exists m, head (apiFaults w) = Some (Some m)).
    { destruct (apiFaults w) as [|[m|] rest]; try discriminate. eauto. }
    destruct H as [m Hm]. exists m. split; [exact Hm|]. apply request_failed, Hm.
Qed.

Tactic Notation "on_request" ident(Hfault) ident(Hserved) :=
  match goal with
  | |- context [request ?c ?s ?w0] =>
      let msg := fresh "msg" in
      destruct (request_cases c s w0) as [(msg & Hfault & ->)|[Hserved ->]]
  end.

Lemma served_head (plan : list (option string)) :
  clear 1 plan = true ->
  forall (T : Type) (x : string -> T) (y : T),
    match head plan with Some (Some m) => x m | _ => y end = y.
Proof.
  intros H T x y. destruct plan as [|[m|] ?]; [reflexivity|discriminate|reflexivity].
Qed.

Ltac traffic :=
  repeat (apply List.Forall_cons;
          [first [left; reflexivity
                 |right; reflexivity
                 |right; split; [reflexivity|discriminate]]|]);
  apply List.Forall_nil.

(** ** The status writer *)

(** What [setState] does, case by case. *)
Lemma storage_setState_spec (w : World) (b : Storage) :
  let key := (s_Namespace b, s_Name b) in
  let r := storage.setState (w, b) in
  r.2.2 = b
  /\ r.1 = ({| ctrl.Requeue := false; ctrl.RequeueAfter := 0 |},
            persistOutcome "Storage" (apiFaults w) (storages w !! key))
  /\ databases r.2.1 = databases w /\ objects r.2.1 = objects w
  /\ pods r.2.1 = pods w /\ execOutcomes r.2.1 = execOutcomes w
  /\ probeOutcomes r.2.1 = probeOutcomes w /\ tenantOutcomes r.2.1 = tenantOutcomes w
  /\ match persistOutcome "Storage" (apiFaults w) (storages w !! key) with
     | None =>
         storages r.2.1 = alter (fun old => (old.1, s_Status b)) key (storages w)
         /\ apiFaults r.2.1 = drop 2 (apiFaults w)
         /\ calls r.2.1 =
            calls w ++ [(CGet "Storage" key, None);
                        (CStatusUpdate "Storage" key (s_Status b), None)]
     | Some e =>
         storages r.2.1 = storages w
         /\ exists l, calls r.2.1 = calls w ++ l
              /\ Forall (fun ce => ce.1 = CGet "Storage" key
                                   \/ (ce.1 = CStatusUpdate "Storage" key (s_Status b)
                                       /\ ce.2 <> None)) l
     end.
Proof.
  destruct b as [ns n sp [st cs]].
  intros key r. subst r key. unfold storage.setState, persistOutcome. api.
  cbn [s_Namespace s_Name s_Status s_Spec State Conditions].
  set (key := (ns, n)).
  on_request Hh Hc.
  - rewrite Hh. frame. repeat split; try reflexivity.
    eexists. split; [reflexivity|]. traffic.
  - rewrite (served_head _ Hc). frame.
    destruct (storages w !! key) as [old|] eqn:Hold; cbn [fmap option_fmap option_map].
    + run. cbn [client.storageAt s_Namespace s_Name s_Status s_Spec State Conditions].
      change (key.1, key.2) with key.
      on_request Hh2 Hc2.
      * frame. frame in Hh2. rewrite Hh2. run. frame.
        repeat split; try reflexivity.
        eexists. split; [rewrite <- app_assoc; reflexivity|]. traffic.
      * frame. frame in Hc2. rewrite Hold. frame. run.
        rewrite (served_head _ Hc2).
        repeat split; try reflexivity.
        -- apply map_eq. intros k. rewrite lookup_alter. rewrite lookup_insert.
           destruct (decide (key = k)) as [<-|Hne]; [|reflexivity]. rewrite Hold. reflexivity.
        -- destruct (apiFaults w) as [|? [|? ?]]; reflexivity.
        -- rewrite <- app_assoc. reflexivity.
    + run. frame. repeat split; try reflexivity.
      eexists. split; [reflexivity|]. traffic.
Qed.

Lemma storage_setState_ok (w : World) (b : Storage) :
  let key := (s_Namespace b, s_Name b) in
  persistOutcome "Storage" (apiFaults w) (storages w !! key) = None ->
  exists w',
    storage.setState (w, b) = (controllers.Ok, (w', b))
    /\ storages w' = alter (fun old => (old.1, s_Status b)) key (storages w)
    /\ databases w' = databases w /\ objects w' = objects w
    /\ pods w' = pods w /\ execOutcomes w' = execOutcomes w
    /\ probeOutcomes w' = probeOutcomes w /\ tenantOutcomes w' = tenantOutcomes w
    /\ apiFaults w' = drop 2 (apiFaults w)
    /\ calls w' = calls w ++ [(CGet "Storage" key, None);
                               (CStatusUpdate "Storage" key (s_Status b), None)].
Proof.
  intros key Hp. pose proof (storage_setState_spec w b) as H. cbv zeta in H.
  fold key in H. rewrite Hp in H.
  destruct (storage.setState (w, b)) as [o [w' b']]. cbn [fst snd] in H.
  destruct H as (-> & -> & Hd & Ho & Hpo & He & Hpr & Ht & Hs & Hf & Hc).
  exists w'. repeat split; assumption.
Qed.

Lemma storage_setState_failed (w : World) (b : Storage) (e : Err) :
  let key := (s_Namespace b, s_Name b) in
  persistOutcome "Storage" (apiFaults w) (storages w !! key) = Some e ->
  exists w',
    storage.setState (w, b) = (controllers.NoRequeue e, (w', b))
    /\ storages w' = storages w
    /\ databases w' = databases w /\ objects w' = objects w
    /\ pods w' = pods w /\ execOutcomes w' = execOutcomes w
    /\ probeOutcomes w' = probeOutcomes w /\ tenantOutcomes w' = tenantOutcomes w
    /\ exists l, calls w' = calls w ++ l
         /\ Forall (fun ce => ce.1 = CGet "Storage" key
                              \/ (ce.1 = CStatusUpdate "Storage" key (s_Status b)
                                  /\ ce.2 <> None)) l.
Proof.
  intros key Hp. pose proof (storage_setState_spec w b) as H. cbv zeta in H.
  fold key in H. rewrite Hp in H.
  destruct (storage.setState (w, b)) as [o [w' b']]. cbn [fst snd] in H.
  destruct H as (-> & -> & Hd & Ho & Hpo & He & Hpr & Ht & Hs & Hc).
  exists w'. repeat split; assumption.
Qed.

(** The loop of the wait-for-scale phase counts the pods whose phase is
    ["Running"]. *)
Lemma countRunning_from (items : list Pod) (n : Z) :
  fold_left
    (fun runningPods e =>
       if bool_decide (p_Phase e = "Running") then runningPods + 1 else runningPods)
    items n =
  n + Z.of_nat (length (List.filter (fun e => bool_decide (p_Phase e = "Running")) items)).
Proof.
  revert n. induction items as [|e rest IH]; intros n; cbn [fold_left List.filter].
  - cbn. lia.
  - rewrite IH. destruct (bool_decide (p_Phase e = "Running")); cbn [length]; lia.
Qed.

Lemma countRunning_length (items : list Pod) :
  storage.countRunning items =
  Z.of_nat (length (List.filter (fun e => bool_decide (p_Phase e = "Running")) items)).
Proof. unfold storage.countRunning. rewrite countRunning_from. lia. Qed.

(** C2. The Storage wait-for-scale phase, when the workload object exists,
    the API server serves the fetch and the listing, and the status write
    goes through: a count of running member pods different from
    [Spec.Nodes] sets [State] to Provisioning, persists it and requeues
    after 10 seconds; an equal count with StorageInitialized true and
    [State] not Ready sets and persists [State] Ready and continues. *)
Theorem storage_waitForStatefulSetToScale_spec (X : Externals) (w : World)
    (storage : Storage) (sts : Object) :
  let key := (s_Namespace storage, s_Name storage) in
  clear 2 (apiFaults w) = true ->
  objects w !! ("StatefulSet", key.1, key.2) = Some sts ->
  persistOutcome "Storage" (drop 2 (apiFaults w)) (storages w !! key) = None ->
  let members :=
    List.filter (client.selects (s_Namespace storage) (storage.podLabels X storage)) (pods w) in
  let running :=
    Z.of_nat (length (List.filter (fun e => bool_decide (p_Phase e = "Running")) members)) in
  let r := storage.waitForStatefulSetToScale X (w, storage) in
  (running <> st_Nodes (s_Spec storage) ->
     r.1 = controllers.RequeueAfter (10 * ctrl.Second) None
     /\ State (s_Status r.2.2) = "Provisioning"
     /\ snd <$> (storages r.2.1 !! key) = Some (s_Status r.2.2))
  /\ (running = st_Nodes (s_Spec storage) ->
      meta.IsStatusConditionTrue (Conditions (s_Status storage))
        storage.StorageInitializedCondition = true ->
      State (s_Status storage) <> "Ready" ->
      r.1 = controllers.Ok
      /\ State (s_Status r.2.2) = "Ready"
      /\ snd <$> (storages r.2.1 !! key) = Some (s_Status r.2.2)).
Proof.
  intros key Hclear Hsts Hpersist members running r.
  apply clear_S in Hclear as [H1 Hclear]. apply clear_S in Hclear as [H2 _].
  assert (Hstored : is_Some (storages w !! key)).
  { unfold persistOutcome in Hpersist.
    destruct (storages w !! key); [eauto|].
    destruct (head (drop 2 (apiFaults w))) as [[?|]|]; discriminate. }
  destruct Hstored as [old Hold].
  subst r. unfold storage.waitForStatefulSetToScale. api.
  rewrite request_served by exact H1. frame.
  unfold key in Hsts. cbn [fst snd] in Hsts. rewrite Hsts. run.
  rewrite request_served by (frame; exact H2). frame. run.
  rewrite countRunning_length. fold members. fold running.
  assert (Hdrop : tail (tail (apiFaults w)) = drop 2 (apiFaults w))
    by (destruct (apiFaults w) as [|? [|? ?]]; reflexivity).
  split.
  - intros Hne. rewrite bool_decide_true by exact Hne. run.
    match goal with |- context [storage.setState (?w1, ?b1)] =>
      destruct (storage_setState_ok w1 b1) as (wp & Ep & Hsp & _) end.
    { frame. cbn [storage.with_State s_Namespace s_Name]. rewrite Hdrop. exact Hpersist. }
    rewrite Ep. run. frame in Hsp.
    cbn [storage.with_State s_Namespace s_Name] in Hsp. fold key in Hsp.
    frame. rewrite Hsp. rewrite lookup_alter, decide_True by reflexivity. rewrite Hold.
    repeat split.
  - intros Heq Hcond Hst. rewrite bool_decide_false by (intros Hne; apply Hne, Heq).
    rewrite bool_decide_true by exact Hst. rewrite Hcond. cbn [andb]. run.
    match goal with |- context [storage.setState (?w1, ?b1)] =>
      destruct (storage_setState_ok w1 b1) as (wr & Er & Hsr & _) end.
    { frame. cbn [storage.with_State s_Namespace s_Name]. rewrite Hdrop. exact Hpersist. }
    rewrite Er. run. frame in Hsr.
    cbn [storage.with_State s_Namespace s_Name] in Hsr. fold key in Hsr.
    frame. rewrite Hsr. rewrite lookup_alter, decide_True by reflexivity. rewrite Hold.
    repeat split.
Qed.

(** What [setState] does, case by case. *)
Lemma database_setState_spec (w : World) (b : Database) :
  let key := (d_Namespace b, d_Name b) in
  let r := database.setState (w, b) in
  r.2.2 = b
  /\ r.1 = ({| ctrl.Requeue := false; ctrl.RequeueAfter := 0 |},
            persistOutcome "Database" (apiFaults w) (databases w !! key))
  /\ storages r.2.1 = storages w /\ objects r.2.1 = objects w
  /\ pods r.2.1 = pods w /\ execOutcomes r.2.1 = execOutcomes w
  /\ probeOutcomes r.2.1 = probeOutcomes w /\ tenantOutcomes r.2.1 = tenantOutcomes w
  /\ match persistOutcome "Database" (apiFaults w) (databases w !! key) with
     | None =>
         databases r.2.1 = alter (fun old => (old.1, d_Status b)) key (databases w)
         /\ apiFaults r.2.1 = drop 2 (apiFaults w)
         /\ calls r.2.1 =
            calls w ++ [(CGet "Database" key, None);
                        (CStatusUpdate "Database" key (d_Status b), None)]
     | Some e =>
         databases r.2.1 = databases w
         /\ exists l, calls r.2.1 = calls w ++ l
              /\ Forall (fun ce => ce.1 = CGet "Database" key
                                   \/ (ce.1 = CStatusUpdate "Database" key (d_Status b)
                                       /\ ce.2 <> None)) l
     end.
Proof.
  destruct b as [ns n sp [st cs]].
  intros key r. subst r key. unfold database.setState, persistOutcome. api.
  cbn [d_Namespace d_Name d_Status d_Spec State Conditions].
  set (key := (ns, n)).
  on_request Hh Hc.
  - rewrite Hh. frame. repeat split; try reflexivity.
    eexists. split; [reflexivity|]. traffic.
  - rewrite (served_head _ Hc). frame.
    destruct (databases w !! key) as [old|] eqn:Hold; cbn [fmap option_fmap option_map].
    + run. cbn [client.databaseAt d_Namespace d_Name d_Status d_Spec State Conditions].
      change (key.1, key.2) with key.
      on_request Hh2 Hc2.
      * frame. frame in Hh2. rewrite Hh2. run. frame.
        repeat split; try reflexivity.
        eexists. split; [rewrite <- app_assoc; reflexivity|]. traffic.
      * frame. frame in Hc2. rewrite Hold. frame. run.
        rewrite (served_head _ Hc2).
        repeat split; try reflexivity.
        -- apply map_eq. intros k. rewrite lookup_alter. rewrite lookup_insert.
           destruct (decide (key = k)) as [<-|Hne]; [|reflexivity]. rewrite Hold. reflexivity.
        -- destruct (apiFaults w) as [|? [|? ?]]; reflexivity.
        -- rewrite <- app_assoc. reflexivity.
    + run. frame. repeat split; try reflexivity.
      eexists. split; [reflexivity|]. traffic.
Qed.

Lemma database_setState_ok (w : World) (b : Database) :
  let key := (d_Namespace b, d_Name b) in
  persistOutcome "Database" (apiFaults w) (databases w !! key) = None ->
  exists w',
    database.setState (w, b) = (controllers.Ok, (w', b))
    /\ databases w' = alter (fun old => (old.1, d_Status b)) key (databases w)
    /\ storages w' = storages w /\ objects w' = objects w
    /\ pods w' = pods w /\ execOutcomes w' = execOutcomes w
    /\ probeOutcomes w' = probeOutcomes w /\ tenantOutcomes w' = tenantOutcomes w
    /\ apiFaults w' = drop 2 (apiFaults w)
    /\ calls w' = calls w ++ [(CGet "Database" key, None);
                               (CStatusUpdate "Database" key (d_Status b), None)].
Proof.
  intros key Hp. pose proof (database_setState_spec w b) as H. cbv zeta in H.
  fold key in H. rewrite Hp in H.
  destruct (database.setState (w, b)) as [o [w' b']]. cbn [fst snd] in H.
  destruct H as (-> & -> & Hd & Ho & Hpo & He & Hpr & Ht & Hs & Hf & Hc).
  exists w'. repeat split; assumption.
Qed.

Lemma database_setState_failed (w : World) (b : Database) (e : Err) :
  let key := (d_Namespace b, d_Name b) in
  persistOutcome "Database" (apiFaults w) (databases w !! key) = Some e ->
  exists w',
    database.setState (w, b) = (controllers.NoRequeue e, (w', b))
    /\ databases w' = databases w
    /\ storages w' = storages w /\ objects w' = objects w
    /\ pods w' = pods w /\ execOutcomes w' = execOutcomes w
    /\ probeOutcomes w' = probeOutcomes w /\ tenantOutcomes w' = tenantOutcomes w
    /\ exists l, calls w' = calls w ++ l
         /\ Forall (fun ce => ce.1 = CGet "Database" key
                              \/ (ce.1 = CStatusUpdate "Database" key (d_Status b)
                                  /\ ce.2 <> None)) l.
Proof.
  intros key Hp. pose proof (database_setState_spec w b) as H. cbv zeta in H.
  fold key in H. rewrite Hp in H.
  destruct (database.setState (w, b)) as [o [w' b']]. cbn [fst snd] in H.
  destruct H as (-> & -> & Hd & Ho & Hpo & He & Hpr & Ht & Hs & Hc).
  exists w'. repeat split; assumption.
Qed.


(** ** Defaults of the Database spec *)

Lemma SetDatabaseSpecDefaults_unfold
    (fmt reg tag : string) (sprintf : string -> string -> string -> string)
    (ydbCr : Database) (spec : DatabaseSpec) :
  SetDatabaseSpecDefaults fmt reg tag sprintf ydbCr spec =
  {| StorageClusterRef :=
       {| ref_Name := ref_Name (StorageClusterRef spec);
          ref_Namespace :=
            if decide (ref_Namespace (StorageClusterRef spec) = "") then d_Namespace ydbCr
            else ref_Namespace (StorageClusterRef spec) |};
     Image :=
       {| img_Name :=
            if decide (img_Name (Image spec) = "") then
              sprintf fmt reg (if decide (YDBVersion spec = "") then tag else YDBVersion spec)
            else img_Name (Image spec);
          img_PullPolicyName :=
            Some (default PullIfNotPresent (img_PullPolicyName (Image spec))) |};
     YDBVersion := YDBVersion spec;
     db_Nodes := db_Nodes spec |}.
Proof.
  destruct spec as [[rn rns] [iname pol] ver nodes].
  unfold SetDatabaseSpecDefaults.
  cbn [StorageClusterRef ref_Namespace ref_Name Image img_Name img_PullPolicyName YDBVersion db_Nodes].
  destruct (decide (rns = "")) as [Hns|Hns];
    cbv zeta;
    cbn [StorageClusterRef ref_Namespace ref_Name Image img_Name img_PullPolicyName YDBVersion db_Nodes];
    (destruct (decide (iname = "")) as [Hi|Hi]);
    cbn [StorageClusterRef ref_Namespace ref_Name Image img_Name img_PullPolicyName YDBVersion db_Nodes];
    (destruct pol as [p|]); try reflexivity;
    (destruct (decide (ver = "")) as [Hv|Hv]); reflexivity.
Qed.

(** C9. [SetDatabaseSpecDefaults] is idempotent and only fills what is
    absent: a non-empty reference namespace, a non-empty image name and
    a non-nil pull policy are kept, an empty reference namespace becomes
    the namespace of the Database, and the other fields are not
    touched. *)
Theorem SetDatabaseSpecDefaults_fills_absent_idempotent
    (fmt reg tag : string) (sprintf : string -> string -> string -> string)
    (ydbCr : Database) (spec : DatabaseSpec) :
  let set := SetDatabaseSpecDefaults fmt reg tag sprintf ydbCr in
  set (set spec) = set spec
  /\ ref_Namespace (StorageClusterRef (set spec)) =
       (if decide (ref_Namespace (StorageClusterRef spec) = "") then d_Namespace ydbCr
        else ref_Namespace (StorageClusterRef spec))
  /\ img_Name (Image (set spec)) =
       (if decide (img_Name (Image spec) = "") then
          sprintf fmt reg (if decide (YDBVersion spec = "") then tag else YDBVersion spec)
        else img_Name (Image spec))
  /\ img_PullPolicyName (Image (set spec)) =
       Some (default PullIfNotPresent (img_PullPolicyName (Image spec)))
  /\ ref_Name (StorageClusterRef (set spec)) = ref_Name (StorageClusterRef spec)
  /\ YDBVersion (set spec) = YDBVersion spec
  /\ db_Nodes (set spec) = db_Nodes spec.
Proof.
  cbv zeta. rewrite !SetDatabaseSpecDefaults_unfold.
  cbn [StorageClusterRef ref_Namespace ref_Name Image img_Name img_PullPolicyName YDBVersion db_Nodes].
  repeat split.
  f_equal; [f_equal | f_equal].
  - destruct (decide (ref_Namespace (StorageClusterRef spec) = "")) as [H|H].
    + case_decide; reflexivity.
    + case_decide; congruence.
  - destruct (decide (img_Name (Image spec) = "")) as [H|H].
    + case_decide; reflexivity.
    + case_decide; congruence.
Qed.

(** ** The condition ledger and the gated phases *)

Lemma FindStatusCondition_unique (conditions : list Condition) (c : Condition) :
  NoDup (cType <$> conditions) -> c ∈ conditions ->
  meta.FindStatusCondition conditions (cType c) = Some c.
Proof.
  induction conditions as [|c0 rest IH]; intros Hnd Hin.
  - inversion Hin.
  - cbn [meta.FindStatusCondition]. rewrite fmap_cons in Hnd.
    apply NoDup_cons in Hnd as [Hfresh Hnd].
    apply elem_of_cons in Hin as [->|Hin].
    + rewrite decide_True by reflexivity. reflexivity.
    + rewrite decide_False.
      * apply IH; assumption.
      * intros Heq. apply Hfresh. rewrite Heq. apply list_elem_of_fmap. exists c. split; [reflexivity|assumption].
Qed.

Lemma IsStatusConditionTrue_unique (conditions : option (list Condition)) (c : Condition) :
  NoDup (cType <$> default [] conditions) -> c ∈ default [] conditions ->
  cStatus c = "True" ->
  meta.IsStatusConditionTrue conditions (cType c) = true.
Proof.
  intros Hnd Hin Hst. unfold meta.IsStatusConditionTrue.
  rewrite (FindStatusCondition_unique _ c Hnd Hin).
  apply bool_decide_eq_true. exact Hst.
Qed.

(** C1. With StorageInitialized true in the (uniquely keyed) condition
    sequence, the bootstrap phase returns continue and changes nothing:
    the world, and with it the log of calls, and the working copy are
    as before, so no remote command is run. *)
Theorem runDefineBoxScript_gated (w : World) (storage : Storage) (c : Condition) :
  NoDup (cType <$> default [] (Conditions (s_Status storage))) ->
  c ∈ default [] (Conditions (s_Status storage)) ->
  cType c = storage.StorageInitializedCondition ->
  cStatus c = "True" ->
  storage.runDefineBoxScript (w, storage) = (controllers.Ok, (w, storage)).
Proof.
  intros Hnd Hin Hty Hst.
  unfold storage.runDefineBoxScript. run.
  rewrite <- Hty. rewrite (IsStatusConditionTrue_unique _ c Hnd Hin Hst).
  reflexivity.
Qed.

(** C7. The health check leaves the working copy and the stored
    resources as they are: a non-nil probe outcome requeues after 30
    seconds with that error, a nil one continues. *)
Theorem waitForHealthCheck_frame (w : World) (storage : Storage) :
  let r := storage.waitForHealthCheck (w, storage) in
  snd (snd r) = storage
  /\ storages (fst (snd r)) = storages w
  /\ fst r = match answer (probeOutcomes w) with
             | Some err => controllers.RequeueAfter (30 * ctrl.Second) (Some err)
             | None => controllers.Ok
             end.
Proof.
  unfold storage.waitForHealthCheck, CheckBootstrapHealth. run.
  destruct (answer (probeOutcomes w)) as [err|]; run; auto.
Qed.

(** ** The bootstrap phase *)

Lemma answer_clear (plan : list (option string)) :
  clear 1 plan = true -> answer plan = None.
Proof. unfold answer. destruct plan as [|[m|] ?]; [reflexivity|discriminate|reflexivity]. Qed.

Lemma answer_failed (plan : list (option string)) (msg : string) :
  head plan = Some (Some msg) -> answer plan = Some (Failure msg).
Proof. unfold answer. intros ->. reflexivity. Qed.

(** With the condition unset the first command is always run, and the second
    one whenever the first succeeds. *)
Lemma runDefineBoxScript_runs_commands (w : World) (storage : Storage) :
  meta.IsStatusConditionTrue (Conditions (s_Status storage))
    storage.StorageInitializedCondition = false ->
  let pod := s_Name storage +:+ "-0" in
  let r := storage.runDefineBoxScript (w, storage) in
  exists e1 l,
    calls r.2.1 =
      calls w ++ (CExec (s_Namespace storage) pod "ydb-storage" storage.cmdDefineBox, e1) :: l
    /\ (e1 = None ->
        exists e2 l',
          l = (CExec (s_Namespace storage) pod "ydb-storage" storage.cmdConfigureRoot, e2) :: l').
Proof.
  intros Hgate pod r. subst r. unfold storage.runDefineBoxScript. run. rewrite Hgate.
  api. frame.
  destruct (answer (execOutcomes w)) as [err1|]; run; frame.
  - exists (Some err1), []. split; [reflexivity|]. intros; discriminate.
  - destruct (answer (tail (execOutcomes w))) as [err2|]; run; frame.
    + eexists None, _. split; [rewrite <- app_assoc; reflexivity|]. intros _. eauto.
    + pose proof (storage_setState_spec
                    (log (CExec (s_Namespace storage) pod "ydb-storage" storage.cmdConfigureRoot) None
                       (set_execOutcomes (tail (tail (execOutcomes w)))
                          (log (CExec (s_Namespace storage) pod "ydb-storage" storage.cmdDefineBox) None
                             (set_execOutcomes (tail (execOutcomes w)) w))))
                    (storage.with_Condition
                       {| cType := storage.StorageInitializedCondition; cStatus := "True";
                          cReason := "StorageInitialized";
                          cMessage := "Storage initialized successfully" |} storage)) as H.
      cbv zeta in H. fold pod in H |- *.
      match type of H with context [storage.setState ?s] =>
        destruct (storage.setState s) as [[res err] [w' b']] end.
      cbn [fst snd] in H. destruct H as (-> & Hres & _ & _ & _ & _ & _ & _ & Hcase).
      injection Hres as -> ->. frame in Hcase.
      assert (Hcalls : exists l0, calls w' =
                (calls w ++ [(CExec (s_Namespace storage) pod "ydb-storage" storage.cmdDefineBox, None)]
                   ++ [(CExec (s_Namespace storage) pod "ydb-storage" storage.cmdConfigureRoot, None)])
                ++ l0).
      { rewrite app_assoc.
        match type of Hcase with match ?p with _ => _ end =>
          destruct p; [destruct Hcase as (_ & l0 & -> & _)|destruct Hcase as (_ & _ & ->)];
          eexists; reflexivity end. }
      destruct Hcalls as [l0 Hcalls].
      match goal with |- context [match ?p with Some _ => _ | None => _ end] =>
        destruct p end; run; frame; rewrite Hcalls;
        (eexists None, _; split; [rewrite <- !app_assoc; reflexivity|]; intros _; eauto).
Qed.

(** C10. Both bootstrap commands succeed and the status write that
    follows fails with [e]: the phase returns [e] with no requeue delay,
    the store is left as it was, so that the StorageInitialized condition
    is not recorded; a later pass on the stored resource finds the
    condition unset and runs the commands again. *)
Theorem runDefineBoxScript_persist_failure (X : Externals) (w : World)
    (storage : Storage) (e : Err) :
  let key := (s_Namespace storage, s_Name storage) in
  let pod := s_Name storage +:+ "-0" in
  meta.IsStatusConditionTrue (Conditions (s_Status storage))
    storage.StorageInitializedCondition = false ->
  (forall stored, storages w !! key = Some stored ->
     meta.IsStatusConditionTrue (Conditions stored.2)
       storage.StorageInitializedCondition = false) ->
  clear 2 (execOutcomes w) = true ->
  persistOutcome "Storage" (apiFaults w) (storages w !! key) = Some e ->
  let r := storage.runDefineBoxScript (w, storage) in
  r.1 = controllers.NoRequeue e
  /\ ctrl.RequeueAfter r.1.1 = 0
  /\ storages r.2.1 = storages w
  /\ (forall stored later,
        storages r.2.1 !! key = Some stored ->
        let again :=
          resources.SetStatusOnFirstReconcile
            (resources.NewCluster X (client.storageAt key stored)) in
        let r' := storage.runDefineBoxScript (later, again) in
        meta.IsStatusConditionTrue (Conditions (s_Status again))
          storage.StorageInitializedCondition = false
        /\ exists e1 l,
             calls r'.2.1 =
               calls later
               ++ (CExec (s_Namespace storage) pod "ydb-storage" storage.cmdDefineBox, e1) :: l
             /\ (e1 = None ->
                 exists e2 l',
                   l = (CExec (s_Namespace storage) pod "ydb-storage"
                          storage.cmdConfigureRoot, e2) :: l')).
Proof.
  intros key pod Hgate Hstored Hexec Hpersist r.
  apply clear_S in Hexec as [Hx1 Hexec]. apply clear_S in Hexec as [Hx2 _].
  assert (Hrun : r.1 = controllers.NoRequeue e /\ storages r.2.1 = storages w).
  { subst r. unfold storage.runDefineBoxScript. run. rewrite Hgate. api. frame.
    rewrite (answer_clear _ Hx1). run. frame. rewrite (answer_clear _ Hx2). run.
    match goal with |- context [storage.setState (?w1, ?b1)] =>
      destruct (storage_setState_failed w1 b1 e) as (w' & E & Hs & _) end.
    { frame. exact Hpersist. }
    rewrite E. run. frame in Hs. split; [reflexivity|exact Hs]. }
  destruct Hrun as [Ho Hs]. rewrite Ho, Hs.
  split; [reflexivity|]. split; [reflexivity|]. split; [reflexivity|].
  intros stored later Hlook again r'.
  assert (Hagain : meta.IsStatusConditionTrue (Conditions (s_Status again))
                     storage.StorageInitializedCondition = false).
  { specialize (Hstored stored Hlook). subst again.
    unfold resources.SetStatusOnFirstReconcile, resources.NewCluster, resources.seed.
    cbn [s_Status client.storageAt]. destruct stored as [sp [st [cs|]]]; cbn in *; auto. }
  split; [exact Hagain|].
  exact (runDefineBoxScript_runs_commands later again Hagain).
Qed.

(** ** Transient failures *)

(** C8, as amended. A failed remote command, a negative health probe, a
    failed tenant creation and a failed fetch of the referenced Storage
    end the phase with a timed requeue (30s, 30s, 30s, 60s) that carries
    the error; a failed get or list of the object store during the
    wait-for-scale phase ends it with the error and no requeue delay, the
    working copy untouched.  Every phase returns: none of these failures
    stops the process. *)
Theorem transient_failure_outcomes (X : Externals) (w : World)
    (storage : Storage) (database : Database) (msg : string) :
  let e := Failure msg in
  (head (apiFaults w) = Some (Some msg) ->
     storage.waitForStatefulSetToScale X (w, storage)
     = (controllers.NoRequeue e,
        (record {| ev_Type := EventTypeNormal; ev_Reason := "Syncing" |}
           (log (CGet "StatefulSet" (s_Namespace storage, s_Name storage)) (Some e)
              (set_apiFaults (tail (apiFaults w)) w)), storage)))
  /\ (clear 1 (apiFaults w) = true ->
      is_Some (objects w !! ("StatefulSet", s_Namespace storage, s_Name storage)) ->
      head (tail (apiFaults w)) = Some (Some msg) ->
      let r := storage.waitForStatefulSetToScale X (w, storage) in
      r.1 = controllers.NoRequeue e /\ r.2.2 = storage /\ storages r.2.1 = storages w)
  /\ (head (apiFaults w) = Some (Some msg) ->
      let r := database.waitForStatefulSetToScale (w, database) in
      r.1 = controllers.NoRequeue e /\ r.2.2 = database /\ databases r.2.1 = databases w)
  /\ (meta.IsStatusConditionTrue (Conditions (s_Status storage))
        storage.StorageInitializedCondition = false ->
      head (execOutcomes w) = Some (Some msg) ->
      (storage.runDefineBoxScript (w, storage)).1
      = controllers.RequeueAfter (30 * ctrl.Second) (Some e))
  /\ (meta.IsStatusConditionTrue (Conditions (s_Status storage))
        storage.StorageInitializedCondition = false ->
      clear 1 (execOutcomes w) = true ->
      head (tail (execOutcomes w)) = Some (Some msg) ->
      (storage.runDefineBoxScript (w, storage)).1
      = controllers.RequeueAfter (30 * ctrl.Second) (Some e))
  /\ (head (probeOutcomes w) = Some (Some msg) ->
      (storage.waitForHealthCheck (w, storage)).1
      = controllers.RequeueAfter (30 * ctrl.Second) (Some e))
  /\ (persistOutcome "Database" (apiFaults w)
        (databases w !! (d_Namespace database, d_Name database)) = None ->
      head (tenantOutcomes w) = Some (Some msg) ->
      (database.handleTenantCreation X (w, database)).1
      = controllers.RequeueAfter (30 * ctrl.Second) (Some e))
  /\ (head (apiFaults w) = Some (Some msg) ->
      (database.waitForClusterResource (w, database)).1
      = controllers.RequeueAfter (60 * ctrl.Second) (Some e)).
Proof.
  intros e. repeat apply conj.
  - intros Hf. unfold storage.waitForStatefulSetToScale. api.
    rewrite (request_failed _ _ _ _ Hf). run. reflexivity.
  - intros Hc [sts Hsts] Hf. unfold storage.waitForStatefulSetToScale. api.
    rewrite request_served by exact Hc. frame. rewrite Hsts. run.
    rewrite (request_failed _ _ _ msg) by (frame; exact Hf). run. frame.
    repeat split.
  - intros Hf. unfold database.waitForStatefulSetToScale. api.
    rewrite (request_failed _ _ _ _ Hf). run. frame. repeat split.
  - intros Hgate Hf. unfold storage.runDefineBoxScript. run. rewrite Hgate. api.
    rewrite (answer_failed _ _ Hf). run. reflexivity.
  - intros Hgate Hc Hf. unfold storage.runDefineBoxScript. run. rewrite Hgate. api.
    rewrite (answer_clear _ Hc). run. frame. rewrite (answer_failed _ _ Hf). run.
    reflexivity.
  - intros Hf. unfold storage.waitForHealthCheck. api.
    rewrite (answer_failed _ _ Hf). run. reflexivity.
  - intros Hp Hf. unfold database.handleTenantCreation. run.
    match goal with |- context [database.setState (?w1, ?b1)] =>
      destruct (database_setState_ok w1 b1) as (w' & E & _ & _ & _ & _ & _ & _ & Ht & _) end.
    { exact Hp. }
    rewrite E. run. api. rewrite Ht. frame. rewrite (answer_failed _ _ Hf). run.
    reflexivity.
  - intros Hf. unfold database.waitForClusterResource. api.
    rewrite (request_failed _ _ _ _ Hf). run. reflexivity.
Qed.

(** ** Dependency gating *)

(** The run of [Sync] on a Database whose Storage is absent or not Ready. *)
Lemma database_Sync_gated_run (X : Externals) (w : World) (ydbCr : Database) :
  let database := resources.SetStatusOnFirstReconcile_db (resources.NewDatabase X ydbCr) in
  let key := (d_Namespace ydbCr, d_Name ydbCr) in
  let ref := (ref_Namespace (StorageClusterRef (d_Spec database)),
              ref_Name (StorageClusterRef (d_Spec database))) in
  match storages w !! ref with
  | Some stored => State stored.2 <> "Ready"
  | None => True
  end ->
  exists err w',
    database.Sync X ydbCr w
    = (controllers.RequeueAfter (60 * ctrl.Second) err, (w', database))
    /\ (forall k stored', databases w' !! k = Some stored' ->
          databases w !! k = Some stored'
          \/ (k = key /\ State stored'.2 = State (d_Status ydbCr)))
    /\ (exists seed e,
          calls w' = calls w ++ seed ++ [(CGet "Storage" ref, e)]
          /\ Forall (fun ce => ce.1 = CGet "Database" key
                               \/ ce.1 = CStatusUpdate "Database" key (d_Status database))
               seed).
Proof.
  intros database key ref Hdep. unfold database.Sync. fold database.
  unfold database.phases. run.
  pose proof (database_setState_spec w database) as H. cbv zeta in H.
  change (d_Namespace database, d_Name database) with key in H.
  remember (database.setState (w, database)) as res eqn:E.
  destruct res as [o [w1 b1]]. clear E. cbn [fst snd] in H.
  destruct H as (-> & _ & Hsto & _ & _ & _ & _ & _ & Hcase).
  assert (Hstate : State (d_Status database) = State (d_Status ydbCr)).
  { unfold database, resources.SetStatusOnFirstReconcile_db, resources.seed.
    cbn [d_Status resources.NewDatabase]. destruct (Conditions (d_Status ydbCr)); reflexivity. }
  assert (Hdb : forall k stored', databases w1 !! k = Some stored' ->
            databases w !! k = Some stored'
            \/ (k = key /\ State stored'.2 = State (d_Status ydbCr))).
  { intros k stored' Hk.
    destruct (persistOutcome "Database" (apiFaults w) (databases w !! key)).
    - destruct Hcase as [Hd _]. rewrite Hd in Hk. left. exact Hk.
    - destruct Hcase as (Hd & _ & _). rewrite Hd in Hk. rewrite lookup_alter in Hk.
      destruct (decide (key = k)) as [<-|Hne]; [|left; exact Hk].
      destruct (databases w !! key) as [old|]; [|discriminate].
      cbn in Hk. injection Hk as <-. right. split; [reflexivity|exact Hstate]. }
  assert (Hcalls : exists seed, calls w1 = calls w ++ seed
            /\ Forall (fun ce => ce.1 = CGet "Database" key
                                 \/ ce.1 = CStatusUpdate "Database" key (d_Status database))
                 seed).
  { destruct (persistOutcome "Database" (apiFaults w) (databases w !! key)).
    - destruct Hcase as (_ & l & Hl & Hall). exists l. split; [assumption|].
      eapply List.Forall_impl; [|exact Hall]. intros ce [H|[H _]]; auto.
    - destruct Hcase as (_ & _ & Hl). eexists. split; [exact Hl|]. traffic. }
  destruct Hcalls as (seed & Hcalls & Hseed).
  unfold database.waitForClusterResource. api. fold ref.
  on_request Hf Hs.
  - run. cbn [stops]. eexists _, _. split; [reflexivity|]. frame. split; [exact Hdb|].
    exists seed, (Some (Failure msg)). rewrite Hcalls.
    split; [rewrite <- app_assoc; reflexivity|exact Hseed].
  - frame. rewrite Hsto.
    destruct (storages w !! ref) as [stored|] eqn:Hst; cbn [fmap option_fmap option_map]; run.
    + cbn [client.storageAt s_Status snd]. rewrite bool_decide_true by exact Hdep. run.
      cbn [stops ctrl.IsZero ctrl.Requeue ctrl.RequeueAfter negb andb].
      eexists _, _. split; [reflexivity|]. frame. split; [exact Hdb|].
      exists seed, None. rewrite Hcalls.
      split; [rewrite <- app_assoc; reflexivity|exact Hseed].
    + cbn [stops]. eexists _, _. split; [reflexivity|]. frame. split; [exact Hdb|].
      exists seed, (Some (NotFound "Storage")). rewrite Hcalls.
      split; [rewrite <- app_assoc; reflexivity|exact Hseed].
Qed.

(** C4. While the referenced Storage is absent or not Ready, [Sync] on a
    Database stops at the dependency wait with a requeue after 60
    seconds: besides the status seed the only call made is the fetch of
    the Storage, so the scale wait, the resource sync and the tenant
    creation are not reached; the working copy keeps the [State] it came
    with, and a stored [State] is only ever overwritten with that one. *)
Theorem database_Sync_waits_for_storage (X : Externals) (w : World) (ydbCr : Database) :
  let database := resources.SetStatusOnFirstReconcile_db (resources.NewDatabase X ydbCr) in
  let key := (d_Namespace ydbCr, d_Name ydbCr) in
  let ref := (ref_Namespace (StorageClusterRef (d_Spec database)),
              ref_Name (StorageClusterRef (d_Spec database))) in
  match storages w !! ref with
  | Some stored => State stored.2 <> "Ready"
  | None => True
  end ->
  let r := database.Sync X ydbCr w in
  (exists err, r.1 = controllers.RequeueAfter (60 * ctrl.Second) err)
  /\ State (d_Status r.2.2) = State (d_Status ydbCr)
  /\ (forall k stored', databases r.2.1 !! k = Some stored' ->
        databases w !! k = Some stored'
        \/ (k = key /\ State stored'.2 = State (d_Status ydbCr)))
  /\ (exists seed e,
        calls r.2.1 = calls w ++ seed ++ [(CGet "Storage" ref, e)]
        /\ Forall (fun ce => ce.1 = CGet "Database" key
                             \/ ce.1 = CStatusUpdate "Database" key (d_Status database))
             seed).
Proof.
  intros database key ref Hdep r.
  destruct (database_Sync_gated_run X w ydbCr Hdep) as (err & w' & E & Hdb & Hcalls).
  subst r. rewrite E. cbn [fst snd].
  split; [eauto|]. split; [|split; assumption].
  unfold database, resources.SetStatusOnFirstReconcile_db, resources.seed.
  cbn [d_Status resources.NewDatabase]. destruct (Conditions (d_Status ydbCr)); reflexivity.
Qed.

(** ** The builder set of a Storage *)

(** A monitor per metric endpoint and five more children, the workload
    last. *)
Lemma GetResourceBuilders_shape (X : Externals) (b : Storage) :
  length (resources.GetResourceBuilders X b)
  = (length (metrics_GetStorageMetricEndpoints X) + 5)%nat
  /\ last (resources.GetResourceBuilders X b)
     = Some (methods X (StorageStatefulSetBuilder b (labels_ClusterLabels X b))).
Proof.
  unfold resources.GetResourceBuilders, resources.Unwrap. cbv zeta. split.
  - rewrite length_app, length_fmap. reflexivity.
  - rewrite last_app. reflexivity.
Qed.

(** ** The apply engine *)

Lemma creates_log (c : Call) (e : option Err) (w : World) :
  creates (log c e w) = (creates w + (if is_create (c, e) then 1 else 0))%nat.
Proof.
  unfold creates. frame. rewrite List.filter_app, length_app. cbn [List.filter].
  destruct (is_create (c, e)); reflexivity.
Qed.

Lemma creates_calls (w w' : World) : calls w' = calls w -> creates w' = creates w.
Proof. unfold creates. intros ->. reflexivity. Qed.

Lemma creates_set_objects (m : gmap (string * string * string) Object) (w : World) :
  creates (set_objects m w) = creates w.
Proof. reflexivity. Qed.

Lemma creates_set_apiFaults (l : list (option string)) (w : World) :
  creates (set_apiFaults l w) = creates w.
Proof. reflexivity. Qed.

Ltac count :=
  rewrite ?creates_log; unfold creates; frame; cbn [is_create fst]; try lia.

Ltac decided :=
  first [rewrite bool_decide_false by discriminate
        |rewrite bool_decide_true by reflexivity].

Section Apply.
Variables (f : Object -> World -> (Err + Object) * World) (g : Object -> Err + Object).
Hypothesis f_pure :
  forall o w, exists w',
    f o w = (g o, w') /\ objects w' = objects w /\ calls w' = calls w
    /\ apiFaults w' = apiFaults w.

(** A successful apply leaves under the key an object the mutation
    produced, touches no other key, and makes one [Create] call exactly
    when it reports a creation. *)
Lemma CreateOrUpdate_applied (kind : string) (ph : Object) (w w' : World)
    (res : controllerutil.OperationResult) :
  let key := (kind, o_Namespace ph, o_Name ph) in
  controllerutil.CreateOrUpdate kind ph f w = ((res, None), w') ->
  (forall k, k <> key -> objects w' !! k = objects w !! k)
  /\ (exists v src, objects w' !! key = Some v /\ g src = inr v
        /\ (o_Namespace v, o_Name v) = (o_Namespace ph, o_Name ph))
  /\ creates w' =
     (creates w + (if bool_decide (res = controllerutil.OperationResultCreated)
                   then 1 else 0))%nat.
Proof.
  intros key. unfold controllerutil.CreateOrUpdate, controllerutil.mutate. api.
  on_request Hfault Hserved; [discriminate|].
  frame. fold key.
  destruct (objects w !! key) as [existing|] eqn:Hex; cbn [IsNotFound].
  - match goal with |- context [f existing ?w1] =>
      destruct (f_pure existing w1) as (w2 & -> & Ho & Hc & Ha) end.
    assert (Hcr : creates w2 = creates w)
      by (rewrite (creates_calls _ _ Hc); count).
    frame in Ho. frame in Ha.
    destruct (g existing) as [err|obj] eqn:Hg; [discriminate|].
    destruct (bool_decide ((o_Namespace obj, o_Name obj) = (o_Namespace ph, o_Name ph)))
      eqn:Hkey; [|discriminate].
    apply bool_decide_eq_true in Hkey.
    destruct (bool_decide (existing = obj)) eqn:Hsame.
    + apply bool_decide_eq_true in Hsame. subst obj.
      intros [= <- <-]. rewrite Ho.
      split; [reflexivity|]. split; [exists existing, existing; auto|].
      rewrite Hcr. decided. lia.
    + on_request Hfault2 Hserved2; [discriminate|].
      frame. injection Hkey as Hns Hn. rewrite Hns, Hn. fold key. rewrite Ho, Hex.
      intros [= <- <-]. frame.
      split; [intros k Hk; rewrite lookup_insert_ne by congruence; reflexivity|].
      split; [exists obj, existing; rewrite lookup_insert_eq; rewrite Hns, Hn; auto|].
      rewrite creates_log, creates_set_objects, creates_set_apiFaults, Hcr. decided. cbn [is_create fst]. lia.
  - match goal with |- context [f ph ?w1] =>
      destruct (f_pure ph w1) as (w2 & -> & Ho & Hc & Ha) end.
    assert (Hcr : creates w2 = creates w)
      by (rewrite (creates_calls _ _ Hc); count).
    frame in Ho. frame in Ha.
    destruct (g ph) as [err|obj] eqn:Hg; [discriminate|].
    destruct (bool_decide ((o_Namespace obj, o_Name obj) = (o_Namespace ph, o_Name ph)))
      eqn:Hkey; [|discriminate].
    apply bool_decide_eq_true in Hkey.
    on_request Hfault2 Hserved2; [discriminate|].
    frame. injection Hkey as Hns Hn. rewrite Hns, Hn. fold key. rewrite Ho, Hex.
    intros [= <- <-]. frame.
    split; [intros k Hk; rewrite lookup_insert_ne by congruence; reflexivity|].
    split; [exists obj, ph; rewrite lookup_insert_eq; rewrite Hns, Hn; auto|].
    rewrite creates_log, creates_set_objects, creates_set_apiFaults, Hcr. decided. cbn [is_create fst]. lia.
Qed.

(** Applying to a child that is already what the mutation makes of it
    writes nothing, whatever the API server answers. *)
Lemma CreateOrUpdate_settled (kind : string) (ph v : Object) (w : World) :
  let key := (kind, o_Namespace ph, o_Name ph) in
  objects w !! key = Some v ->
  g v = inr v ->
  (o_Namespace v, o_Name v) = (o_Namespace ph, o_Name ph) ->
  let r := controllerutil.CreateOrUpdate kind ph f w in
  objects r.2 = objects w /\ creates r.2 = creates w
  /\ r.1.1 <> controllerutil.OperationResultCreated.
Proof.
  intros key Hv Hg Hkey r. subst r.
  unfold controllerutil.CreateOrUpdate, controllerutil.mutate. api.
  on_request Hfault Hserved.
  - cbn [IsNotFound fst snd]. frame. split; [reflexivity|].
    split; [count|discriminate].
  - frame. fold key. rewrite Hv.
    match goal with |- context [f v ?w1] =>
      destruct (f_pure v w1) as (w2 & -> & Ho & Hc & Ha) end.
    assert (Hcr : creates w2 = creates w)
      by (rewrite (creates_calls _ _ Hc); count).
    frame in Ho. rewrite Hg.
    rewrite (bool_decide_true _ Hkey). rewrite bool_decide_true by reflexivity.
    cbn [fst snd]. split; [exact Ho|]. split; [exact Hcr|discriminate].
Qed.

End Apply.

(** ** Resource sync *)

Lemma storage_mutateFn_pure (storage : Storage) (b : ResourceBuilder) (o : Object) (w : World) :
  exists w',
    storage.mutateFn storage b o w = (storage.desired storage b o, w')
    /\ objects w' = objects w /\ calls w' = calls w /\ apiFaults w' = apiFaults w.
Proof.
  unfold storage.mutateFn, storage.desired.
  destruct (Build b o) as [err|rr]; [eexists; split; [reflexivity|]; frame; auto|].
  destruct (controllerutil.SetControllerReference _ _ _ rr) as [err|rr'];
    eexists; (split; [reflexivity|]); frame; auto.
Qed.

(** A pass that completes leaves every child as its builder makes it. *)
Lemma storage_syncEach_applied (storage : Storage) (builders : list ResourceBuilder) :
  let ns := s_Namespace storage in
  let name := s_Name storage in
  forall (created : bool) (w w' : World) (o : Outcome) (b' : Storage),
    NoDup (identity ns name <$> builders) ->
    (forall b src v, b ∈ builders ->
       storage.desired storage b src = inr v -> storage.desired storage b v = inr v) ->
    storage.syncEach storage builders created (w, storage) = (o, (w', b')) ->
    o.2 = None ->
    b' = storage
    /\ (forall b, b ∈ builders ->
          exists v, objects w' !! identity ns name b = Some v
            /\ storage.desired storage b v = inr v
            /\ (o_Namespace v, o_Name v)
               = (o_Namespace (Placeholder b ns name), o_Name (Placeholder b ns name)))
    /\ (forall k, k ∉ identity ns name <$> builders -> objects w' !! k = objects w !! k)
    /\ (creates w <= creates w')%nat
    /\ o = (if created || negb (creates w' =? creates w)%nat
            then controllers.RequeueImmediately else controllers.Ok).
Proof.
  intros ns name. induction builders as [|b rest IH]; intros created w w' o b' Hnd Hst.
  - cbn [storage.syncEach]. run. destruct created; intros [= <- <- <-] _; frame;
      (split; [reflexivity|]); (split; [intros b Hb; inversion Hb|]);
      (split; [reflexivity|]); (split; [unfold creates; frame; lia|]);
      unfold creates; frame; rewrite ?Nat.eqb_refl; reflexivity.
  - rewrite fmap_cons in Hnd. apply NoDup_cons in Hnd as [Hfresh Hnd].
    cbn [storage.syncEach]. run. fold ns name.
    destruct (controllerutil.CreateOrUpdate (rb_Kind b) (Placeholder b ns name)
                (storage.mutateFn storage b) w) as [[res [err|]] w1] eqn:E; run.
    { intros [= <- <- <-]. discriminate. }
    intros Hrun Herr.
    destruct (CreateOrUpdate_applied _ _ (storage_mutateFn_pure storage b) _ _ _ _ _ E)
      as (Hother & (v & src & Hv & Hg & Hkey) & Hcount).
    fold (identity ns name b) in Hother, Hv.
    destruct (IH _ _ _ _ _ Hnd (fun b0 src0 v0 Hb0 => Hst b0 src0 v0 (list_elem_of_further _ _ _ Hb0))
                Hrun Herr) as (-> & Hall & Hframe & Hle & Ho).
    split; [reflexivity|]. split; [|split; [|split]].
    + intros b0 Hb0. apply elem_of_cons in Hb0 as [->|Hb0]; [|exact (Hall b0 Hb0)].
      exists v. rewrite (Hframe _ Hfresh), Hv. repeat split; [|exact Hkey].
      exact (Hst b src v (list_elem_of_here _ _) Hg).
    + intros k Hk. rewrite fmap_cons in Hk. apply not_elem_of_cons in Hk as [Hk1 Hk2].
      rewrite (Hframe k Hk2). apply Hother. exact Hk1.
    + destruct (bool_decide (res = controllerutil.OperationResultCreated)); lia.
    + rewrite Ho.
      destruct created; cbn [orb]; [reflexivity|].
      destruct (bool_decide (res = controllerutil.OperationResultCreated)) eqn:Hres; cbn [orb].
      * replace (creates w' =? creates w)%nat with false
          by (symmetry; apply Nat.eqb_neq; lia). reflexivity.
      * replace (creates w1) with (creates w) by lia. reflexivity.
Qed.

(** A pass over children that are all as their builders make them writes
    nothing. *)
Lemma storage_syncEach_settled (storage : Storage) (builders : list ResourceBuilder) :
  let ns := s_Namespace storage in
  let name := s_Name storage in
  forall (created : bool) (w : World),
    (forall b, b ∈ builders ->
       exists v, objects w !! identity ns name b = Some v
         /\ storage.desired storage b v = inr v
         /\ (o_Namespace v, o_Name v)
            = (o_Namespace (Placeholder b ns name), o_Name (Placeholder b ns name))) ->
    let r := storage.syncEach storage builders created (w, storage) in
    objects r.2.1 = objects w /\ creates r.2.1 = creates w.
Proof.
  intros ns name. induction builders as [|b rest IH]; intros created w Hall.
  - cbn [storage.syncEach]. run. destruct created; frame; split; reflexivity.
  - cbn [storage.syncEach]. run. fold ns name.
    destruct (Hall b (list_elem_of_here _ _)) as (v & Hv & Hg & Hkey).
    pose proof (CreateOrUpdate_settled _ _ (storage_mutateFn_pure storage b)
                  (rb_Kind b) (Placeholder b ns name) v w Hv Hg Hkey) as H.
    cbv zeta in H.
    destruct (controllerutil.CreateOrUpdate (rb_Kind b) (Placeholder b ns name)
                (storage.mutateFn storage b) w) as [[res [err|]] w1]; run;
      cbn [fst snd] in H; destruct H as (Ho & Hc & _).
    + frame. split; [exact Ho|exact Hc].
    + specialize (IH (created || bool_decide (res = controllerutil.OperationResultCreated)) w1).
      cbv zeta in IH. rewrite <- Ho, <- Hc. apply IH.
      intros b0 Hb0. rewrite Ho. apply Hall. apply list_elem_of_further. exact Hb0.
Qed.

(** Resource sync of a Storage, twice in a row. *)
Lemma storage_handleResourcesSync_twice (X : Externals) (w : World) (storage : Storage) :
  let ns := s_Namespace storage in
  let name := s_Name storage in
  let builders := resources.GetResourceBuilders X storage in
  NoDup (identity ns name <$> builders) ->
  (forall b src v, b ∈ builders ->
     storage.desired storage b src = inr v -> storage.desired storage b v = inr v) ->
  let r1 := storage.handleResourcesSync X (w, storage) in
  r1.1.2 = None ->
  let r2 := storage.handleResourcesSync X r1.2 in
  r1.1 = (if (creates w <? creates r1.2.1)%nat
          then controllers.RequeueImmediately else controllers.Ok)
  /\ creates r2.2.1 = creates r1.2.1
  /\ objects r2.2.1 = objects r1.2.1.
Proof.
  intros ns name builders Hnd Hst r1 Herr r2.
  subst r1 r2. unfold storage.handleResourcesSync in *. revert Herr. run. fold builders.
  set (w0 := record {| ev_Type := EventTypeNormal; ev_Reason := "Provisioning" |} w).
  destruct (storage.syncEach storage builders false (w0, storage)) as [o [w1 b1]] eqn:E.
  cbn [fst snd]. intros Herr.
  destruct (storage_syncEach_applied storage builders false w0 w1 o b1 Hnd Hst E Herr)
    as (-> & Hall & _ & Hle & Ho).
  pose proof (storage_syncEach_settled storage builders false
                (record {| ev_Type := EventTypeNormal; ev_Reason := "Provisioning" |} w1))
    as H2.
  cbv zeta in H2. fold builders.
  destruct (storage.syncEach storage builders false
              (record {| ev_Type := EventTypeNormal; ev_Reason := "Provisioning" |} w1, storage))
    as [o2 [w2 b2]].
  cbn [fst snd] in *. destruct (H2 Hall) as [Hobj Hcr].
  split; [|split; [exact Hcr|exact Hobj]].
  rewrite Ho. cbn [orb]. change (creates w0) with (creates w) in *.
  destruct (creates w1 =? creates w)%nat eqn:Heq; cbn [negb].
  - apply Nat.eqb_eq in Heq. rewrite Heq, Nat.ltb_irrefl. reflexivity.
  - apply Nat.eqb_neq in Heq.
    replace (creates w <? creates w1)%nat with true by (symmetry; apply Nat.ltb_lt; lia).
    reflexivity.
Qed.

Lemma database_mutateFn_pure (database : Database) (b : ResourceBuilder) (o : Object) (w : World) :
  exists w',
    database.mutateFn database b o w = (database.desired database b o, w')
    /\ objects w' = objects w /\ calls w' = calls w /\ apiFaults w' = apiFaults w.
Proof.
  unfold database.mutateFn, database.desired.
  destruct (Build b o) as [err|rr]; [eexists; split; [reflexivity|]; frame; auto|].
  destruct (controllerutil.SetControllerReference _ _ _ rr) as [err|rr'];
    eexists; (split; [reflexivity|]); frame; auto.
Qed.

(** A pass that completes leaves every child as its builder makes it. *)
Lemma database_syncEach_applied (database : Database) (builders : list ResourceBuilder) :
  let ns := d_Namespace database in
  let name := d_Name database in
  forall (created : bool) (w w' : World) (o : Outcome) (b' : Database),
    NoDup (identity ns name <$> builders) ->
    (forall b src v, b ∈ builders ->
       database.desired database b src = inr v -> database.desired database b v = inr v) ->
    database.syncEach database builders created (w, database) = (o, (w', b')) ->
    o.2 = None ->
    b' = database
    /\ (forall b, b ∈ builders ->
          exists v, objects w' !! identity ns name b = Some v
            /\ database.desired database b v = inr v
            /\ (o_Namespace v, o_Name v)
               = (o_Namespace (Placeholder b ns name), o_Name (Placeholder b ns name)))
    /\ (forall k, k ∉ identity ns name <$> builders -> objects w' !! k = objects w !! k)
    /\ (creates w <= creates w')%nat
    /\ o = (if created || negb (creates w' =? creates w)%nat
            then controllers.RequeueImmediately else controllers.Ok).
Proof.
  intros ns name. induction builders as [|b rest IH]; intros created w w' o b' Hnd Hst.
  - cbn [database.syncEach]. run. destruct created; intros [= <- <- <-] _; frame;
      (split; [reflexivity|]); (split; [intros b Hb; inversion Hb|]);
      (split; [reflexivity|]); (split; [unfold creates; frame; lia|]);
      unfold creates; frame; rewrite ?Nat.eqb_refl; reflexivity.
  - rewrite fmap_cons in Hnd. apply NoDup_cons in Hnd as [Hfresh Hnd].
    cbn [database.syncEach]. run. fold ns name.
    destruct (controllerutil.CreateOrUpdate (rb_Kind b) (Placeholder b ns name)
                (database.mutateFn database b) w) as [[res [err|]] w1] eqn:E; run.
    { intros [= <- <- <-]. discriminate. }
    intros Hrun Herr.
    destruct (CreateOrUpdate_applied _ _ (database_mutateFn_pure database b) _ _ _ _ _ E)
      as (Hother & (v & src & Hv & Hg & Hkey) & Hcount).
    fold (identity ns name b) in Hother, Hv.
    destruct (IH _ _ _ _ _ Hnd (fun b0 src0 v0 Hb0 => Hst b0 src0 v0 (list_elem_of_further _ _ _ Hb0))
                Hrun Herr) as (-> & Hall & Hframe & Hle & Ho).
    split; [reflexivity|]. split; [|split; [|split]].
    + intros b0 Hb0. apply elem_of_cons in Hb0 as [->|Hb0]; [|exact (Hall b0 Hb0)].
      exists v. rewrite (Hframe _ Hfresh), Hv. repeat split; [|exact Hkey].
      exact (Hst b src v (list_elem_of_here _ _) Hg).
    + intros k Hk. rewrite fmap_cons in Hk. apply not_elem_of_cons in Hk as [Hk1 Hk2].
      rewrite (Hframe k Hk2). apply Hother. exact Hk1.
    + destruct (bool_decide (res = controllerutil.OperationResultCreated)); lia.
    + rewrite Ho.
      destruct created; cbn [orb]; [reflexivity|].
      destruct (bool_decide (res = controllerutil.OperationResultCreated)) eqn:Hres; cbn [orb].
      * replace (creates w' =? creates w)%nat with false
          by (symmetry; apply Nat.eqb_neq; lia). reflexivity.
      * replace (creates w1) with (creates w) by lia. reflexivity.
Qed.

(** A pass over children that are all as their builders make them writes
    nothing. *)
Lemma database_syncEach_settled (database : Database) (builders : list ResourceBuilder) :
  let ns := d_Namespace database in
  let name := d_Name database in
  forall (created : bool) (w : World),
    (forall b, b ∈ builders ->
       exists v, objects w !! identity ns name b = Some v
         /\ database.desired database b v = inr v
         /\ (o_Namespace v, o_Name v)
            = (o_Namespace (Placeholder b ns name), o_Name (Placeholder b ns name))) ->
    let r := database.syncEach database builders created (w, database) in
    objects r.2.1 = objects w /\ creates r.2.1 = creates w.
Proof.
  intros ns name. induction builders as [|b rest IH]; intros created w Hall.
  - cbn [database.syncEach]. run. destruct created; frame; split; reflexivity.
  - cbn [database.syncEach]. run. fold ns name.
    destruct (Hall b (list_elem_of_here _ _)) as (v & Hv & Hg & Hkey).
    pose proof (CreateOrUpdate_settled _ _ (database_mutateFn_pure database b)
                  (rb_Kind b) (Placeholder b ns name) v w Hv Hg Hkey) as H.
    cbv zeta in H.
    destruct (controllerutil.CreateOrUpdate (rb_Kind b) (Placeholder b ns name)
                (database.mutateFn database b) w) as [[res [err|]] w1]; run;
      cbn [fst snd] in H; destruct H as (Ho & Hc & _).
    + frame. split; [exact Ho|exact Hc].
    + specialize (IH (created || bool_decide (res = controllerutil.OperationResultCreated)) w1).
      cbv zeta in IH. rewrite <- Ho, <- Hc. apply IH.
      intros b0 Hb0. rewrite Ho. apply Hall. apply list_elem_of_further. exact Hb0.
Qed.

(** Resource sync of a Database, twice in a row. *)
Lemma database_handleResourcesSync_twice (X : Externals) (w : World) (database : Database) :
  let ns := d_Namespace database in
  let name := d_Name database in
  let builders := DatabaseResourceBuilders X database in
  NoDup (identity ns name <$> builders) ->
  (forall b src v, b ∈ builders ->
     database.desired database b src = inr v -> database.desired database b v = inr v) ->
  let r1 := database.handleResourcesSync X (w, database) in
  r1.1.2 = None ->
  let r2 := database.handleResourcesSync X r1.2 in
  r1.1 = (if (creates w <? creates r1.2.1)%nat
          then controllers.RequeueImmediately else controllers.Ok)
  /\ creates r2.2.1 = creates r1.2.1
  /\ objects r2.2.1 = objects r1.2.1.
Proof.
  intros ns name builders Hnd Hst r1 Herr r2.
  subst r1 r2. unfold database.handleResourcesSync in *. revert Herr. run. fold builders.
  set (w0 := record {| ev_Type := EventTypeNormal; ev_Reason := "Provisioning" |} w).
  destruct (database.syncEach database builders false (w0, database)) as [o [w1 b1]] eqn:E.
  cbn [fst snd]. intros Herr.
  destruct (database_syncEach_applied database builders false w0 w1 o b1 Hnd Hst E Herr)
    as (-> & Hall & _ & Hle & Ho).
  pose proof (database_syncEach_settled database builders false
                (record {| ev_Type := EventTypeNormal; ev_Reason := "Provisioning" |} w1))
    as H2.
  cbv zeta in H2. fold builders.
  destruct (database.syncEach database builders false
              (record {| ev_Type := EventTypeNormal; ev_Reason := "Provisioning" |} w1, database))
    as [o2 [w2 b2]].
  cbn [fst snd] in *. destruct (H2 Hall) as [Hobj Hcr].
  split; [|split; [exact Hcr|exact Hobj]].
  rewrite Ho. cbn [orb]. change (creates w0) with (creates w) in *.
  destruct (creates w1 =? creates w)%nat eqn:Heq; cbn [negb].
  - apply Nat.eqb_eq in Heq. rewrite Heq, Nat.ltb_irrefl. reflexivity.
  - apply Nat.eqb_neq in Heq.
    replace (creates w <? creates w1)%nat with true by (symmetry; apply Nat.ltb_lt; lia).
    reflexivity.
Qed.

(** C6. Resource sync twice in a row, nothing else changing in between,
    for a Storage and for a Database owner: when the first call
    completes, the second makes no [Create] call and leaves every child
    object as it was; and a call that completes requeues immediately if
    it created a child and continues otherwise.  The children are keyed
    by distinct identities and a builder applied to its own output
    reproduces it. *)
Theorem handleResourcesSync_idempotent (X : Externals) (w : World) :
  (forall storage : Storage,
     let ns := s_Namespace storage in
     let name := s_Name storage in
     let builders := resources.GetResourceBuilders X storage in
     NoDup (identity ns name <$> builders) ->
     (forall b src v, b ∈ builders ->
        storage.desired storage b src = inr v -> storage.desired storage b v = inr v) ->
     let r1 := storage.handleResourcesSync X (w, storage) in
     r1.1.2 = None ->
     let r2 := storage.handleResourcesSync X r1.2 in
     r1.1 = (if (creates w <? creates r1.2.1)%nat
             then controllers.RequeueImmediately else controllers.Ok)
     /\ creates r2.2.1 = creates r1.2.1
     /\ objects r2.2.1 = objects r1.2.1)
  /\ (forall database : Database,
       let ns := d_Namespace database in
       let name := d_Name database in
       let builders := DatabaseResourceBuilders X database in
       NoDup (identity ns name <$> builders) ->
       (forall b src v, b ∈ builders ->
          database.desired database b src = inr v -> database.desired database b v = inr v) ->
       let r1 := database.handleResourcesSync X (w, database) in
       r1.1.2 = None ->
       let r2 := database.handleResourcesSync X r1.2 in
       r1.1 = (if (creates w <? creates r1.2.1)%nat
               then controllers.RequeueImmediately else controllers.Ok)
       /\ creates r2.2.1 = creates r1.2.1
       /\ objects r2.2.1 = objects r1.2.1).
Proof.
  split.
  - intros storage. apply storage_handleResourcesSync_twice.
  - intros database. apply database_handleResourcesSync_twice.
Qed.

(** ** Hoare rules *)

Lemma hoare_ret {S A} (P : S -> Prop) (Q : A -> S -> Prop) (a : A) :
  (forall s, P s -> Q a s) -> hoare P (mret a) Q.
Proof. intros H s Hs. apply H, Hs. Qed.

Lemma hoare_bind {S A B} (P : S -> Prop) (R : A -> S -> Prop) (Q : B -> S -> Prop)
    (m : Op S A) (f : A -> Op S B) :
  hoare P m R -> (forall a, hoare (R a) (f a) Q) -> hoare P (m ≫= f) Q.
Proof.
  intros Hm Hf s Hs. specialize (Hm s Hs).
  change ((m ≫= f) s) with (let '(a, s') := m s in f a s').
  destruct (m s) as [a s']. apply Hf, Hm.
Qed.

Lemma hoare_weaken {S A} (P P' : S -> Prop) (Q Q' : A -> S -> Prop) (m : Op S A) :
  hoare P' m Q' -> (forall s, P s -> P' s) -> (forall a s, Q' a s -> Q a s) ->
  hoare P m Q.
Proof. intros H HP HQ s Hs. apply HQ, H, HP, Hs. Qed.

Lemma hoare_self {B} (P : World * B -> Prop) :
  hoare P self (fun b s => P s /\ b = s.2).
Proof. intros s Hs. split; [exact Hs|reflexivity]. Qed.

Lemma hoare_assign {B} (f : B -> B) (Q : unit -> World * B -> Prop) :
  hoare (fun s => Q tt (s.1, f s.2)) (assign f) Q.
Proof. intros s Hs. exact Hs. Qed.

Lemma hoare_call {B A} (f : World -> A * World) (P : World * B -> Prop)
    (Q : A -> World * B -> Prop) :
  (forall w b, P (w, b) -> Q (f w).1 ((f w).2, b)) -> hoare P (call f) Q.
Proof.
  intros H [w b] Hs. specialize (H w b Hs). unfold call. cbn [fst snd].
  destruct (f w) as [a w']. exact H.
Qed.

Lemma hoare_event {B} (eventtype reason : string) (P : World * B -> Prop)
    (Q : unit -> World * B -> Prop) :
  (forall w b, P (w, b) ->
     Q tt (record {| ev_Type := eventtype; ev_Reason := reason |} w, b)) ->
  hoare P (Recorder_Event eventtype reason) Q.
Proof. intros H. unfold Recorder_Event. apply hoare_call. exact H. Qed.

(** ** Changes that leave the record alone *)

Lemma dbWrites_app (key : string * string) (l1 l2 : list (Call * option Err)) :
  dbWrites key (l1 ++ l2) = dbWrites key l1 ++ dbWrites key l2.
Proof. unfold dbWrites. apply omap_app. Qed.

Lemma tenantCalls_app (l1 l2 : list (Call * option Err)) :
  tenantCalls (l1 ++ l2) = tenantCalls l1 ++ tenantCalls l2.
Proof. unfold tenantCalls. apply List.filter_app. Qed.

Lemma inert_refl (w : World) : inert w w.
Proof. split; [reflexivity|]. exists []. rewrite app_nil_r. split; [reflexivity|constructor]. Qed.

Lemma inert_trans (w1 w2 w3 : World) : inert w1 w2 -> inert w2 w3 -> inert w1 w3.
Proof.
  intros [Hd1 (l1 & Hc1 & Hl1)] [Hd2 (l2 & Hc2 & Hl2)].
  split; [congruence|]. exists (l1 ++ l2). split.
  - rewrite Hc2, Hc1, app_assoc. reflexivity.
  - apply List.Forall_app. split; assumption.
Qed.

Lemma inert_dbWrites (w w' : World) (key : string * string) :
  inert w w' -> dbWrites key (calls w') = dbWrites key (calls w).
Proof.
  intros [_ (l & -> & Hl)]. rewrite dbWrites_app.
  assert (H : dbWrites key l = []).
  { induction Hl as [|[c e] l Hc Hl IH]; [reflexivity|].
    unfold dbWrites in *. cbn [omap list_omap]. rewrite IH.
    destruct c; try reflexivity. destruct Hc. }
  rewrite H, app_nil_r. reflexivity.
Qed.

Lemma inert_tenantCalls (w w' : World) :
  inert w w' -> tenantCalls (calls w') = tenantCalls (calls w).
Proof.
  intros [_ (l & -> & Hl)]. rewrite tenantCalls_app.
  assert (H : tenantCalls l = []).
  { induction Hl as [|[c e] l Hc Hl IH]; [reflexivity|].
    unfold tenantCalls in *. cbn [List.filter fst]. rewrite IH.
    destruct c; try reflexivity. destruct Hc. }
  rewrite H, app_nil_r. reflexivity.
Qed.

Lemma inert_log (c : Call) (e : option Err) (w : World) :
  match c with CTenantCreate _ | CStatusUpdate _ _ _ => False | _ => True end ->
  inert w (log c e w).
Proof.
  intros Hc. split; [reflexivity|]. exists [(c, e)]. split; [reflexivity|].
  constructor; [exact Hc|constructor].
Qed.

Lemma inert_record (ev : Event) (w : World) : inert w (record ev w).
Proof. split; [reflexivity|]. exists []. frame. rewrite app_nil_r. split; [reflexivity|constructor]. Qed.

Lemma inert_set_apiFaults (l : list (option string)) (w : World) : inert w (set_apiFaults l w).
Proof. split; [reflexivity|]. exists []. frame. rewrite app_nil_r. split; [reflexivity|constructor]. Qed.

Lemma inert_set_objects (m : gmap (string * string * string) Object) (w : World) :
  inert w (set_objects m w).
Proof. split; [reflexivity|]. exists []. frame. rewrite app_nil_r. split; [reflexivity|constructor]. Qed.

Lemma inert_request {A} (c : Call) (serve : World -> (Err + A) * World) (w : World) :
  match c with CTenantCreate _ | CStatusUpdate _ _ _ => False | _ => True end ->
  (forall w0, inert w0 (serve w0).2) ->
  inert w (request c serve w).2.
Proof.
  intros Hc Hserve. unfold request.
  destruct (head (apiFaults w)) as [[msg|]|]; cbn [snd].
  - eapply inert_trans; [apply inert_set_apiFaults|apply inert_log, Hc].
  - specialize (Hserve (set_apiFaults (tail (apiFaults w)) w)).
    destruct (serve _) as [r w2]. cbn [snd] in *.
    eapply inert_trans; [apply inert_set_apiFaults|].
    eapply inert_trans; [exact Hserve|apply inert_log, Hc].
  - specialize (Hserve (set_apiFaults (tail (apiFaults w)) w)).
    destruct (serve _) as [r w2]. cbn [snd] in *.
    eapply inert_trans; [apply inert_set_apiFaults|].
    eapply inert_trans; [exact Hserve|apply inert_log, Hc].
Qed.

Lemma inert_GetStorage (key : string * string) (w : World) :
  inert w (client.GetStorage key w).2.
Proof. apply inert_request; [exact I|]. intros w0. apply inert_refl. Qed.

Lemma inert_GetObject (kind : string) (key : string * string) (w : World) :
  inert w (client.GetObject kind key w).2.
Proof. apply inert_request; [exact I|]. intros w0. apply inert_refl. Qed.

Lemma inert_Create (kind : string) (obj : Object) (w : World) :
  inert w (client.Create kind obj w).2.
Proof.
  unfold client.Create. cbv zeta.
  match goal with |- context [request ?c ?s w] =>
    pose proof (inert_request c s w I) as H; destruct (request c s w) as [r w'] end.
  cbn [snd] in *. apply H. intros w0.
  destruct (objects w0 !! _); cbn [snd]; [apply inert_refl|apply inert_set_objects].
Qed.

Lemma inert_Update (kind : string) (obj : Object) (w : World) :
  inert w (client.Update kind obj w).2.
Proof.
  unfold client.Update. cbv zeta.
  match goal with |- context [request ?c ?s w] =>
    pose proof (inert_request c s w I) as H; destruct (request c s w) as [r w'] end.
  cbn [snd] in *. apply H. intros w0.
  destruct (objects w0 !! _); cbn [snd]; [apply inert_set_objects|apply inert_refl].
Qed.

Lemma inert_CreateOrUpdate (kind : string) (obj : Object)
    (f : Object -> World -> (Err + Object) * World) (w : World) :
  (forall o w0, inert w0 (f o w0).2) ->
  inert w (controllerutil.CreateOrUpdate kind obj f w).2.
Proof.
  intros Hf. unfold controllerutil.CreateOrUpdate, controllerutil.mutate. cbv zeta.
  pose proof (inert_GetObject kind (o_Namespace obj, o_Name obj) w) as Hget.
  destruct (client.GetObject kind (o_Namespace obj, o_Name obj) w) as [[err|existing] w1].
  - cbn [snd] in Hget. destruct (IsNotFound err); [|exact Hget].
    pose proof (Hf obj w1) as Hm. destruct (f obj w1) as [[e|obj'] w2]; cbn [snd] in Hm.
    + exact (inert_trans _ _ _ Hget Hm).
    + destruct (bool_decide _); [|exact (inert_trans _ _ _ Hget Hm)].
      pose proof (inert_Create kind obj' w2) as Hc.
      destruct (client.Create kind obj' w2) as [[e|] w3]; cbn [snd] in *;
        exact (inert_trans _ _ _ Hget (inert_trans _ _ _ Hm Hc)).
  - cbn [snd] in Hget.
    pose proof (Hf existing w1) as Hm. destruct (f existing w1) as [[e|obj'] w2]; cbn [snd] in Hm.
    + exact (inert_trans _ _ _ Hget Hm).
    + destruct (bool_decide (_ = (_, _))); [|exact (inert_trans _ _ _ Hget Hm)].
      destruct (bool_decide (existing = obj')); [exact (inert_trans _ _ _ Hget Hm)|].
      pose proof (inert_Update kind obj' w2) as Hc.
      destruct (client.Update kind obj' w2) as [[e|] w3]; cbn [snd] in *;
        exact (inert_trans _ _ _ Hget (inert_trans _ _ _ Hm Hc)).
Qed.

Lemma inert_database_mutateFn (database : Database) (b : ResourceBuilder) (o : Object)
    (w : World) :
  inert w (database.mutateFn database b o w).2.
Proof.
  unfold database.mutateFn. destruct (Build b o) as [e|rr]; [apply inert_record|].
  destruct (controllerutil.SetControllerReference _ _ _ rr); [apply inert_record|apply inert_refl].
Qed.

(** ** Walking through a pass of the Database reconciler

    An invariant that survives inert changes, the status writer and the
    two assignments of the scale wait survives every phase before the
    tenant creation. *)
Section Walk.
Context (X : Externals).
Variable Inv : World * Database -> Prop.
Hypothesis Inv_inert : forall w w' b, inert w w' -> Inv (w, b) -> Inv (w', b).
Hypothesis Inv_setState : hoare Inv database.setState (fun _ s => Inv s).
Hypothesis Inv_Provisioning :
  forall w b, Inv (w, b) -> Inv (w, database.with_State database.Provisioning b).
Hypothesis Inv_Ready :
  forall w b, Inv (w, b) -> tenantInitialized (d_Status b) = true ->
    Inv (w, database.with_State database.Ready b).
Hypothesis Inv_tenant :
  hoare (fun s => Inv s /\ tenantInitialized (d_Status s.2) = false)
    (database.handleTenantCreation X) (fun _ s => Inv s).

Ltac event :=
  eapply hoare_bind with (R := fun _ => Inv);
  [apply hoare_event; intros ? ? ?; eapply Inv_inert; [apply inert_record|eassumption]
  |intros _].

Ltac done_here := apply hoare_ret; intros ? ?; assumption.

Lemma walk_waitForClusterResource :
  hoare Inv database.waitForClusterResource (fun _ s => Inv s).
Proof.
  unfold database.waitForClusterResource.
  eapply hoare_bind; [apply hoare_self|]. intros database.
  eapply hoare_bind with (R := fun _ => Inv).
  { apply hoare_call. intros w b [H _]. exact (Inv_inert _ _ _ (inert_GetStorage _ w) H). }
  intros [err|found].
  - event. done_here.
  - destruct (bool_decide _); [event|]; done_here.
Qed.

Lemma walk_persist (o2 : Op (World * Database) Outcome) :
  hoare Inv o2 (fun _ s => Inv s) ->
  hoare Inv
    (persisted ← database.setState;
     match persisted.2 with
     | Some err => mret (controllers.NoRequeue err)
     | None => o2
     end) (fun _ s => Inv s).
Proof.
  intros H2. eapply hoare_bind; [exact Inv_setState|]. intros persisted.
  destruct persisted.2; [done_here|exact H2].
Qed.

Lemma walk_waitForStatefulSetToScale :
  hoare Inv database.waitForStatefulSetToScale (fun _ s => Inv s).
Proof.
  unfold database.waitForStatefulSetToScale.
  eapply hoare_bind; [apply hoare_self|]. intros database.
  eapply hoare_bind with (R := fun _ s => Inv s /\ database = s.2).
  { apply hoare_call. intros w b [H ->]. split; [|reflexivity].
    exact (Inv_inert _ _ _ (inert_GetObject _ _ w) H). }
  intros [err|found].
  - destruct (IsNotFound err).
    + apply hoare_ret. intros s [H _]. exact H.
    + eapply hoare_bind with (R := fun _ => Inv).
      * apply hoare_event. intros w b [H _]. eapply Inv_inert; [apply inert_record|exact H].
      * intros _. done_here.
  - destruct (bool_decide (o_Replicas found <> _)).
    + eapply hoare_bind with (R := fun _ => Inv).
      * eapply hoare_weaken; [apply hoare_assign| |intros a s H; exact H].
        intros [w b] [H _]. cbn [fst snd]. apply Inv_Provisioning, H.
      * intros _. apply walk_persist. event. done_here.
    + destruct (bool_decide (State _ <> _)); cbn [andb];
        [|apply hoare_ret; intros s [H _]; exact H].
      destruct (meta.IsStatusConditionTrue _ _) eqn:Hti;
        [|apply hoare_ret; intros s [H _]; exact H].
      eapply hoare_bind with (R := fun _ => Inv).
      * eapply hoare_weaken; [apply hoare_assign| |intros a s H; exact H].
        intros [w b] [H Hb]. cbn [fst snd] in *. subst b. apply Inv_Ready; [exact H|exact Hti].
      * intros _. apply walk_persist. event. done_here.
Qed.

Lemma walk_syncEach (database : Database) (builders : list ResourceBuilder) (created : bool) :
  hoare Inv (database.syncEach database builders created) (fun _ s => Inv s).
Proof.
  revert created. induction builders as [|b rest IH]; intros created; cbn [database.syncEach].
  - event. destruct created; done_here.
  - eapply hoare_bind with (R := fun _ => Inv).
    + apply hoare_call. intros w b0 H. eapply Inv_inert; [|exact H].
      apply inert_CreateOrUpdate. intros o w0. apply inert_database_mutateFn.
    + intros applied. destruct applied.2; [event; done_here|apply IH].
Qed.

Lemma walk_handleResourcesSync :
  hoare Inv (database.handleResourcesSync X) (fun _ s => Inv s).
Proof.
  unfold database.handleResourcesSync.
  eapply hoare_bind; [apply hoare_self|]. intros database.
  eapply hoare_bind with (R := fun _ => Inv).
  - apply hoare_event. intros w b [H _]. eapply Inv_inert; [apply inert_record|exact H].
  - intros _. apply walk_syncEach.
Qed.

Lemma walk_phases : hoare Inv (database.phases X) (fun _ s => Inv s).
Proof.
  unfold database.phases.
  eapply hoare_bind; [exact Inv_setState|]. intros seeded.
  eapply hoare_bind; [exact walk_waitForClusterResource|]. intros o.
  destruct (stops o); [done_here|].
  eapply hoare_bind; [exact walk_waitForStatefulSetToScale|]. intros o1.
  destruct (stops o1); [done_here|].
  eapply hoare_bind; [exact walk_handleResourcesSync|]. intros o2.
  destruct (stops o2); [done_here|].
  eapply hoare_bind; [apply hoare_self|]. intros database.
  destruct (meta.IsStatusConditionTrue _ _) eqn:Hti; cbn [negb].
  - apply hoare_ret. intros s [H _]. exact H.
  - eapply hoare_bind with (R := fun _ => Inv).
    + eapply hoare_weaken; [exact Inv_tenant| |intros a s H; exact H].
      intros s [H ->]. split; [exact H|exact Hti].
    + intros o3. destruct (stops o3); done_here.
Qed.

End Walk.

(** ** The record of status writes *)

Lemma settings_snoc (prev p x : bool) (l : list bool) :
  last (prev :: l) = Some p ->
  settings prev (l ++ [x]) = (settings prev l + (if negb p && x then 1 else 0))%nat.
Proof.
  revert prev. induction l as [|b rest IH]; intros prev Hlast.
  - cbn in Hlast. injection Hlast as <-. cbn. lia.
  - rewrite last_cons_cons in Hlast. cbn [app settings]. rewrite (IH b Hlast). lia.
Qed.

Lemma seed_tenantInitialized (st : Status) :
  tenantInitialized (resources.seed st) = tenantInitialized st.
Proof. unfold resources.seed, tenantInitialized. destruct st as [s [cs|]]; reflexivity. Qed.

Lemma seed_State (st : Status) : State (resources.seed st) = State st.
Proof. unfold resources.seed. destruct st as [s [cs|]]; reflexivity. Qed.

Lemma FindStatusCondition_upsert (conditions : list Condition) (c : Condition) :
  meta.FindStatusCondition (meta.upsert conditions c) (cType c)
  = Some {| cType := cType c; cStatus := cStatus c; cReason := cReason c;
            cMessage := cMessage c |}.
Proof.
  induction conditions as [|c0 rest IH]; cbn [meta.upsert meta.FindStatusCondition].
  - rewrite decide_True by reflexivity. destruct c; reflexivity.
  - destruct (decide (cType c0 = cType c)) as [Heq|Hne]; cbn [meta.FindStatusCondition cType].
    + rewrite decide_True by exact Heq. rewrite Heq. reflexivity.
    + rewrite decide_False by exact Hne. exact IH.
Qed.

Lemma IsStatusConditionTrue_set (conditions : option (list Condition)) (c : Condition) :
  cStatus c = "True" ->
  meta.IsStatusConditionTrue (meta.SetStatusCondition conditions c) (cType c) = true.
Proof.
  intros Hs. unfold meta.IsStatusConditionTrue, meta.SetStatusCondition.
  change (default [] (Some ?l)) with l.
  rewrite FindStatusCondition_upsert. cbn [cStatus]. apply bool_decide_eq_true. exact Hs.
Qed.

(** Setting a condition keeps the types of the ledger unique. *)
Lemma upsert_types (conditions : list Condition) (c : Condition) :
  cType <$> meta.upsert conditions c
  = if bool_decide (cType c ∈ cType <$> conditions) then cType <$> conditions
    else (cType <$> conditions) ++ [cType c].
Proof.
  induction conditions as [|c0 rest IH]; cbn [meta.upsert].
  - reflexivity.
  - destruct (decide (cType c0 = cType c)) as [Heq|Hne].
    + rewrite bool_decide_true by (rewrite fmap_cons, Heq; apply list_elem_of_here).
      rewrite !fmap_cons. reflexivity.
    + rewrite !fmap_cons, IH.
      destruct (bool_decide (cType c ∈ cType <$> rest)) eqn:Hin.
      * apply bool_decide_eq_true in Hin.
        rewrite bool_decide_true by (apply list_elem_of_further, Hin). reflexivity.
      * apply bool_decide_eq_false in Hin.
        rewrite bool_decide_false; [reflexivity|].
        intros H. apply elem_of_cons in H as [H|H]; [congruence|contradiction].
Qed.

Lemma upsert_NoDup (conditions : list Condition) (c : Condition) :
  NoDup (cType <$> conditions) -> NoDup (cType <$> meta.upsert conditions c).
Proof.
  intros Hnd. rewrite upsert_types.
  destruct (bool_decide (cType c ∈ cType <$> conditions)) eqn:Hin; [exact Hnd|].
  apply bool_decide_eq_false in Hin.
  apply NoDup_app. split; [exact Hnd|]. split.
  - intros x Hx Hx'. apply list_elem_of_singleton in Hx'. subst x. contradiction.
  - apply NoDup_singleton.
Qed.

Section Record.
Variable key : string * string.

Lemma safe_same_record (w w' : World) (b : Database) :
  databases w' = databases w ->
  dbWrites key (calls w') = dbWrites key (calls w) ->
  safe key (w, b) -> safe key (w', b).
Proof.
  intros Hd Hc (stored & Hs & Hrec & Hloc). exists stored. cbn [fst snd] in *.
  unfold recorded in *. rewrite Hd, Hc. auto.
Qed.

Lemma safe_inert (w w' : World) (b : Database) :
  inert w w' -> safe key (w, b) -> safe key (w', b).
Proof.
  intros Hi. apply safe_same_record; [apply Hi|apply inert_dbWrites, Hi].
Qed.

Lemma quiet_traffic (k : string * string) (st : Status) (l : list (Call * option Err)) :
  Forall (fun ce => ce.1 = CGet "Database" k
                    \/ (ce.1 = CStatusUpdate "Database" k st /\ ce.2 <> None)) l ->
  dbWrites key l = [] /\ tenantCalls l = [].
Proof.
  induction 1 as [|[c e] l Hc Hl [IH1 IH2]]; [split; reflexivity|].
  unfold dbWrites, tenantCalls in *. cbn [omap list_omap List.filter fst].
  rewrite IH1, IH2. cbn [fst snd] in Hc.
  destruct Hc as [->|[-> He]]; [split; reflexivity|].
  destruct e; [split; reflexivity|contradiction].
Qed.

(** The status writer keeps the record consistent; when it succeeds on the
    Database under [key], the [State] of the working copy is on record. *)
Lemma safe_setState (b0 : Database) :
  hoare (fun s => safe key s /\ s.2 = b0) database.setState
    (fun o s => safe key s /\ s.2 = b0
                /\ (o.2 = None -> (d_Namespace b0, d_Name b0) = key ->
                    State (d_Status b0) ∈ State <$> dbWrites key (calls s.1))).
Proof.
  intros [w b] [Hsafe Hb]. cbn [snd] in Hb. subst b0.
  pose proof (database_setState_spec w b) as H. cbv zeta in H.
  destruct (database.setState (w, b)) as [o [w' b']]. cbn [fst snd] in *.
  destruct H as (-> & -> & _ & _ & _ & _ & _ & _ & Hcase). cbn [snd].
  destruct (persistOutcome "Database" (apiFaults w)
              (databases w !! (d_Namespace b, d_Name b))) as [e|] eqn:Hp.
  - destruct Hcase as (Hd & l & Hl & Hall). split; [|split; [reflexivity|discriminate]].
    apply (safe_same_record w); [exact Hd| |exact Hsafe].
    rewrite Hl, dbWrites_app. destruct (quiet_traffic _ _ _ Hall) as [-> _].
    apply app_nil_r.
  - destruct Hcase as (Hd & _ & Hl).
    destruct (decide ((d_Namespace b, d_Name b) = key)) as [Hkey|Hkey].
    + destruct Hsafe as (stored & Hs & (Hlast & Hset & Hthru & Hti & Hready) & Hloc).
      cbn [fst snd] in *. destruct (Hloc Hkey) as (L2 & L3 & L4). clear Hloc.
      assert (Hw : dbWrites key (calls w') = dbWrites key (calls w) ++ [d_Status b]).
      { rewrite Hl, dbWrites_app. f_equal. unfold dbWrites. cbn [omap list_omap].
        rewrite bool_decide_true by (split; [reflexivity|exact Hkey]). reflexivity. }
      assert (Hin : forall x, x ∈ State <$> dbWrites key (calls w) ->
                 x ∈ State <$> dbWrites key (calls w')).
      { intros x Hx. rewrite Hw, fmap_app. apply elem_of_app. left. exact Hx. }
      assert (Hnew : State (d_Status b) ∈ State <$> dbWrites key (calls w')).
      { rewrite Hw, fmap_app. apply elem_of_app. right. apply list_elem_of_here. }
      split; [|split; [reflexivity|intros _ _; exact Hnew]].
      exists (stored.1, d_Status b). cbn [fst snd]. split.
      { rewrite Hd, Hkey, lookup_alter, decide_True by reflexivity. rewrite Hs. reflexivity. }
      split.
      { unfold recorded. cbv zeta.
        split; [rewrite Hw, fmap_app, app_comm_cons; apply last_snoc|].
        split.
        { rewrite Hw, fmap_app.
          change (tenantInitialized <$> [d_Status b]) with [tenantInitialized (d_Status b)].
          rewrite (settings_snoc _ _ _ _ Hlast), Hset.
          destruct (tenantInitialized stored.2) eqn:E1.
          - rewrite (L4 eq_refl). reflexivity.
          - destruct (tenantInitialized (d_Status b)); reflexivity. }
        split.
        { rewrite Hw. intros i st Hi Hst. apply lookup_app_Some in Hi as [Hi|[Hlen Hi]].
          - destruct (Hthru i st Hi Hst) as (j & st' & Hj & Hj' & Hst').
            exists j, st'. split; [exact Hj|]. split; [|exact Hst'].
            apply lookup_app_l_Some. exact Hj'.
          - destruct (i - length (dbWrites key (calls w)))%nat eqn:Hd0; [|destruct n; discriminate].
            cbn in Hi. injection Hi as <-.
            specialize (L3 Hst). apply list_elem_of_fmap in L3 as (st' & Hst' & Hin').
            apply list_elem_of_lookup in Hin' as [j Hj].
            exists j, st'. split; [apply lookup_lt_Some in Hj; lia|].
            split; [apply lookup_app_l_Some; exact Hj|symmetry; exact Hst']. }
        split; [intros H1; apply Hin, L2, H1|intros H1; apply Hin, L3, H1]. }
      intros _. cbv zeta. split; [intros H1; apply Hin, L2, H1|].
      split; [intros H1; apply Hin, L3, H1|auto].
    + split; [|split; [reflexivity|intros _ Hk; contradiction]].
      destruct Hsafe as (stored & Hs & Hrec & Hloc). cbn [fst snd] in *.
      assert (Hw : dbWrites key (calls w') = dbWrites key (calls w)).
      { rewrite Hl, dbWrites_app. unfold dbWrites at 2. cbn [omap list_omap].
        rewrite bool_decide_false by (intros [_ Hk]; apply Hkey, Hk). apply app_nil_r. }
      exists stored. cbn [fst snd].
      split; [rewrite Hd, lookup_alter_ne by exact Hkey; exact Hs|].
      split; [unfold recorded in *; rewrite Hw; exact Hrec|].
      intros Hk. contradiction.
Qed.
End Record.

Section Pass.
Context (X : Externals).
Variable key : string * string.

Lemma safe_Provisioning (w : World) (b : Database) :
  safe key (w, b) -> safe key (w, database.with_State database.Provisioning b).
Proof.
  intros (stored & Hs & Hrec & Hloc). exists stored. cbn [fst snd] in *.
  split; [exact Hs|]. split; [exact Hrec|]. intros Hk. destruct (Hloc Hk) as (L2 & L3 & L4).
  cbv zeta. split; [exact L2|]. split; [discriminate|exact L4].
Qed.

Lemma safe_Ready (w : World) (b : Database) :
  safe key (w, b) -> tenantInitialized (d_Status b) = true ->
  safe key (w, database.with_State database.Ready b).
Proof.
  intros (stored & Hs & Hrec & Hloc) Hti. exists stored. cbn [fst snd] in *.
  split; [exact Hs|]. split; [exact Hrec|]. intros Hk. destruct (Hloc Hk) as (L2 & L3 & L4).
  cbv zeta. split; [exact L2|]. split; [intros _; exact (L2 Hti)|exact L4].
Qed.

Lemma safe_setState_plain :
  hoare (safe key) database.setState (fun _ s => safe key s).
Proof.
  intros s Hs. destruct (safe_setState key s.2 s (conj Hs eq_refl)) as [H _]. exact H.
Qed.

Lemma safe_TenantCreate (tenant : string) (w : World) (b : Database) :
  safe key (w, b) -> safe key ((TenantCreate tenant w).2, b).
Proof. apply safe_same_record; reflexivity || (unfold TenantCreate; frame; rewrite dbWrites_app; apply app_nil_r). Qed.

(** The tenant creation keeps the record consistent: the condition is set
    only after Initializing has been written. *)
Lemma safe_handleTenantCreation :
  hoare (safe key) (database.handleTenantCreation X) (fun _ s => safe key s).
Proof.
  unfold database.handleTenantCreation.
  set (Pb := fun b : Database => State (d_Status b) = database.Initializing).
  eapply hoare_bind with (R := fun _ s => safe key s /\ Pb s.2).
  { eapply hoare_weaken; [apply hoare_assign| |intros ? s H; exact H].
    intros [w b0] (stored & Hs & Hrec & Hloc). cbn [fst snd] in *.
    split; [|reflexivity]. exists stored. cbn [fst snd].
    split; [exact Hs|]. split; [exact Hrec|]. intros Hk. destruct (Hloc Hk) as (L2 & L3 & L4).
    cbv zeta. split; [exact L2|]. split; [discriminate|exact L4]. }
  intros _.
  set (P := fun s : World * Database =>
              safe key s /\ Pb s.2
              /\ ((d_Namespace s.2, d_Name s.2) = key ->
                  database.Initializing ∈ State <$> dbWrites key (calls s.1))).
  eapply hoare_bind
    with (R := fun (o : Outcome) s => safe key s /\ (o.2 = None -> P s)).
  { intros s [Hs Hpb]. destruct (safe_setState key s.2 s (conj Hs eq_refl)) as (H1 & H2 & H3).
    split; [exact H1|]. intros Hok. split; [exact H1|]. rewrite H2.
    split; [exact Hpb|]. intros Hk. rewrite <- Hpb. exact (H3 Hok Hk). }
  intros persisted.
  destruct persisted.2 as [err|] eqn:Hp.
  { apply hoare_ret. intros s [H _]. exact H. }
  eapply hoare_bind with (R := fun _ => P).
  { intros s [_ H]. exact (H eq_refl). }
  intros database.
  eapply hoare_bind with (R := fun _ => P).
  { apply hoare_call. intros w b0 (Hsafe & Hb & Hin). cbn [fst snd] in *.
    split; [apply safe_TenantCreate, Hsafe|]. split; [exact Hb|].
    intros Hk. unfold TenantCreate. frame. rewrite dbWrites_app, app_nil_r.
    apply (Hin Hk). }
  assert (Hev : forall eventtype reason,
            hoare P (Recorder_Event eventtype reason) (fun _ => P)).
  { intros. apply hoare_event. intros w b0 (Hsafe & Hb & Hin). cbn [fst snd] in *.
    split; [eapply safe_inert; [apply inert_record|exact Hsafe]|].
    split; [exact Hb|exact Hin]. }
  intros [err|].
  { eapply hoare_bind; [apply Hev|]. intros ?. apply hoare_ret. intros s [H _]. exact H. }
  eapply hoare_bind; [apply Hev|]. intros ?.
  eapply hoare_bind with (R := fun _ => safe key).
  { eapply hoare_weaken; [apply hoare_assign| |intros ? s H; exact H].
    intros [w b0] ((stored & Hs & Hrec & Hloc) & Hb & Hin). cbn [fst snd] in *.
    exists stored. cbn [fst snd]. split; [exact Hs|]. split; [exact Hrec|].
    intros Hk. cbv zeta.
    assert (Hti : tenantInitialized
                    (d_Status
                       (database.with_Condition
                          {| cType := database.ConditionTenantInitialized; cStatus := "True";
                             cReason := "TenantInitialized";
                             cMessage := "Tenant creation is complete" |} b0)) = true).
    { unfold tenantInitialized. cbn [database.with_Condition d_Status Conditions].
      apply (IsStatusConditionTrue_set _
               {| cType := database.ConditionTenantInitialized; cStatus := "True";
                  cReason := "TenantInitialized";
                  cMessage := "Tenant creation is complete" |}). reflexivity. }
    split; [intros _; exact (Hin Hk)|].
    split; [|intros _; exact Hti].
    cbn [database.with_Condition d_Status State]. unfold Pb in Hb. rewrite Hb. discriminate. }
  intros _. eapply hoare_bind; [apply safe_setState_plain|]. intros persisted2.
  destruct persisted2.2; apply hoare_ret; intros s H; exact H.
Qed.

(** A whole pass keeps the record consistent. *)
Lemma safe_phases : hoare (safe key) (database.phases X) (fun _ s => safe key s).
Proof.
  apply walk_phases.
  - apply safe_inert.
  - apply safe_setState_plain.
  - apply safe_Provisioning.
  - apply safe_Ready.
  - eapply hoare_weaken; [apply safe_handleTenantCreation| |intros a s H; exact H].
    intros s [H _]. exact H.
Qed.
End Pass.

(** ** The control loop *)

Lemma recorded_step (X : Externals) (key : string * string) (w w' : World) :
  step X w w' ->
  (exists stored, databases w !! key = Some stored /\ recorded key w stored.2) ->
  exists stored', databases w' !! key = Some stored' /\ recorded key w' stored'.2.
Proof.
  intros Hstep (stored & Hs & Hrec). destruct Hstep as [w k0 stored0 Hk0|w w' Hst Hwr].
  - assert (Hsafe : safe key
              (w, resources.SetStatusOnFirstReconcile_db
                    (resources.NewDatabase X (client.databaseAt k0 stored0)))).
    { exists stored. cbn [fst snd]. split; [exact Hs|]. split; [exact Hrec|].
      cbn [resources.SetStatusOnFirstReconcile_db resources.NewDatabase d_Namespace d_Name
             d_Status client.databaseAt].
      intros Hk. assert (k0 = key) by (destruct k0; exact Hk). subst k0.
      rewrite Hs in Hk0. injection Hk0 as <-.
      destruct Hrec as (_ & _ & _ & Hti & Hready). cbv zeta.
      rewrite seed_tenantInitialized, seed_State. auto. }
    pose proof (safe_phases X key _ Hsafe) as H. unfold database.Sync.
    destruct H as (stored' & Hs' & Hrec' & _). eauto.
  - specialize (Hst key). rewrite Hs in Hst.
    destruct (databases w' !! key) as [stored'|] eqn:Hs'; [|discriminate].
    cbn in Hst. injection Hst as Hst. exists stored'. split; [reflexivity|].
    unfold recorded in *. rewrite Hwr, Hst. exact Hrec.
Qed.

Lemma recorded_rtc (X : Externals) (key : string * string) (w w' : World) :
  rtc (step X) w w' ->
  (exists stored, databases w !! key = Some stored /\ recorded key w stored.2) ->
  exists stored', databases w' !! key = Some stored' /\ recorded key w' stored'.2.
Proof.
  induction 1 as [w|w w1 w2 Hstep _ IH]; intros H; [exact H|].
  apply IH. exact (recorded_step X key w w1 Hstep H).
Qed.

(** With the condition already set a pass calls no tenant API. *)
Lemma database_Sync_skips_tenant (X : Externals) (w : World) (ydbCr : Database) :
  tenantInitialized (d_Status ydbCr) = true ->
  tenantCalls (calls (database.Sync X ydbCr w).2.1) = tenantCalls (calls w).
Proof.
  intros Hti. unfold database.Sync.
  set (Inv := fun s : World * Database =>
                tenantCalls (calls s.1) = tenantCalls (calls w)
                /\ tenantInitialized (d_Status s.2) = true).
  assert (H : hoare Inv (database.phases X) (fun _ s => Inv s)).
  { apply walk_phases.
    - intros w1 w2 b Hi [H1 H2]. split; [|exact H2]. cbn [fst snd] in *.
      rewrite (inert_tenantCalls _ _ Hi). exact H1.
    - intros [w1 b] [H1 H2]. cbn [fst snd] in *.
      pose proof (database_setState_spec w1 b) as H. cbv zeta in H.
      destruct (database.setState (w1, b)) as [o [w2 b2]]. unfold Inv. cbn [fst snd] in *.
      destruct H as (-> & _ & _ & _ & _ & _ & _ & _ & Hcase). split; [|exact H2].
      rewrite <- H1.
      destruct (persistOutcome _ _ _).
      + destruct Hcase as (_ & l & -> & Hall). rewrite tenantCalls_app.
        destruct (quiet_traffic (d_Namespace b, d_Name b) _ _ _ Hall) as [_ ->].
        apply app_nil_r.
      + destruct Hcase as (_ & _ & ->). rewrite tenantCalls_app. apply app_nil_r.
    - intros w1 b [H1 H2]. split; assumption.
    - intros w1 b [H1 H2] _. split; assumption.
    - intros s [[_ H1] H2]. congruence. }
  apply (H (w, _)). split; [reflexivity|].
  cbn [snd resources.SetStatusOnFirstReconcile_db resources.NewDatabase d_Status].
  rewrite seed_tenantInitialized. exact Hti.
Qed.

(** The tenant-creation phase when the status writes go through. *)
Lemma handleTenantCreation_spec (X : Externals) (w : World) (database : Database) :
  let key := (d_Namespace database, d_Name database) in
  let initializing := database.with_State database.Initializing database in
  let initialized :=
    database.with_Condition
      {| cType := database.ConditionTenantInitialized; cStatus := "True";
         cReason := "TenantInitialized"; cMessage := "Tenant creation is complete" |}
      initializing in
  persistOutcome "Database" (apiFaults w) (databases w !! key) = None ->
  let r := database.handleTenantCreation X (w, database) in
  (forall msg, head (tenantOutcomes w) = Some (Some msg) ->
     r.1 = controllers.RequeueAfter (30 * ctrl.Second) (Some (Failure msg))
     /\ r.2.2 = initializing
     /\ snd <$> databases r.2.1 !! key = Some (d_Status initializing)
     /\ dbWrites key (calls r.2.1) = dbWrites key (calls w) ++ [d_Status initializing])
  /\ (clear 1 (tenantOutcomes w) = true ->
      persistOutcome "Database" (drop 2 (apiFaults w)) (databases w !! key) = None ->
      r.1 = controllers.RequeueImmediately
      /\ r.2.2 = initialized
      /\ snd <$> databases r.2.1 !! key = Some (d_Status initialized)
      /\ dbWrites key (calls r.2.1)
         = dbWrites key (calls w) ++ [d_Status initializing; d_Status initialized]).
Proof.
  intros key initializing initialized Hp r. subst r.
  assert (Hstored : is_Some (databases w !! key)).
  { unfold persistOutcome in Hp. destruct (databases w !! key); [eauto|].
    destruct (head (apiFaults w)) as [[?|]|]; discriminate. }
  destruct Hstored as [old Hold].
  unfold database.handleTenantCreation. run. fold initializing.
  destruct (database_setState_ok w initializing Hp)
    as (w1 & E1 & Hd1 & _ & _ & _ & _ & _ & Ht1 & Hf1 & Hc1).
  cbn [initializing database.with_State d_Namespace d_Name] in Hd1, Hc1.
  fold key in Hd1, Hc1. fold initializing in Hd1, Hc1.
  rewrite E1. run. unfold TenantCreate. frame. rewrite Ht1.
  assert (Hw1 : dbWrites key (calls w1) = dbWrites key (calls w) ++ [d_Status initializing]).
  { rewrite Hc1, dbWrites_app. unfold dbWrites at 2. cbn [omap list_omap].
    rewrite bool_decide_true by (split; reflexivity). reflexivity. }
  assert (Hl1 : databases w1 !! key = Some (old.1, d_Status initializing)).
  { rewrite Hd1, lookup_alter, decide_True by reflexivity. rewrite Hold. reflexivity. }
  split.
  - intros msg Hf. rewrite (answer_failed _ _ Hf). run. frame.
    split; [reflexivity|]. split; [reflexivity|]. rewrite Hl1.
    split; [reflexivity|]. rewrite dbWrites_app, Hw1. apply app_nil_r.
  - intros Hc Hp2. rewrite (answer_clear _ Hc). run. frame. fold initialized.
    match goal with |- context [database.setState (?w2, initialized)] =>
      destruct (database_setState_ok w2 initialized)
        as (w3 & E3 & Hd3 & _ & _ & _ & _ & _ & _ & _ & Hc3) end.
    { frame. cbn [initialized initializing database.with_Condition database.with_State
                    d_Namespace d_Name]. fold key.
      rewrite Hf1, Hl1. unfold persistOutcome in Hp2 |- *. rewrite Hold in Hp2. exact Hp2. }
    rewrite E3. run. frame in Hd3. frame in Hc3.
    cbn [initialized initializing database.with_Condition database.with_State
           d_Namespace d_Name] in Hd3, Hc3. fold key in Hd3, Hc3.
    fold initializing in Hd3, Hc3. fold initialized in Hd3, Hc3.
    split; [reflexivity|]. split; [reflexivity|].
    split.
    + rewrite Hd3, lookup_alter, decide_True by reflexivity. rewrite Hl1. reflexivity.
    + rewrite Hc3, !dbWrites_app, Hw1. unfold dbWrites at 2 3. cbn [omap list_omap].
      rewrite bool_decide_true by (split; reflexivity).
      rewrite app_nil_r. symmetry. exact (app_assoc _ [_] [_]).
Qed.

(** C5. Tenant creation.  A pass whose resource already carries
    TenantInitialized true calls no tenant API.  The phase first sets
    [State] to Initializing and persists it; a failed tenant creation
    requeues after 30 seconds, [State] Initializing and the conditions
    as they were; a successful one sets TenantInitialized true, persists
    and requeues immediately.  Across any sequence of invocations on the
    current resource, started from a Database that is neither
    initialized nor Ready, the written condition goes from unset to set
    at most once, and no Ready is written before an Initializing. *)
Theorem tenant_creation_once (X : Externals) :
  (forall w ydbCr,
     tenantInitialized (d_Status ydbCr) = true ->
     tenantCalls (calls (database.Sync X ydbCr w).2.1) = tenantCalls (calls w))
  /\ (forall w database,
        let key := (d_Namespace database, d_Name database) in
        let initializing := database.with_State database.Initializing database in
        let initialized :=
          database.with_Condition
            {| cType := database.ConditionTenantInitialized; cStatus := "True";
               cReason := "TenantInitialized"; cMessage := "Tenant creation is complete" |}
            initializing in
        persistOutcome "Database" (apiFaults w) (databases w !! key) = None ->
        let r := database.handleTenantCreation X (w, database) in
        (forall msg, head (tenantOutcomes w) = Some (Some msg) ->
           r.1 = controllers.RequeueAfter (30 * ctrl.Second) (Some (Failure msg))
           /\ r.2.2 = initializing
           /\ snd <$> databases r.2.1 !! key = Some (d_Status initializing)
           /\ dbWrites key (calls r.2.1) = dbWrites key (calls w) ++ [d_Status initializing])
        /\ (clear 1 (tenantOutcomes w) = true ->
            persistOutcome "Database" (drop 2 (apiFaults w)) (databases w !! key) = None ->
            r.1 = controllers.RequeueImmediately
            /\ r.2.2 = initialized
            /\ tenantInitialized (d_Status initialized) = true
            /\ snd <$> databases r.2.1 !! key = Some (d_Status initialized)
            /\ dbWrites key (calls r.2.1)
               = dbWrites key (calls w) ++ [d_Status initializing; d_Status initialized]))
  /\ (forall w0 w key stored0,
        rtc (step X) w0 w ->
        databases w0 !! key = Some stored0 ->
        tenantInitialized stored0.2 = false ->
        State stored0.2 <> database.Ready ->
        dbWrites key (calls w0) = [] ->
        let hist := dbWrites key (calls w) in
        (settings false (tenantInitialized <$> hist) <= 1)%nat
        /\ through_Initializing hist).
Proof.
  split; [intros w ydbCr; apply database_Sync_skips_tenant|]. split.
  - intros w database key initializing initialized Hp r.
    destruct (handleTenantCreation_spec X w database Hp) as [Hfail Hok].
    split; [exact Hfail|]. intros Hc Hp2. destruct (Hok Hc Hp2) as (H1 & H2 & H3 & H4).
    split; [exact H1|]. split; [exact H2|]. split; [|split; assumption].
    unfold tenantInitialized. cbn [initialized database.with_Condition d_Status Conditions].
    apply (IsStatusConditionTrue_set _
             {| cType := database.ConditionTenantInitialized; cStatus := "True";
                cReason := "TenantInitialized";
                cMessage := "Tenant creation is complete" |}). reflexivity.
  - intros w0 w key stored0 Hrun Hs0 Hti Hst Hfresh hist.
    destruct (recorded_rtc X key w0 w Hrun) as (stored & Hs & Hrec).
    { exists stored0. split; [exact Hs0|]. unfold recorded. rewrite Hfresh. cbn.
      rewrite Hti. split; [reflexivity|]. split; [reflexivity|].
      split; [intros i st Hi; discriminate|]. split; [discriminate|].
      intros H. contradiction. }
    destruct Hrec as (_ & Hset & Hthru & _). split; [|exact Hthru].
    fold hist in Hset. rewrite Hset. destruct (tenantInitialized stored.2); lia.
Qed.

(** ** The Database scale wait *)

(** C3. The Database wait-for-scale phase does not follow the Storage one:
    it compares [Status.Replicas] of the workload object with
    [Spec.Nodes] and never looks at the pods.  In a cluster where both
    workload objects report three replicas and no pod runs, the Storage
    phase requeues after 10 seconds while the Database phase, its tenant
    initialized, declares the Database Ready and continues. *)
Theorem database_scale_wait_counts_replicas :
  let w := demo.created_not_running in
  let storage := demo.storageCr "Provisioning" (Conditions demo.bootstrapped) in
  let database := demo.databaseCr "Provisioning" (Conditions demo.tenanted) in
  Forall (fun p => p_Phase p <> "Running") (pods w)
  /\ (storage.waitForStatefulSetToScale demo.X (w, storage)).1
     = controllers.RequeueAfter (10 * ctrl.Second) None
  /\ (database.waitForStatefulSetToScale (w, database)).1 = controllers.Ok
  /\ State (d_Status (database.waitForStatefulSetToScale (w, database)).2.2) = "Ready"
  /\ snd <$> databases (database.waitForStatefulSetToScale (w, database)).2.1 !! ("ydb", "db")
     = Some {| State := "Ready"; Conditions := Conditions demo.tenanted |}.
Proof.
  cbv zeta. split.
  - repeat (apply List.Forall_cons; [discriminate|]). apply List.Forall_nil.
  - vm_compute. repeat split.
Qed.

(** ** Failing inputs and runs *)

(** The claim C8 fails where the API server refuses the fetch of the
    workload object: the phase returns the error and no delay. *)
Lemma scale_wait_get_failure_untimed :
  let r := storage.waitForStatefulSetToScale demo.X
             (demo.unreachable, demo.storageCr "" None) in
  r.1 = controllers.NoRequeue (Failure "etcdserver: request timed out")
  /\ ~ (0 < ctrl.RequeueAfter r.1.1).
Proof. vm_compute. split; [reflexivity|]. intros H. discriminate H. Qed.

(** The tenant API fails once and then succeeds: three passes write
    Initializing, then the condition, then Ready, and the ledger holds
    one TenantInitialized entry. *)
Example tenant_retry_run :
  let w := demo.pass (demo.pass (demo.pass demo.tenantless)) in
  State <$> dbWrites ("ydb", "db") (calls w)
  = [""; "Initializing"; "Initializing"; "Initializing"; "Initializing";
     "Initializing"; "Ready"]
  /\ tenantInitialized <$> dbWrites ("ydb", "db") (calls w)
     = [false; false; false; false; true; true; true]
  /\ (fun stored : DatabaseSpec * Status => length (default [] (Conditions stored.2)))
       <$> databases w !! ("ydb", "db") = Some 1%nat
  /\ (fun ce : Call * option Err => ce.2) <$> tenantCalls (calls w)
     = [Some (Failure "unavailable"); None].
Proof. vm_compute. repeat (split; [reflexivity|]). reflexivity. Qed.

(** Three running pods, a healthy probe and two successful commands: the
    Storage converges to Ready with StorageInitialized true and stays
    so. *)
Example storage_converges :
  let sync := fun w =>
    match storages w !! ("ydb", "store") with
    | Some stored => (storage.Sync demo.X (client.storageAt ("ydb", "store") stored) w).2.1
    | None => w
    end in
  let w0 := demo.cluster demo.fresh demo.fresh ["Running"; "Running"; "Running"] [] in
  let w3 := sync (sync (sync w0)) in
  snd <$> storages w3 !! ("ydb", "store")
  = Some {| State := "Ready";
            Conditions := Some [{| cType := "StorageInitialized"; cStatus := "True";
                                   cReason := "StorageInitialized";
                                   cMessage := "Storage initialized successfully" |}] |}
  /\ snd <$> storages (sync w3) !! ("ydb", "store") = snd <$> storages w3 !! ("ydb", "store")
  /\ List.filter (fun ce => match ce.1 with CExec _ _ _ _ => true | _ => false end)
       (calls (sync w3))
     = [(CExec "ydb" "store-0" "ydb-storage" storage.cmdDefineBox, None);
        (CExec "ydb" "store-0" "ydb-storage" storage.cmdConfigureRoot, None)].
Proof. vm_compute. repeat (split; [reflexivity|]). reflexivity. Qed.

(** ** Witnesses *)

Lemma runDefineBoxScript_gated_witness :
  storage.runDefineBoxScript
    (demo.underscaled, demo.storageCr "Provisioning" (Conditions demo.bootstrapped))
  = (controllers.Ok,
     (demo.underscaled, demo.storageCr "Provisioning" (Conditions demo.bootstrapped))).
Proof.
  apply (runDefineBoxScript_gated demo.underscaled
           (demo.storageCr "Provisioning" (Conditions demo.bootstrapped))
           (demo.initialized "StorageInitialized")).
  - apply NoDup_singleton.
  - apply list_elem_of_here.
  - reflexivity.
  - reflexivity.
Defined.

Lemma storage_waitForStatefulSetToScale_witness :
  let r := storage.waitForStatefulSetToScale demo.X
             (demo.underscaled, demo.storageCr "" None) in
  r.1 = controllers.RequeueAfter (10 * ctrl.Second) None
  /\ State (s_Status r.2.2) = "Provisioning"
  /\ snd <$> (storages r.2.1 !! ("ydb", "store")) = Some (s_Status r.2.2).
Proof.
  refine (proj1 (storage_waitForStatefulSetToScale_spec demo.X demo.underscaled
                   (demo.storageCr "" None) (demo.workload "store" 3) _ _ _) _).
  - reflexivity.
  - vm_compute. reflexivity.
  - vm_compute. reflexivity.
  - vm_compute. discriminate.
Defined.

Lemma database_Sync_waits_for_storage_witness :
  let r := database.Sync demo.X (demo.databaseCr "" None) demo.underscaled in
  (exists err, r.1 = controllers.RequeueAfter (60 * ctrl.Second) err)
  /\ State (d_Status r.2.2) = "".
Proof.
  destruct (database_Sync_waits_for_storage demo.X demo.underscaled (demo.databaseCr "" None))
    as (H1 & H2 & _).
  - vm_compute. discriminate.
  - split; [exact H1|exact H2].
Defined.

Lemma demo_pass_step (w : World) : rtc (step demo.X) w (demo.pass w).
Proof.
  unfold demo.pass. destruct (databases w !! ("ydb", "db")) as [stored|] eqn:E.
  - apply rtc_once. apply step_Sync. exact E.
  - apply rtc_refl.
Qed.

Lemma tenant_creation_once_witness :
  let w := demo.pass (demo.pass (demo.pass demo.tenantless)) in
  (settings false (tenantInitialized <$> dbWrites ("ydb", "db") (calls w)) <= 1)%nat
  /\ through_Initializing (dbWrites ("ydb", "db") (calls w)).
Proof.
  refine (proj2 (proj2 (tenant_creation_once demo.X)) demo.tenantless _ ("ydb", "db")
            (d_Spec (demo.databaseCr "" None), demo.fresh) _ _ _ _ _).
  - etransitivity; [apply demo_pass_step|].
    etransitivity; [apply demo_pass_step|]. apply demo_pass_step.
  - vm_compute. reflexivity.
  - reflexivity.
  - vm_compute. discriminate.
  - reflexivity.
Defined.

Lemma demo_builder_stable (b : ResourceBuilder) (src v : Object) :
  b ∈ resources.GetResourceBuilders demo.X (demo.storageCr "" None) ->
  storage.desired (demo.storageCr "" None) b src = inr v ->
  storage.desired (demo.storageCr "" None) b v = inr v.
Proof.
  intros Hb.
  assert (Hbuild : exists payload, forall o, Build b o = inr (demo.setPayload payload o)).
  { assert (Hm : exists bd, b = demo.builderMethods bd).
    { unfold resources.GetResourceBuilders in Hb. cbv zeta in Hb.
      apply elem_of_app in Hb as [Hb|Hb].
      - apply list_elem_of_fmap in Hb as (e & -> & _). eexists. reflexivity.
      - repeat (apply elem_of_cons in Hb as [->|Hb]; [eexists; reflexivity|]).
        inversion Hb. }
    destruct Hm as [bd ->]. destruct bd; eexists; reflexivity. }
  destruct Hbuild as [payload Hbuild].
  unfold storage.desired, controllerutil.SetControllerReference. rewrite !Hbuild.
  cbn [demo.setPayload o_Namespace o_Name o_Owner o_Payload o_Replicas
         s_Namespace s_Name demo.storageCr].
  destruct (bool_decide ("ydb" <> "") && bool_decide (o_Namespace src = "")) eqn:H1;
    [discriminate|].
  destruct (bool_decide ("ydb" <> "") && bool_decide ("ydb" <> o_Namespace src)) eqn:H2;
    [discriminate|].
  destruct (o_Owner src) as [owner|] eqn:Ho.
  - destruct (bool_decide (owner = ("Storage", "store"))) eqn:Hown; [|discriminate].
    intros [= <-].
    cbn [demo.setPayload o_Namespace o_Name o_Owner o_Payload o_Replicas].
    rewrite H1, H2, Ho, Hown. reflexivity.
  - intros [= <-].
    cbn [demo.setPayload o_Namespace o_Name o_Owner o_Payload o_Replicas].
    rewrite H1, H2. rewrite bool_decide_true by reflexivity. reflexivity.
Qed.

Lemma handleResourcesSync_idempotent_witness :
  let r1 := storage.handleResourcesSync demo.X (demo.underscaled, demo.storageCr "" None) in
  let r2 := storage.handleResourcesSync demo.X r1.2 in
  r1.1 = controllers.RequeueImmediately
  /\ creates r2.2.1 = creates r1.2.1
  /\ objects r2.2.1 = objects r1.2.1.
Proof.
  refine (proj1 (handleResourcesSync_idempotent demo.X demo.underscaled)
            (demo.storageCr "" None) _ _ _).
  - apply (bool_decide_unpack _). vm_compute. exact I.
  - intros b src v Hb. apply demo_builder_stable. exact Hb.
  - vm_compute. reflexivity.
Defined.

Lemma transient_failure_outcomes_witness :
  storage.waitForStatefulSetToScale demo.X (demo.unreachable, demo.storageCr "" None)
  = (controllers.NoRequeue (Failure "etcdserver: request timed out"),
     (record {| ev_Type := EventTypeNormal; ev_Reason := "Syncing" |}
        (log (CGet "StatefulSet" ("ydb", "store"))
           (Some (Failure "etcdserver: request timed out"))
           (set_apiFaults (tail (apiFaults demo.unreachable)) demo.unreachable)),
      demo.storageCr "" None)).
Proof.
  apply (proj1 (transient_failure_outcomes demo.X demo.unreachable (demo.storageCr "" None)
                  (demo.databaseCr "" None) "etcdserver: request timed out")).
  reflexivity.
Defined.

Lemma runDefineBoxScript_persist_failure_witness :
  let r := storage.runDefineBoxScript (demo.conflicting, demo.storageCr "" None) in
  r.1 = controllers.NoRequeue (Failure "conflict")
  /\ ctrl.RequeueAfter r.1.1 = 0
  /\ storages r.2.1 = storages demo.conflicting.
Proof.
  destruct (runDefineBoxScript_persist_failure demo.X demo.conflicting
              (demo.storageCr "" None) (Failure "conflict")) as (H1 & H2 & H3 & _).
  - reflexivity.
  - intros stored Hs. vm_compute in Hs. injection Hs as <-. reflexivity.
  - reflexivity.
  - vm_compute. reflexivity.
  - split; [exact H1|]. split; [exact H2|exact H3].
Defined.

(** ** What the status writer touches *)

Lemma alter_status {A B : Type} (m : gmap (string * string) (A * B))
    (key : string * string) (b : B) :
  let m' := alter (fun old => (old.1, b)) key m in
  delete key m' = delete key m
  /\ fst <$> m' !! key = fst <$> m !! key
  /\ snd <$> m' !! key = (fun _ => b) <$> m !! key.
Proof.
  cbv zeta. rewrite delete_alter, lookup_alter.
  destruct (decide (key = key)) as [_|Hne]; [|contradiction].
  destruct (m !! key); repeat split.
Qed.

Lemma persistOutcome_stored {A : Type} (kind : string) (faults : list (option string))
    (stored : option A) :
  persistOutcome kind faults stored = None -> is_Some stored.
Proof.
  unfold persistOutcome. destruct (head faults) as [[?|]|]; try discriminate;
    destruct stored; eauto; discriminate.
Qed.

(** X1. The status writer of either reconciler changes nothing but the
    status stored under the key of its working copy: the working copy,
    the stored spec, every other stored resource, the child objects and
    the pods are as before.  When it returns no error the stored status
    is the working copy's; when it returns an error the store is as it
    was, and without a stored resource it always returns one. *)
Theorem setState_writes_status_only (w : World) (storage : Storage) (database : Database) :
  (let key := (s_Namespace storage, s_Name storage) in
   let r := storage.setState (w, storage) in
   r.2.2 = storage
   /\ databases r.2.1 = databases w /\ objects r.2.1 = objects w /\ pods r.2.1 = pods w
   /\ delete key (storages r.2.1) = delete key (storages w)
   /\ fst <$> storages r.2.1 !! key = fst <$> storages w !! key
   /\ match r.1.2 with
      | None => r.1 = controllers.Ok
                /\ snd <$> storages r.2.1 !! key = Some (s_Status storage)
      | Some e => r.1 = controllers.NoRequeue e /\ storages r.2.1 = storages w
      end
   /\ match storages w !! key with Some _ => True | None => r.1.2 <> None end)
  /\ (let key := (d_Namespace database, d_Name database) in
      let r := database.setState (w, database) in
      r.2.2 = database
      /\ storages r.2.1 = storages w /\ objects r.2.1 = objects w /\ pods r.2.1 = pods w
      /\ delete key (databases r.2.1) = delete key (databases w)
      /\ fst <$> databases r.2.1 !! key = fst <$> databases w !! key
      /\ match r.1.2 with
         | None => r.1 = controllers.Ok
                   /\ snd <$> databases r.2.1 !! key = Some (d_Status database)
         | Some e => r.1 = controllers.NoRequeue e /\ databases r.2.1 = databases w
         end
      /\ match databases w !! key with Some _ => True | None => r.1.2 <> None end).
Proof.
  split.
  - intros key r. pose proof (storage_setState_spec w storage) as H. cbv zeta in H.
    fold key in H. fold r in H.
    destruct H as (Hb & Ho & Hd & Hob & Hp & _ & _ & _ & Hcase).
    split; [exact Hb|]. split; [exact Hd|]. split; [exact Hob|]. split; [exact Hp|].
    rewrite Ho. cbn [snd].
    destruct (persistOutcome "Storage" (apiFaults w) (storages w !! key)) as [e|] eqn:Hpo.
    + destruct Hcase as [-> _]. repeat split.
      destruct (storages w !! key); [exact I|discriminate].
    + destruct Hcase as (-> & _).
      destruct (persistOutcome_stored _ _ _ Hpo) as [old Hold].
      destruct (alter_status (storages w) key (s_Status storage)) as (H1 & H2 & H3).
      rewrite H1, H2, H3, Hold. repeat split.
  - intros key r. pose proof (database_setState_spec w database) as H. cbv zeta in H.
    fold key in H. fold r in H.
    destruct H as (Hb & Ho & Hd & Hob & Hp & _ & _ & _ & Hcase).
    split; [exact Hb|]. split; [exact Hd|]. split; [exact Hob|]. split; [exact Hp|].
    rewrite Ho. cbn [snd].
    destruct (persistOutcome "Database" (apiFaults w) (databases w !! key)) as [e|] eqn:Hpo.
    + destruct Hcase as [-> _]. repeat split.
      destruct (databases w !! key); [exact I|discriminate].
    + destruct Hcase as (-> & _).
      destruct (persistOutcome_stored _ _ _ Hpo) as [old Hold].
      destruct (alter_status (databases w) key (d_Status database)) as (H1 & H2 & H3).
      rewrite H1, H2, H3, Hold. repeat split.
Qed.

(** ** The scale wait on its other paths *)

(** X2. Before the workload object exists (the fetch is served and finds
    nothing) the scale wait of either reconciler continues: one call is
    made, no event is recorded, no status is written and the working
    copy is as before. *)
Theorem scale_wait_without_workload (X : Externals) (w : World)
    (storage : Storage) (database : Database) :
  clear 1 (apiFaults w) = true ->
  objects w !! ("StatefulSet", s_Namespace storage, s_Name storage) = None ->
  objects w !! ("StatefulSet", d_Namespace database, d_Name database) = None ->
  let asked := fun key =>
    log (CGet "StatefulSet" key) (Some (NotFound "StatefulSet"))
      (set_apiFaults (tail (apiFaults w)) w) in
  storage.waitForStatefulSetToScale X (w, storage)
  = (controllers.Ok, (asked (s_Namespace storage, s_Name storage), storage))
  /\ database.waitForStatefulSetToScale (w, database)
     = (controllers.Ok, (asked (d_Namespace database, d_Name database), database)).
Proof.
  intros Hc Hs Hd asked. split.
  - unfold storage.waitForStatefulSetToScale. api.
    rewrite request_served by exact Hc. frame. rewrite Hs. reflexivity.
  - unfold database.waitForStatefulSetToScale. api.
    rewrite request_served by exact Hc. frame. rewrite Hd. reflexivity.
Qed.

Lemma scale_wait_without_workload_witness :
  let w := set_objects ∅ demo.underscaled in
  (storage.waitForStatefulSetToScale demo.X (w, demo.storageCr "" None)).1 = controllers.Ok
  /\ (database.waitForStatefulSetToScale (w, demo.databaseCr "" None)).1 = controllers.Ok.
Proof.
  destruct (scale_wait_without_workload demo.X (set_objects ∅ demo.underscaled)
              (demo.storageCr "" None) (demo.databaseCr "" None)) as [H1 H2].
  - reflexivity.
  - reflexivity.
  - reflexivity.
  - cbv zeta. rewrite H1, H2. split; reflexivity.
Defined.

(** X3. A Storage whose workload is at scale and which is already Ready,
    or not yet initialized, passes the scale wait without a status
    write: the workload is fetched, the pods are listed, and nothing
    else happens. *)
Theorem storage_scale_wait_settled (X : Externals) (w : World) (storage : Storage)
    (sts : Object) :
  let key := (s_Namespace storage, s_Name storage) in
  let members :=
    List.filter (client.selects (s_Namespace storage) (storage.podLabels X storage)) (pods w) in
  clear 2 (apiFaults w) = true ->
  objects w !! ("StatefulSet", key.1, key.2) = Some sts ->
  Z.of_nat (length (List.filter (fun e => bool_decide (p_Phase e = "Running")) members))
  = st_Nodes (s_Spec storage) ->
  State (s_Status storage) = "Ready"
  \/ meta.IsStatusConditionTrue (Conditions (s_Status storage))
       storage.StorageInitializedCondition = false ->
  let r := storage.waitForStatefulSetToScale X (w, storage) in
  r.1 = controllers.Ok
  /\ r.2.2 = storage
  /\ storages r.2.1 = storages w
  /\ events r.2.1 = events w
  /\ calls r.2.1
     = calls w ++ [(CGet "StatefulSet" key, None);
                   (CList (s_Namespace storage) (storage.podLabels X storage), None)].
Proof.
  intros key members Hclear Hsts Hcount Hrest r.
  apply clear_S in Hclear as [H1 Hclear]. apply clear_S in Hclear as [H2 _].
  subst r. unfold storage.waitForStatefulSetToScale. api.
  rewrite request_served by exact H1. frame.
  unfold key in Hsts. cbn [fst snd] in Hsts. rewrite Hsts. run.
  rewrite request_served by (frame; exact H2). frame. run.
  rewrite countRunning_length. fold members. rewrite Hcount.
  rewrite bool_decide_false by (intros Hne; apply Hne; reflexivity).
  assert (Hgate : bool_decide (State (s_Status storage) <> "Ready")
                  && meta.IsStatusConditionTrue (Conditions (s_Status storage))
                       storage.StorageInitializedCondition = false).
  { destruct Hrest as [Hr|Hr].
    - rewrite bool_decide_false by (intros Hne; apply Hne, Hr). reflexivity.
    - rewrite Hr. apply andb_false_r. }
  rewrite Hgate. run. frame. repeat split. rewrite <- app_assoc. reflexivity.
Qed.

Lemma storage_scale_wait_settled_witness :
  let w := demo.cluster demo.ready demo.fresh ["Running"; "Running"; "Running"] [] in
  let r := storage.waitForStatefulSetToScale demo.X
             (w, demo.storageCr "Ready" (Conditions demo.ready)) in
  r.1 = controllers.Ok /\ storages r.2.1 = storages w.
Proof.
  destruct (storage_scale_wait_settled demo.X
              (demo.cluster demo.ready demo.fresh ["Running"; "Running"; "Running"] [])
              (demo.storageCr "Ready" (Conditions demo.ready)) (demo.workload "store" 3))
    as (H1 & _ & H3 & _).
  - reflexivity.
  - vm_compute. reflexivity.
  - vm_compute. reflexivity.
  - left. reflexivity.
  - split; [exact H1|exact H3].
Defined.

(** X4. The Database scale wait as written: it reads [Status.Replicas]
    of the workload object and makes no pod listing.  With the fetch
    served and the status write going through, a replica count other
    than [Spec.Nodes] persists Provisioning and requeues after 10
    seconds; an equal count with TenantInitialized true and [State] not
    Ready persists Ready and continues; an equal count otherwise
    continues with no write at all. *)
Theorem database_scale_wait_follows_replicas (w : World) (database : Database)
    (sts : Object) :
  let key := (d_Namespace database, d_Name database) in
  clear 1 (apiFaults w) = true ->
  objects w !! ("StatefulSet", key.1, key.2) = Some sts ->
  persistOutcome "Database" (tail (apiFaults w)) (databases w !! key) = None ->
  let r := database.waitForStatefulSetToScale (w, database) in
  let written := fun st =>
    calls w ++ [(CGet "StatefulSet" key, None); (CGet "Database" key, None);
                (CStatusUpdate "Database" key st, None)] in
  (o_Replicas sts <> db_Nodes (d_Spec database) ->
     r.1 = controllers.RequeueAfter (10 * ctrl.Second) None
     /\ r.2.2 = database.with_State database.Provisioning database
     /\ snd <$> databases r.2.1 !! key = Some (d_Status r.2.2)
     /\ calls r.2.1 = written (d_Status r.2.2))
  /\ (o_Replicas sts = db_Nodes (d_Spec database) ->
      tenantInitialized (d_Status database) = true ->
      State (d_Status database) <> database.Ready ->
      r.1 = controllers.Ok
      /\ r.2.2 = database.with_State database.Ready database
      /\ snd <$> databases r.2.1 !! key = Some (d_Status r.2.2)
      /\ calls r.2.1 = written (d_Status r.2.2))
  /\ (o_Replicas sts = db_Nodes (d_Spec database) ->
      State (d_Status database) = database.Ready
      \/ tenantInitialized (d_Status database) = false ->
      r.1 = controllers.Ok
      /\ r.2.2 = database
      /\ databases r.2.1 = databases w
      /\ calls r.2.1 = calls w ++ [(CGet "StatefulSet" key, None)]).
Proof.
  intros key Hclear Hsts Hpersist r written.
  destruct (persistOutcome_stored _ _ _ Hpersist) as [old Hold].
  subst r. unfold database.waitForStatefulSetToScale. api.
  rewrite request_served by exact Hclear. frame.
  unfold key in Hsts. cbn [fst snd] in Hsts. rewrite Hsts. run.
  split; [|split].
  - intros Hne. rewrite bool_decide_true by exact Hne. run.
    match goal with |- context [database.setState (?w1, ?b1)] =>
      destruct (database_setState_ok w1 b1) as (wp & Ep & Hsp & _ & _ & _ & _ & _ & _ & _ & Hcp) end.
    { frame. exact Hpersist. }
    rewrite Ep. run. frame in Hsp. frame in Hcp.
    cbn [database.with_State d_Namespace d_Name] in Hsp, Hcp. fold key in Hsp, Hcp.
    frame. rewrite Hsp, Hcp. rewrite lookup_alter.
    destruct (decide (key = key)) as [_|Hk]; [|contradiction]. rewrite Hold.
    repeat split. unfold written. rewrite <- app_assoc. reflexivity.
  - intros Heq Hti Hst. rewrite bool_decide_false by (intros Hne; apply Hne, Heq).
    rewrite bool_decide_true by exact Hst. unfold tenantInitialized in Hti. rewrite Hti.
    cbn [andb]. run.
    match goal with |- context [database.setState (?w1, ?b1)] =>
      destruct (database_setState_ok w1 b1) as (wp & Ep & Hsp & _ & _ & _ & _ & _ & _ & _ & Hcp) end.
    { frame. exact Hpersist. }
    rewrite Ep. run. frame in Hsp. frame in Hcp.
    cbn [database.with_State d_Namespace d_Name] in Hsp, Hcp. fold key in Hsp, Hcp.
    frame. rewrite Hsp, Hcp. rewrite lookup_alter.
    destruct (decide (key = key)) as [_|Hk]; [|contradiction]. rewrite Hold.
    repeat split. unfold written. rewrite <- app_assoc. reflexivity.
  - intros Heq Hrest. rewrite bool_decide_false by (intros Hne; apply Hne, Heq).
    assert (Hgate : bool_decide (State (d_Status database) <> database.Ready)
                    && meta.IsStatusConditionTrue (Conditions (d_Status database))
                         database.ConditionTenantInitialized = false).
    { destruct Hrest as [Hr|Hr].
      - rewrite bool_decide_false by (intros Hne; apply Hne, Hr). reflexivity.
      - unfold tenantInitialized in Hr. rewrite Hr. apply andb_false_r. }
    rewrite Hgate. run. frame. repeat split.
Qed.

Lemma database_scale_wait_follows_replicas_witness :
  let r := database.waitForStatefulSetToScale
             (demo.created_not_running,
              demo.databaseCr "Provisioning" (Conditions demo.tenanted)) in
  r.1 = controllers.Ok
  /\ r.2.2 = database.with_State database.Ready
               (demo.databaseCr "Provisioning" (Conditions demo.tenanted)).
Proof.
  destruct (database_scale_wait_follows_replicas demo.created_not_running
              (demo.databaseCr "Provisioning" (Conditions demo.tenanted))
              (demo.workload "db" 3)) as (_ & H & _).
  - reflexivity.
  - vm_compute. reflexivity.
  - vm_compute. reflexivity.
  - destruct H as (H1 & H2 & _).
    + reflexivity.
    + reflexivity.
    + vm_compute. discriminate.
    + split; [exact H1|exact H2].
Defined.

(** ** The dependency wait *)

(** X5. The dependency wait decides on the stored [State] of the
    referenced Storage alone: it continues exactly when the fetch is
    served and finds a Storage whose [State] is Ready, and requeues
    after 60 seconds otherwise.  In every case its one call is that
    fetch, and the working copy and the stored resources and objects are
    as before. *)
Theorem waitForClusterResource_decides (w : World) (database : Database) :
  let ref := (ref_Namespace (StorageClusterRef (d_Spec database)),
              ref_Name (StorageClusterRef (d_Spec database))) in
  let r := database.waitForClusterResource (w, database) in
  r.2.2 = database
  /\ storages r.2.1 = storages w /\ databases r.2.1 = databases w
  /\ objects r.2.1 = objects w
  /\ (exists e, calls r.2.1 = calls w ++ [(CGet "Storage" ref, e)])
  /\ (r.1 = controllers.Ok
      \/ exists err, r.1 = controllers.RequeueAfter (60 * ctrl.Second) err)
  /\ (r.1 = controllers.Ok <->
      clear 1 (apiFaults w) = true
      /\ exists stored, storages w !! ref = Some stored /\ State stored.2 = "Ready").
Proof.
  intros ref r. subst r. unfold database.waitForClusterResource. api. fold ref.
  on_request Hf Hs.
  - run. frame. do 5 (split; [solve [eauto]|]). split; [right; eauto|].
    split; [discriminate|].
    intros [Hc _]. destruct (apiFaults w) as [|[m|] rest]; discriminate.
  - frame. destruct (storages w !! ref) as [stored|] eqn:Hst;
      cbn [fmap option_fmap option_map]; run.
    + cbn [client.storageAt s_Status snd].
      destruct (bool_decide (State stored.2 <> "Ready")) eqn:Hd; run; frame.
      * apply bool_decide_eq_true in Hd.
        do 5 (split; [solve [eauto]|]). split; [right; eauto|].
        split; [discriminate|].
        intros (_ & stored' & [= <-] & Hr). contradiction.
      * apply bool_decide_eq_false in Hd.
        do 5 (split; [solve [eauto]|]). split; [left; reflexivity|].
        split; [|reflexivity]. intros _. split; [exact Hs|].
        exists stored. split; [reflexivity|].
        destruct (decide (State stored.2 = "Ready")); [assumption|contradiction].
    + frame. do 5 (split; [solve [eauto]|]). split; [right; eauto|].
      split; [discriminate|].
      intros (_ & stored' & Hs' & _). discriminate.
Qed.

(** ** The bootstrap phase on its other paths *)

(** X6. The bootstrap when everything goes through: with the condition
    unset, both commands succeeding and the status write accepted, the
    phase runs the two commands in order in the first member pod
    [<name>-0], container [ydb-storage], sets StorageInitialized true
    in the working copy without touching [State], persists the status
    and requeues immediately. *)
Theorem runDefineBoxScript_bootstraps (w : World) (storage : Storage) :
  let key := (s_Namespace storage, s_Name storage) in
  let pod := s_Name storage +:+ "-0" in
  meta.IsStatusConditionTrue (Conditions (s_Status storage))
    storage.StorageInitializedCondition = false ->
  clear 2 (execOutcomes w) = true ->
  persistOutcome "Storage" (apiFaults w) (storages w !! key) = None ->
  let r := storage.runDefineBoxScript (w, storage) in
  r.1 = controllers.RequeueImmediately
  /\ meta.IsStatusConditionTrue (Conditions (s_Status r.2.2))
       storage.StorageInitializedCondition = true
  /\ State (s_Status r.2.2) = State (s_Status storage)
  /\ s_Spec r.2.2 = s_Spec storage
  /\ snd <$> storages r.2.1 !! key = Some (s_Status r.2.2)
  /\ calls r.2.1
     = calls w ++ [(CExec (s_Namespace storage) pod "ydb-storage" storage.cmdDefineBox, None);
                   (CExec (s_Namespace storage) pod "ydb-storage" storage.cmdConfigureRoot, None);
                   (CGet "Storage" key, None);
                   (CStatusUpdate "Storage" key (s_Status r.2.2), None)].
Proof.
  intros key pod Hgate Hexec Hpersist r.
  apply clear_S in Hexec as [Hx1 Hexec]. apply clear_S in Hexec as [Hx2 _].
  destruct (persistOutcome_stored _ _ _ Hpersist) as [old Hold].
  subst r. unfold storage.runDefineBoxScript. run. rewrite Hgate. api. frame.
  rewrite (answer_clear _ Hx1). run. frame. rewrite (answer_clear _ Hx2). run.
  match goal with |- context [storage.setState (?w1, ?b1)] =>
    destruct (storage_setState_ok w1 b1) as (w' & E & Hs & _ & _ & _ & _ & _ & _ & _ & Hc) end.
  { frame. exact Hpersist. }
  rewrite E. run. frame in Hs. frame in Hc.
  cbn [storage.with_Condition s_Namespace s_Name] in Hs, Hc. fold key pod in Hs, Hc.
  split; [reflexivity|]. split.
  { cbn [storage.with_Condition s_Status Conditions].
    apply (IsStatusConditionTrue_set _
             {| cType := storage.StorageInitializedCondition; cStatus := "True";
                cReason := "StorageInitialized";
                cMessage := "Storage initialized successfully" |}). reflexivity. }
  split; [reflexivity|]. split; [reflexivity|]. split.
  - rewrite Hs, lookup_alter. destruct (decide (key = key)) as [_|Hk]; [|contradiction].
    rewrite Hold. reflexivity.
  - rewrite Hc. rewrite <- !app_assoc. reflexivity.
Qed.

Lemma runDefineBoxScript_bootstraps_witness :
  let r := storage.runDefineBoxScript (demo.underscaled, demo.storageCr "" None) in
  r.1 = controllers.RequeueImmediately
  /\ meta.IsStatusConditionTrue (Conditions (s_Status r.2.2))
       storage.StorageInitializedCondition = true.
Proof.
  destruct (runDefineBoxScript_bootstraps demo.underscaled (demo.storageCr "" None))
    as (H1 & H2 & _).
  - reflexivity.
  - reflexivity.
  - vm_compute. reflexivity.
  - split; [exact H1|exact H2].
Defined.

(** X7. A bootstrap command that fails leaves no trace but its own call:
    when the first command fails the second is not run; in both cases
    no status is written, the working copy is as before, and the phase
    asks to be run again after 30 seconds, when it starts over from the
    first command. *)
Theorem runDefineBoxScript_command_failure (w : World) (storage : Storage) (msg : string) :
  let pod := s_Name storage +:+ "-0" in
  let exec1 := CExec (s_Namespace storage) pod "ydb-storage" storage.cmdDefineBox in
  let exec2 := CExec (s_Namespace storage) pod "ydb-storage" storage.cmdConfigureRoot in
  meta.IsStatusConditionTrue (Conditions (s_Status storage))
    storage.StorageInitializedCondition = false ->
  head (execOutcomes w) = Some (Some msg)
  \/ (clear 1 (execOutcomes w) = true /\ head (tail (execOutcomes w)) = Some (Some msg)) ->
  let r := storage.runDefineBoxScript (w, storage) in
  r.1 = controllers.RequeueAfter (30 * ctrl.Second) (Some (Failure msg))
  /\ r.2.2 = storage
  /\ storages r.2.1 = storages w
  /\ apiFaults r.2.1 = apiFaults w
  /\ calls r.2.1
     = calls w ++ (if clear 1 (execOutcomes w)
                   then [(exec1, None); (exec2, Some (Failure msg))]
                   else [(exec1, Some (Failure msg))]).
Proof.
  intros pod exec1 exec2 Hgate Hfail r. subst r.
  unfold storage.runDefineBoxScript. run. rewrite Hgate. api. frame.
  fold pod. fold exec1 exec2.
  destruct Hfail as [Hf|[Hc Hf]].
  - rewrite (answer_failed _ _ Hf). run. frame.
    replace (clear 1 (execOutcomes w)) with false
      by (destruct (execOutcomes w) as [|[m|] rest]; [discriminate|reflexivity|discriminate]).
    repeat split.
  - rewrite (answer_clear _ Hc). run. frame. rewrite (answer_failed _ _ Hf). run. frame.
    rewrite Hc. repeat split. rewrite <- app_assoc. reflexivity.
Qed.

Lemma runDefineBoxScript_command_failure_witness :
  let w := set_execOutcomes [None; Some "exit status 1"] demo.underscaled in
  let r := storage.runDefineBoxScript (w, demo.storageCr "" None) in
  r.1 = controllers.RequeueAfter (30 * ctrl.Second) (Some (Failure "exit status 1"))
  /\ r.2.2 = demo.storageCr "" None
  /\ storages r.2.1 = storages w.
Proof.
  destruct (runDefineBoxScript_command_failure
              (set_execOutcomes [None; Some "exit status 1"] demo.underscaled)
              (demo.storageCr "" None) "exit status 1") as (H1 & H2 & H3 & _).
  - reflexivity.
  - right. split; reflexivity.
  - split; [exact H1|]. split; [exact H2|exact H3].
Defined.

(** ** The tenant creation when a status write fails *)

(** X8. The tenant is not created before Initializing is on record: when
    the first status write of the tenant-creation phase fails, the
    phase returns that error with no requeue delay, the tenant API is
    not called and the stored Databases are as before. *)
Theorem handleTenantCreation_persists_first (X : Externals) (w : World)
    (database : Database) (e : Err) :
  let key := (d_Namespace database, d_Name database) in
  persistOutcome "Database" (apiFaults w) (databases w !! key) = Some e ->
  let r := database.handleTenantCreation X (w, database) in
  r.1 = controllers.NoRequeue e
  /\ tenantCalls (calls r.2.1) = tenantCalls (calls w)
  /\ tenantOutcomes r.2.1 = tenantOutcomes w
  /\ databases r.2.1 = databases w.
Proof.
  intros key Hp r. subst r. unfold database.handleTenantCreation. run.
  match goal with |- context [database.setState (?w1, ?b1)] =>
    destruct (database_setState_failed w1 b1 e)
      as (w' & E & Hd & _ & _ & _ & _ & _ & Ht & l & Hl & Hall) end.
  { exact Hp. }
  rewrite E. run. split; [reflexivity|]. split; [|split; assumption].
  rewrite Hl, tenantCalls_app.
  destruct (quiet_traffic (d_Namespace database, d_Name database) _ _ _ Hall) as [_ ->].
  apply app_nil_r.
Qed.

Lemma handleTenantCreation_persists_first_witness :
  let w := set_apiFaults [Some "etcdserver: request timed out"] demo.tenantless in
  let r := database.handleTenantCreation demo.X (w, demo.databaseCr "" None) in
  r.1 = controllers.NoRequeue (Failure "etcdserver: request timed out")
  /\ tenantCalls (calls r.2.1) = tenantCalls (calls w).
Proof.
  destruct (handleTenantCreation_persists_first demo.X
              (set_apiFaults [Some "etcdserver: request timed out"] demo.tenantless)
              (demo.databaseCr "" None) (Failure "etcdserver: request timed out"))
    as (H1 & H2 & _).
  - reflexivity.
  - split; [exact H1|exact H2].
Defined.

(** X9. A tenant created and not recorded: when the tenant API succeeds
    and the status write that follows fails with [e], the phase returns
    [e] with no requeue delay; the store holds [State] Initializing
    with the conditions the working copy came with, so the
    TenantInitialized condition is not on record although the tenant
    API has been called once. *)
Theorem handleTenantCreation_unrecorded (X : Externals) (w : World)
    (database : Database) (e : Err) :
  let key := (d_Namespace database, d_Name database) in
  let initializing := database.with_State database.Initializing database in
  persistOutcome "Database" (apiFaults w) (databases w !! key) = None ->
  clear 1 (tenantOutcomes w) = true ->
  persistOutcome "Database" (drop 2 (apiFaults w)) (databases w !! key) = Some e ->
  let r := database.handleTenantCreation X (w, database) in
  r.1 = controllers.NoRequeue e
  /\ snd <$> databases r.2.1 !! key = Some (d_Status initializing)
  /\ tenantInitialized (d_Status initializing) = tenantInitialized (d_Status database)
  /\ dbWrites key (calls r.2.1) = dbWrites key (calls w) ++ [d_Status initializing]
  /\ tenantCalls (calls r.2.1)
     = tenantCalls (calls w) ++ [(CTenantCreate (GetTenantName X initializing), None)].
Proof.
  intros key initializing Hp Hc Hp2 r. subst r.
  destruct (persistOutcome_stored _ _ _ Hp) as [old Hold].
  unfold database.handleTenantCreation. run. fold initializing.
  destruct (database_setState_ok w initializing Hp)
    as (w1 & E1 & Hd1 & _ & _ & _ & _ & _ & Ht1 & Hf1 & Hc1).
  cbn [initializing database.with_State d_Namespace d_Name] in Hd1, Hc1.
  fold key in Hd1, Hc1. fold initializing in Hd1, Hc1.
  rewrite E1. run. unfold TenantCreate. frame. rewrite Ht1.
  assert (Hw1 : dbWrites key (calls w1) = dbWrites key (calls w) ++ [d_Status initializing]).
  { rewrite Hc1, dbWrites_app. unfold dbWrites at 2. cbn [omap list_omap].
    rewrite bool_decide_true by (split; reflexivity). reflexivity. }
  assert (Ht : tenantCalls (calls w1) = tenantCalls (calls w)).
  { rewrite Hc1, tenantCalls_app. apply app_nil_r. }
  assert (Hl1 : databases w1 !! key = Some (old.1, d_Status initializing)).
  { rewrite Hd1, lookup_alter. destruct (decide (key = key)) as [_|Hk]; [|contradiction].
    rewrite Hold. reflexivity. }
  rewrite (answer_clear _ Hc). run. frame.
  match goal with |- context [database.setState (?w2, ?b2)] =>
    destruct (database_setState_failed w2 b2 e)
      as (w3 & E3 & Hd3 & _ & _ & _ & _ & _ & _ & l & Hl & Hall) end.
  { frame. cbn [initializing database.with_Condition database.with_State d_Namespace d_Name].
    fold key. rewrite Hf1, Hl1. unfold persistOutcome in Hp2 |- *. rewrite Hold in Hp2.
    exact Hp2. }
  rewrite E3. run. frame in Hd3. frame in Hl.
  cbn [initializing database.with_Condition database.with_State d_Namespace d_Name] in Hall.
  destruct (quiet_traffic key key _ _ Hall) as [Hq1 Hq2].
  split; [reflexivity|]. split; [rewrite Hd3, Hl1; reflexivity|].
  split; [reflexivity|]. split.
  - rewrite Hl, !dbWrites_app, Hq1, Hw1. unfold dbWrites at 2. cbn [omap list_omap].
    rewrite !app_nil_r. reflexivity.
  - rewrite Hl, !tenantCalls_app, Hq2, Ht. unfold tenantCalls at 2. cbn [List.filter fst].
    rewrite app_nil_r. reflexivity.
Qed.

Lemma handleTenantCreation_unrecorded_witness :
  let w := set_apiFaults [None; None; None; Some "conflict"]
             (set_tenantOutcomes [] demo.tenantless) in
  let r := database.handleTenantCreation demo.X (w, demo.databaseCr "" None) in
  r.1 = controllers.NoRequeue (Failure "conflict")
  /\ snd <$> databases r.2.1 !! ("ydb", "db")
     = Some {| State := "Initializing"; Conditions := None |}.
Proof.
  destruct (handleTenantCreation_unrecorded demo.X
              (set_apiFaults [None; None; None; Some "conflict"]
                 (set_tenantOutcomes [] demo.tenantless))
              (demo.databaseCr "" None) (Failure "conflict")) as (H1 & H2 & _).
  - vm_compute. reflexivity.
  - reflexivity.
  - vm_compute. reflexivity.
  - split; [exact H1|exact H2].
Defined.

(** ** Changes within a footprint *)

Section Confined.
Variable allowed : Call -> Prop.

Lemma confined_refl (w : World) : confined allowed w w.
Proof.
  do 4 (split; [solve [auto]|]). exists []. rewrite app_nil_r.
  split; [reflexivity|]. split; [constructor|]. repeat split; intros; left; reflexivity.
Qed.

Lemma confined_trans (w1 w2 w3 : World) :
  confined allowed w1 w2 -> confined allowed w2 w3 -> confined allowed w1 w3.
Proof.
  intros (Hp1 & Hs1 & Hd1 & Hk1 & l1 & Hc1 & Hl1 & Hws1 & Hwd1 & Hwo1)
         (Hp2 & Hs2 & Hd2 & Hk2 & l2 & Hc2 & Hl2 & Hws2 & Hwd2 & Hwo2).
  split; [congruence|].
  split; [intros k; rewrite Hs2; apply Hs1|].
  split; [intros k; rewrite Hd2; apply Hd1|].
  split; [intros k Hk; apply Hk2, Hk1, Hk|].
  exists (l1 ++ l2). split; [rewrite Hc2, Hc1, app_assoc; reflexivity|].
  split; [apply List.Forall_app; split; assumption|].
  split; [|split].
  - intros k. destruct (Hws2 k) as [->|(st & Hst & Hin)].
    + destruct (Hws1 k) as [->|(st & Hst & Hin)]; [left; reflexivity|].
      right. exists st. split; [exact Hst|]. apply elem_of_app. left. exact Hin.
    + right. exists st. split; [exact Hst|]. apply elem_of_app. right. exact Hin.
  - intros k. destruct (Hwd2 k) as [->|(st & Hst & Hin)].
    + destruct (Hwd1 k) as [->|(st & Hst & Hin)]; [left; reflexivity|].
      right. exists st. split; [exact Hst|]. apply elem_of_app. left. exact Hin.
    + right. exists st. split; [exact Hst|]. apply elem_of_app. right. exact Hin.
  - intros kind ns name. destruct (Hwo2 kind ns name) as [->|[Hin|Hin]].
    + destruct (Hwo1 kind ns name) as [->|[Hin|Hin]]; [left; reflexivity| |].
      * right. left. apply elem_of_app. left. exact Hin.
      * right. right. apply elem_of_app. left. exact Hin.
    + right. left. apply elem_of_app. right. exact Hin.
    + right. right. apply elem_of_app. right. exact Hin.
Qed.

(** A change of the plans and of the events only. *)
Lemma confined_quiet (w w' : World) :
  storages w' = storages w -> databases w' = databases w -> objects w' = objects w ->
  pods w' = pods w -> calls w' = calls w ->
  confined allowed w w'.
Proof.
  intros Hs Hd Ho Hp Hc. unfold confined. rewrite Hs, Hd, Ho, Hp, Hc.
  apply confined_refl.
Qed.

Lemma confined_record (ev : Event) (w : World) : confined allowed w (record ev w).
Proof. apply confined_quiet; reflexivity. Qed.

(** A call that changes neither the stored resources nor the objects. *)
Lemma confined_log (c : Call) (e : option Err) (w : World) :
  allowed c -> confined allowed w (log c e w).
Proof.
  intros Hc. do 4 (split; [solve [auto]|]). exists [(c, e)]. split; [reflexivity|].
  split; [constructor; [exact Hc|constructor]|].
  repeat split; intros; left; reflexivity.
Qed.

Lemma confined_read {A} (c : Call) (answer : World -> Err + A) (w : World) :
  allowed c -> confined allowed w (request c (fun w => (answer w, w)) w).2.
Proof.
  intros Hc. unfold request.
  assert (Hplan : confined allowed w (set_apiFaults (tail (apiFaults w)) w))
    by (apply confined_quiet; reflexivity).
  destruct (head (apiFaults w)) as [[msg|]|]; cbn [snd];
    (eapply confined_trans; [exact Hplan|apply confined_log, Hc]).
Qed.

Lemma confined_GetStorage (key : string * string) (w : World) :
  allowed (CGet "Storage" key) -> confined allowed w (client.GetStorage key w).2.
Proof. apply confined_read. Qed.

Lemma confined_GetObject (kind : string) (key : string * string) (w : World) :
  allowed (CGet kind key) -> confined allowed w (client.GetObject kind key w).2.
Proof. apply confined_read. Qed.

Lemma confined_ListPods (namespace : string) (selector : gmap string string) (w : World) :
  allowed (CList namespace selector) ->
  confined allowed w (client.ListPods namespace selector w).2.
Proof. apply confined_read. Qed.

(** An object written and the accepted call that wrote it. *)
Lemma confined_put (c : Call) (kind namespace name : string) (obj : Object) (w : World) :
  allowed c ->
  c = CCreate kind (namespace, name) \/ c = CUpdate kind (namespace, name) ->
  confined allowed w
    (log c None (set_objects (<[(kind, namespace, name) := obj]> (objects w)) w)).
Proof.
  intros Hc Hkind. unfold confined. frame.
  do 3 (split; [solve [auto]|]). split.
  { intros k' Hsome. destruct (decide ((kind, namespace, name) = k')) as [<-|Hne].
    - rewrite lookup_insert_eq. eauto.
    - rewrite lookup_insert_ne by exact Hne. exact Hsome. }
  exists [(c, None)]. split; [reflexivity|].
  split; [constructor; [exact Hc|constructor]|].
  split; [intros; left; reflexivity|]. split; [intros; left; reflexivity|].
  intros kind' ns' name'.
  destruct (decide ((kind, namespace, name) = (kind', ns', name'))) as [[= <- <- <-]|Hne].
  - right. destruct Hkind as [->| ->]; [left|right]; apply list_elem_of_here.
  - left. apply lookup_insert_ne. exact Hne.
Qed.

Lemma confined_Create (kind : string) (obj : Object) (w : World) :
  allowed (CCreate kind (o_Namespace obj, o_Name obj)) ->
  confined allowed w (client.Create kind obj w).2.
Proof.
  intros Hc. unfold client.Create. cbv zeta.
  assert (Hplan : confined allowed w (set_apiFaults (tail (apiFaults w)) w))
    by (apply confined_quiet; reflexivity).
  on_request Hfault Hserved; cbn [fst snd].
  - eapply confined_trans; [exact Hplan|apply confined_log, Hc].
  - frame. destruct (objects w !! _); cbn [snd errOf].
    + eapply confined_trans; [exact Hplan|apply confined_log, Hc].
    + eapply confined_trans; [exact Hplan|].
      apply (confined_put _ kind (o_Namespace obj) (o_Name obj) obj
               (set_apiFaults (tail (apiFaults w)) w) Hc). left. reflexivity.
Qed.

Lemma confined_Update (kind : string) (obj : Object) (w : World) :
  allowed (CUpdate kind (o_Namespace obj, o_Name obj)) ->
  confined allowed w (client.Update kind obj w).2.
Proof.
  intros Hc. unfold client.Update. cbv zeta.
  assert (Hplan : confined allowed w (set_apiFaults (tail (apiFaults w)) w))
    by (apply confined_quiet; reflexivity).
  on_request Hfault Hserved; cbn [fst snd].
  - eapply confined_trans; [exact Hplan|apply confined_log, Hc].
  - frame. destruct (objects w !! _); cbn [snd errOf].
    + eapply confined_trans; [exact Hplan|].
      apply (confined_put _ kind (o_Namespace obj) (o_Name obj) obj
               (set_apiFaults (tail (apiFaults w)) w) Hc). right. reflexivity.
    + eapply confined_trans; [exact Hplan|apply confined_log, Hc].
Qed.

Lemma confined_CreateOrUpdate (kind : string) (obj : Object)
    (f : Object -> World -> (Err + Object) * World) (w : World) :
  let key := (o_Namespace obj, o_Name obj) in
  allowed (CGet kind key) -> allowed (CCreate kind key) -> allowed (CUpdate kind key) ->
  (forall o w0, confined allowed w0 (f o w0).2) ->
  confined allowed w (controllerutil.CreateOrUpdate kind obj f w).2.
Proof.
  intros key Hget Hcreate Hupdate Hf.
  unfold controllerutil.CreateOrUpdate, controllerutil.mutate. cbv zeta. fold key.
  pose proof (confined_GetObject kind key w Hget) as Hg.
  destruct (client.GetObject kind key w) as [[err|existing] w1]; cbn [snd] in Hg.
  - destruct (IsNotFound err); [|exact Hg].
    pose proof (Hf obj w1) as Hm. destruct (f obj w1) as [[e|obj'] w2]; cbn [snd] in Hm.
    + exact (confined_trans _ _ _ Hg Hm).
    + destruct (bool_decide ((o_Namespace obj', o_Name obj') = key)) eqn:Hsame;
        [|exact (confined_trans _ _ _ Hg Hm)].
      apply bool_decide_eq_true in Hsame.
      assert (Hc : confined allowed w2 (client.Create kind obj' w2).2).
      { apply confined_Create. rewrite Hsame. exact Hcreate. }
      destruct (client.Create kind obj' w2) as [[e|] w3]; cbn [snd] in *;
        exact (confined_trans _ _ _ Hg (confined_trans _ _ _ Hm Hc)).
  - pose proof (Hf existing w1) as Hm.
    destruct (f existing w1) as [[e|obj'] w2]; cbn [snd] in Hm.
    + exact (confined_trans _ _ _ Hg Hm).
    + destruct (bool_decide ((o_Namespace obj', o_Name obj') = key)) eqn:Hsame;
        [|exact (confined_trans _ _ _ Hg Hm)].
      apply bool_decide_eq_true in Hsame.
      destruct (bool_decide (existing = obj')); [exact (confined_trans _ _ _ Hg Hm)|].
      assert (Hc : confined allowed w2 (client.Update kind obj' w2).2).
      { apply confined_Update. rewrite Hsame. exact Hupdate. }
      destruct (client.Update kind obj' w2) as [[e|] w3]; cbn [snd] in *;
        exact (confined_trans _ _ _ Hg (confined_trans _ _ _ Hm Hc)).
Qed.

Lemma confined_storage_mutateFn (storage : Storage) (b : ResourceBuilder) (o : Object)
    (w : World) :
  confined allowed w (storage.mutateFn storage b o w).2.
Proof.
  unfold storage.mutateFn. destruct (Build b o) as [e|rr]; [apply confined_record|].
  destruct (controllerutil.SetControllerReference _ _ _ rr);
    [apply confined_record|apply confined_refl].
Qed.

Lemma confined_database_mutateFn (database : Database) (b : ResourceBuilder) (o : Object)
    (w : World) :
  confined allowed w (database.mutateFn database b o w).2.
Proof.
  unfold database.mutateFn. destruct (Build b o) as [e|rr]; [apply confined_record|].
  destruct (controllerutil.SetControllerReference _ _ _ rr);
    [apply confined_record|apply confined_refl].
Qed.

Lemma confined_ExecInPod (namespace pod container : string) (cmd : list string) (w : World) :
  allowed (CExec namespace pod container cmd) ->
  confined allowed w (ExecInPod namespace pod container cmd w).2.
Proof.
  intros Hc. unfold ExecInPod. cbn [snd].
  eapply confined_trans; [|apply confined_log, Hc]. apply confined_quiet; reflexivity.
Qed.

Lemma confined_CheckBootstrapHealth (storage : Storage) (w : World) :
  allowed (CHealthCheck (s_Namespace storage, s_Name storage)) ->
  confined allowed w (CheckBootstrapHealth storage w).2.
Proof.
  intros Hc. unfold CheckBootstrapHealth. cbn [snd].
  eapply confined_trans; [|apply confined_log, Hc]. apply confined_quiet; reflexivity.
Qed.

Lemma confined_TenantCreate (tenant : string) (w : World) :
  allowed (CTenantCreate tenant) -> confined allowed w (TenantCreate tenant w).2.
Proof.
  intros Hc. unfold TenantCreate. cbn [snd].
  eapply confined_trans; [|apply confined_log, Hc]. apply confined_quiet; reflexivity.
Qed.

End Confined.

(** A larger footprint confines what a smaller one does. *)
Lemma confined_mono (allowed allowed' : Call -> Prop) (w w' : World) :
  (forall c, allowed c -> allowed' c) ->
  confined allowed w w' -> confined allowed' w w'.
Proof.
  intros Hc (H1 & H2 & H3 & H4 & l & Hl & Hall & H5).
  do 4 (split; [assumption|]).
  exists l. split; [exact Hl|]. split; [|exact H5].
  eapply List.Forall_impl; [|exact Hall]. intros ce. apply Hc.
Qed.

(** ** A pass of the Storage reconciler within a footprint *)

Lemma alter_status_spec {A B : Type} (m : gmap (string * string) (A * B))
    (key k : string * string) (b : B) :
  fst <$> alter (fun old => (old.1, b)) key m !! k = fst <$> m !! k.
Proof.
  destruct (decide (key = k)) as [<-|Hne].
  - rewrite lookup_alter_eq. destruct (m !! key); reflexivity.
  - rewrite lookup_alter_ne by exact Hne. reflexivity.
Qed.

Section StorageWalk.
Context (X : Externals) (cr : Storage) (allowed : Call -> Prop) (w0 : World).

Let key : string * string := (s_Namespace cr, s_Name cr).
Let Inv (s : World * Storage) : Prop :=
  confined allowed w0 s.1
  /\ exists st, s.2 = storage_copy X cr st /\ Conditions st <> None.
Let writable (st : Status) : Prop :=
  State st = "Ready" ->
  meta.IsStatusConditionTrue (Conditions st) storage.StorageInitializedCondition = true.

Hypothesis F_get_self : allowed (CGet "Storage" key).
Hypothesis F_status :
  forall st, writable st -> Conditions st <> None ->
    allowed (CStatusUpdate "Storage" key st).
Hypothesis F_workload : allowed (CGet "StatefulSet" key).
Hypothesis F_list : allowed (CList (s_Namespace cr) (storage.podLabels X cr)).
Hypothesis F_child_calls :
  forall kind k, storage_children X cr (kind, k.1, k.2) ->
    allowed (CGet kind k) /\ allowed (CCreate kind k) /\ allowed (CUpdate kind k).
Hypothesis F_probe : allowed (CHealthCheck key).
Hypothesis F_exec :
  forall cmd, cmd = storage.cmdDefineBox \/ cmd = storage.cmdConfigureRoot ->
    allowed (CExec (s_Namespace cr) (s_Name cr +:+ "-0") "ydb-storage" cmd).

Ltac event :=
  eapply hoare_bind with (R := fun _ => Inv);
  [apply hoare_event; intros ? ? [? ?]; split;
   [eapply confined_trans; [eassumption|apply confined_record]|assumption]
  |intros _].

Ltac done_here := apply hoare_ret; intros ? ?; assumption.

Lemma storage_setState_confined :
  hoare (fun s => Inv s /\ writable (s_Status s.2)) storage.setState (fun _ s => Inv s).
Proof.
  intros [w b] [[Hconf (st & Hb & Hcs)] Hw]. cbn [fst snd] in *.
  pose proof (storage_setState_spec w b) as H. cbv zeta in H.
  destruct (storage.setState (w, b)) as [o [w' b']]. cbn [fst snd] in *.
  destruct H as (-> & _ & Hd & Ho & Hp & _ & _ & _ & Hcase).
  split; [|exists st; split; [exact Hb|exact Hcs]]. cbn [fst].
  assert (Hcs' : Conditions (s_Status b) <> None) by (subst b; exact Hcs).
  eapply confined_trans; [exact Hconf|].
  assert (Hkey : (s_Namespace b, s_Name b) = key) by (subst b; reflexivity).
  rewrite Hkey in Hcase.
  unfold confined. rewrite Hd, Ho, Hp. split; [reflexivity|].
  destruct (persistOutcome "Storage" (apiFaults w) (storages w !! key)) as [e|] eqn:Hpo.
  - destruct Hcase as (-> & l & Hl & Hall).
    do 3 (split; [solve [auto]|]). exists l. split; [exact Hl|]. split.
    { eapply List.Forall_impl; [|exact Hall].
      intros [c e0] [Hc|[Hc _]]; cbn [fst] in *; subst c;
        [exact F_get_self|apply F_status; [exact Hw|exact Hcs']]. }
    repeat split; intros; left; reflexivity.
  - destruct Hcase as (-> & _ & Hl).
    destruct (persistOutcome_stored _ _ _ Hpo) as [old Hold].
    split; [intros k; apply alter_status_spec|].
    do 2 (split; [solve [auto]|]).
    eexists. split; [exact Hl|]. split.
    { repeat constructor; cbn [fst]; [exact F_get_self|apply F_status; [exact Hw|exact Hcs']]. }
    split; [|split; intros; left; reflexivity].
    intros k. destruct (decide (key = k)) as [<-|Hne].
    + right. exists (s_Status b). rewrite lookup_alter_eq, Hold.
      split; [reflexivity|]. apply list_elem_of_further, list_elem_of_here.
    + left. apply lookup_alter_ne. exact Hne.
Qed.

Lemma storage_persist_confined (o2 : Op (World * Storage) Outcome) :
  hoare Inv o2 (fun _ s => Inv s) ->
  hoare (fun s => Inv s /\ writable (s_Status s.2))
    (persisted ← storage.setState;
     match persisted.2 with
     | Some err => mret (controllers.NoRequeue err)
     | None => o2
     end) (fun _ s => Inv s).
Proof.
  intros H2. eapply hoare_bind; [exact storage_setState_confined|]. intros persisted.
  destruct persisted.2; [done_here|exact H2].
Qed.

Lemma storage_waitForStatefulSetToScale_confined :
  hoare Inv (storage.waitForStatefulSetToScale X) (fun _ s => Inv s).
Proof.
  unfold storage.waitForStatefulSetToScale.
  eapply hoare_bind; [apply hoare_self|]. intros storage.
  eapply hoare_bind with (R := fun _ s => Inv s /\ storage = s.2).
  { apply hoare_call. intros w b [[Hc Hcopy] ->]. cbn [fst snd] in *.
    split; [|reflexivity]. split; [|exact Hcopy]. cbn [fst].
    eapply confined_trans; [exact Hc|]. apply confined_GetObject.
    destruct Hcopy as (st & -> & _). exact F_workload. }
  intros [err|found].
  - destruct (IsNotFound err).
    + apply hoare_ret. intros s [H _]. exact H.
    + eapply hoare_bind with (R := fun _ => Inv).
      * apply hoare_event. intros w b [[Hc Hb] _]. split; [|exact Hb].
        eapply confined_trans; [exact Hc|apply confined_record].
      * intros _. done_here.
  - eapply hoare_bind with (R := fun _ s => Inv s /\ storage = s.2).
    { apply hoare_call. intros w b [[Hc Hcopy] ->]. cbn [fst snd] in *.
      split; [|reflexivity]. split; [|exact Hcopy]. cbn [fst].
      eapply confined_trans; [exact Hc|]. apply confined_ListPods.
      destruct Hcopy as (st & -> & _). exact F_list. }
    intros [err|items].
    + eapply hoare_bind with (R := fun _ => Inv).
      * apply hoare_event. intros w b [[Hc Hb] _]. split; [|exact Hb].
        eapply confined_trans; [exact Hc|apply confined_record].
      * intros _. done_here.
    + destruct (bool_decide (storage.countRunning items <> _)).
      * eapply hoare_bind
          with (R := fun _ s => Inv s /\ writable (s_Status s.2)).
        -- eapply hoare_weaken; [apply hoare_assign| |intros a s H; exact H].
           intros [w b] [[Hc (st & Hb & Hcs)] _]. cbn [fst snd] in *. subst b.
           split; [split; [exact Hc|eexists; split; [reflexivity|first [exact Hcs|discriminate]]]|]. intros H. discriminate H.
        -- intros _. apply storage_persist_confined. event. done_here.
      * destruct (bool_decide (State _ <> _)); cbn [andb];
          [|apply hoare_ret; intros s [H _]; exact H].
        destruct (meta.IsStatusConditionTrue _ _) eqn:Hsi;
          [|apply hoare_ret; intros s [H _]; exact H].
        eapply hoare_bind
          with (R := fun _ s => Inv s /\ writable (s_Status s.2)).
        -- eapply hoare_weaken; [apply hoare_assign| |intros a s H; exact H].
           intros [w b] [[Hc (st & Hb & Hcs)] Hs]. cbn [fst snd] in *. subst storage. subst b.
           split; [split; [exact Hc|eexists; split; [reflexivity|first [exact Hcs|discriminate]]]|]. intros _. exact Hsi.
        -- intros _. apply storage_persist_confined. event. done_here.
Qed.

Lemma storage_syncEach_confined (storage : Storage) (builders : list ResourceBuilder)
    (created : bool) :
  (exists st, storage = storage_copy X cr st /\ Conditions st <> None) ->
  (forall b, b ∈ builders ->
     storage_children X cr (identity (s_Namespace cr) (s_Name cr) b)) ->
  hoare Inv (storage.syncEach storage builders created) (fun _ s => Inv s).
Proof.
  intros (st0 & -> & Hcs0). revert created.
  induction builders as [|b rest IH]; intros created Hin; cbn [storage.syncEach].
  - event. destruct created; done_here.
  - eapply hoare_bind with (R := fun _ => Inv).
    + apply hoare_call. intros w b0 [Hc Hb]. split; [|exact Hb]. cbn [fst].
      eapply confined_trans; [exact Hc|].
      pose proof (Hin b (list_elem_of_here _ _)) as Hchild. unfold identity in Hchild.
      cbn [storage_copy s_Namespace s_Name].
      apply confined_CreateOrUpdate.
      * apply (F_child_calls (rb_Kind b) (_, _)). exact Hchild.
      * apply (F_child_calls (rb_Kind b) (_, _)). exact Hchild.
      * apply (F_child_calls (rb_Kind b) (_, _)). exact Hchild.
      * intros o w1. apply confined_storage_mutateFn.
    + intros applied. destruct applied.2; [event; done_here|].
      apply IH. intros b1 Hb1. apply Hin. apply list_elem_of_further. exact Hb1.
Qed.

Lemma storage_handleResourcesSync_confined :
  hoare Inv (storage.handleResourcesSync X) (fun _ s => Inv s).
Proof.
  unfold storage.handleResourcesSync.
  eapply hoare_bind; [apply hoare_self|]. intros storage.
  eapply hoare_bind with (R := fun _ s => Inv s /\ storage = s.2).
  - apply hoare_event. intros w b [[Hc Hb] ->]. split; [|reflexivity]. split; [|exact Hb].
    eapply confined_trans; [exact Hc|apply confined_record].
  - intros _. intros s [HI Hs]. subst storage. destruct HI as [Hc (st & Hb & Hcs)].
    apply storage_syncEach_confined.
    + exists st. split; [exact Hb|exact Hcs].
    + intros b Hin. exists st. rewrite <- Hb. apply list_elem_of_fmap.
      exists b. split; [reflexivity|exact Hin].
    + split; [exact Hc|exists st; split; [exact Hb|exact Hcs]].
Qed.

Lemma storage_waitForHealthCheck_confined :
  hoare Inv storage.waitForHealthCheck (fun _ s => Inv s).
Proof.
  unfold storage.waitForHealthCheck.
  eapply hoare_bind; [apply hoare_self|]. intros storage.
  eapply hoare_bind with (R := fun _ => Inv).
  { apply hoare_call. intros w b [[Hc Hcopy] ->]. cbn [fst snd] in *.
    split; [|exact Hcopy]. cbn [fst].
    eapply confined_trans; [exact Hc|]. apply confined_CheckBootstrapHealth.
    destruct Hcopy as (st & -> & _). exact F_probe. }
  intros [err|]; event; done_here.
Qed.

Lemma storage_runDefineBoxScript_confined :
  hoare Inv storage.runDefineBoxScript (fun _ s => Inv s).
Proof.
  unfold storage.runDefineBoxScript.
  eapply hoare_bind; [apply hoare_self|]. intros storage.
  destruct (meta.IsStatusConditionTrue _ _); [apply hoare_ret; intros s [H _]; exact H|].
  eapply hoare_bind with (R := fun _ s => Inv s /\ storage = s.2).
  { apply hoare_call. intros w b [[Hc Hcopy] ->]. cbn [fst snd] in *.
    split; [|reflexivity]. split; [|exact Hcopy]. cbn [fst].
    eapply confined_trans; [exact Hc|]. apply confined_ExecInPod.
    destruct Hcopy as (st & -> & _). apply F_exec. left. reflexivity. }
  intros [err|]; [apply hoare_ret; intros s [H _]; exact H|].
  eapply hoare_bind with (R := fun _ => Inv).
  { apply hoare_call. intros w b [[Hc Hcopy] ->]. cbn [fst snd] in *.
    split; [|exact Hcopy]. cbn [fst].
    eapply confined_trans; [exact Hc|]. apply confined_ExecInPod.
    destruct Hcopy as (st & -> & _). apply F_exec. right. reflexivity. }
  intros [err|]; [done_here|].
  eapply hoare_bind with (R := fun _ s => Inv s /\ writable (s_Status s.2)).
  { eapply hoare_weaken; [apply hoare_assign| |intros a s H; exact H].
    intros [w b] [Hc (st & Hb & Hcs)]. cbn [fst snd] in *. subst b.
    split; [split; [exact Hc|eexists; split; [reflexivity|first [exact Hcs|discriminate]]]|]. intros _.
    cbn [storage.with_Condition s_Status Conditions].
    apply (IsStatusConditionTrue_set _
             {| cType := storage.StorageInitializedCondition; cStatus := "True";
                cReason := "StorageInitialized";
                cMessage := "Storage initialized successfully" |}). reflexivity. }
  intros _. apply storage_persist_confined. done_here.
Qed.

Lemma storage_phases_confined :
  hoare Inv (storage.phases X) (fun _ s => Inv s).
Proof.
  unfold storage.phases.
  eapply hoare_bind; [exact storage_waitForStatefulSetToScale_confined|]. intros o.
  destruct (stops o); [done_here|].
  eapply hoare_bind; [exact storage_handleResourcesSync_confined|]. intros o1.
  destruct (stops o1); [done_here|].
  eapply hoare_bind; [exact storage_waitForHealthCheck_confined|]. intros o2.
  destruct (stops o2); [done_here|].
  eapply hoare_bind; [exact storage_runDefineBoxScript_confined|]. intros o3.
  destruct (stops o3); done_here.
Qed.

End StorageWalk.

(** ** A pass of the Database reconciler within a footprint *)

Section DatabaseWalk.
Context (X : Externals) (cr : Database) (allowed : Call -> Prop) (w0 : World).

Let key : string * string := (d_Namespace cr, d_Name cr).
Let ref : string * string :=
  (ref_Namespace (StorageClusterRef (d_Spec (resources.NewDatabase X cr))),
   ref_Name (StorageClusterRef (d_Spec (resources.NewDatabase X cr)))).
Let Inv (s : World * Database) : Prop :=
  confined allowed w0 s.1
  /\ exists st, s.2 = database_copy X cr st /\ Conditions st <> None.
Let writable (st : Status) : Prop :=
  st = resources.seed (d_Status cr)
  \/ (State st = database.Ready -> tenantInitialized st = true).

Hypothesis F_get_self : allowed (CGet "Database" key).
Hypothesis F_status :
  forall st, writable st -> Conditions st <> None ->
    allowed (CStatusUpdate "Database" key st).
Hypothesis F_storage : allowed (CGet "Storage" ref).
Hypothesis F_workload : allowed (CGet "StatefulSet" key).
Hypothesis F_child_calls :
  forall kind k, database_children X cr (kind, k.1, k.2) ->
    allowed (CGet kind k) /\ allowed (CCreate kind k) /\ allowed (CUpdate kind k).
Hypothesis F_tenant :
  forall st, allowed (CTenantCreate (GetTenantName X (database_copy X cr st))).

Ltac event :=
  eapply hoare_bind with (R := fun _ => Inv);
  [apply hoare_event; intros ? ? [? ?]; split;
   [eapply confined_trans; [eassumption|apply confined_record]|assumption]
  |intros _].

Ltac done_here := apply hoare_ret; intros ? ?; assumption.

Lemma database_setState_confined :
  hoare (fun s => Inv s /\ writable (d_Status s.2)) database.setState (fun _ s => Inv s).
Proof.
  intros [w b] [[Hconf (st & Hb & Hcs)] Hw]. cbn [fst snd] in *.
  pose proof (database_setState_spec w b) as H. cbv zeta in H.
  destruct (database.setState (w, b)) as [o [w' b']]. cbn [fst snd] in *.
  destruct H as (-> & _ & Hd & Ho & Hp & _ & _ & _ & Hcase).
  split; [|exists st; split; [exact Hb|exact Hcs]]. cbn [fst].
  assert (Hcs' : Conditions (d_Status b) <> None) by (subst b; exact Hcs).
  eapply confined_trans; [exact Hconf|].
  assert (Hkey : (d_Namespace b, d_Name b) = key) by (subst b; reflexivity).
  rewrite Hkey in Hcase.
  unfold confined. rewrite Hd, Ho, Hp. split; [reflexivity|].
  destruct (persistOutcome "Database" (apiFaults w) (databases w !! key)) as [e|] eqn:Hpo.
  - destruct Hcase as (-> & l & Hl & Hall).
    do 3 (split; [solve [auto]|]). exists l. split; [exact Hl|]. split.
    { eapply List.Forall_impl; [|exact Hall].
      intros [c e0] [Hc|[Hc _]]; cbn [fst] in *; subst c;
        [exact F_get_self|apply F_status; [exact Hw|exact Hcs']]. }
    repeat split; intros; left; reflexivity.
  - destruct Hcase as (-> & _ & Hl).
    destruct (persistOutcome_stored _ _ _ Hpo) as [old Hold].
    split; [solve [auto]|]. split; [intros k; apply alter_status_spec|].
    split; [solve [auto]|].
    eexists. split; [exact Hl|]. split.
    { repeat constructor; cbn [fst]; [exact F_get_self|apply F_status; [exact Hw|exact Hcs']]. }
    split; [intros; left; reflexivity|]. split; [|intros; left; reflexivity].
    intros k. destruct (decide (key = k)) as [<-|Hne].
    + right. exists (d_Status b). rewrite lookup_alter_eq, Hold.
      split; [reflexivity|]. apply list_elem_of_further, list_elem_of_here.
    + left. apply lookup_alter_ne. exact Hne.
Qed.

Lemma database_persist_confined (o2 : Op (World * Database) Outcome) :
  hoare Inv o2 (fun _ s => Inv s) ->
  hoare (fun s => Inv s /\ writable (d_Status s.2))
    (persisted ← database.setState;
     match persisted.2 with
     | Some err => mret (controllers.NoRequeue err)
     | None => o2
     end) (fun _ s => Inv s).
Proof.
  intros H2. eapply hoare_bind; [exact database_setState_confined|]. intros persisted.
  destruct persisted.2; [done_here|exact H2].
Qed.

Lemma database_waitForClusterResource_confined :
  hoare Inv database.waitForClusterResource (fun _ s => Inv s).
Proof.
  unfold database.waitForClusterResource.
  eapply hoare_bind; [apply hoare_self|]. intros database.
  eapply hoare_bind with (R := fun _ => Inv).
  { apply hoare_call. intros w b [[Hc Hcopy] ->]. cbn [fst snd] in *.
    split; [|exact Hcopy]. cbn [fst].
    eapply confined_trans; [exact Hc|]. apply confined_GetStorage.
    destruct Hcopy as (st & -> & _). exact F_storage. }
  intros [err|found].
  - event. done_here.
  - destruct (bool_decide _); [event|]; done_here.
Qed.

Lemma database_waitForStatefulSetToScale_confined :
  hoare Inv database.waitForStatefulSetToScale (fun _ s => Inv s).
Proof.
  unfold database.waitForStatefulSetToScale.
  eapply hoare_bind; [apply hoare_self|]. intros database.
  eapply hoare_bind with (R := fun _ s => Inv s /\ database = s.2).
  { apply hoare_call. intros w b [[Hc Hcopy] ->]. cbn [fst snd] in *.
    split; [|reflexivity]. split; [|exact Hcopy]. cbn [fst].
    eapply confined_trans; [exact Hc|]. apply confined_GetObject.
    destruct Hcopy as (st & -> & _). exact F_workload. }
  intros [err|found].
  - destruct (IsNotFound err).
    + apply hoare_ret. intros s [H _]. exact H.
    + eapply hoare_bind with (R := fun _ => Inv).
      * apply hoare_event. intros w b [[Hc Hb] _]. split; [|exact Hb].
        eapply confined_trans; [exact Hc|apply confined_record].
      * intros _. done_here.
  - destruct (bool_decide (o_Replicas found <> _)).
    + eapply hoare_bind with (R := fun _ s => Inv s /\ writable (d_Status s.2)).
      * eapply hoare_weaken; [apply hoare_assign| |intros a s H; exact H].
        intros [w b] [[Hc (st & Hb & Hcs)] _]. cbn [fst snd] in *. subst b.
        split; [split; [exact Hc|eexists; split; [reflexivity|first [exact Hcs|discriminate]]]|]. right. intros H. discriminate H.
      * intros _. apply database_persist_confined. event. done_here.
    + destruct (bool_decide (State _ <> _)); cbn [andb];
        [|apply hoare_ret; intros s [H _]; exact H].
      destruct (meta.IsStatusConditionTrue _ _) eqn:Hti;
        [|apply hoare_ret; intros s [H _]; exact H].
      eapply hoare_bind with (R := fun _ s => Inv s /\ writable (d_Status s.2)).
      * eapply hoare_weaken; [apply hoare_assign| |intros a s H; exact H].
        intros [w b] [[Hc (st & Hb & Hcs)] Hs]. cbn [fst snd] in *. subst database. subst b.
        split; [split; [exact Hc|eexists; split; [reflexivity|first [exact Hcs|discriminate]]]|]. right. intros _. exact Hti.
      * intros _. apply database_persist_confined. event. done_here.
Qed.

Lemma database_syncEach_confined (database : Database) (builders : list ResourceBuilder)
    (created : bool) :
  (exists st, database = database_copy X cr st /\ Conditions st <> None) ->
  (forall b, b ∈ builders ->
     database_children X cr (identity (d_Namespace cr) (d_Name cr) b)) ->
  hoare Inv (database.syncEach database builders created) (fun _ s => Inv s).
Proof.
  intros (st0 & -> & Hcs0). revert created.
  induction builders as [|b rest IH]; intros created Hin; cbn [database.syncEach].
  - event. destruct created; done_here.
  - eapply hoare_bind with (R := fun _ => Inv).
    + apply hoare_call. intros w b0 [Hc Hb]. split; [|exact Hb]. cbn [fst].
      eapply confined_trans; [exact Hc|].
      pose proof (Hin b (list_elem_of_here _ _)) as Hchild. unfold identity in Hchild.
      cbn [database_copy d_Namespace d_Name].
      apply confined_CreateOrUpdate.
      * apply (F_child_calls (rb_Kind b) (_, _)). exact Hchild.
      * apply (F_child_calls (rb_Kind b) (_, _)). exact Hchild.
      * apply (F_child_calls (rb_Kind b) (_, _)). exact Hchild.
      * intros o w1. apply confined_database_mutateFn.
    + intros applied. destruct applied.2; [event; done_here|].
      apply IH. intros b1 Hb1. apply Hin. apply list_elem_of_further. exact Hb1.
Qed.

Lemma database_handleResourcesSync_confined :
  hoare Inv (database.handleResourcesSync X) (fun _ s => Inv s).
Proof.
  unfold database.handleResourcesSync.
  eapply hoare_bind; [apply hoare_self|]. intros database.
  eapply hoare_bind with (R := fun _ s => Inv s /\ database = s.2).
  - apply hoare_event. intros w b [[Hc Hb] ->]. split; [|reflexivity]. split; [|exact Hb].
    eapply confined_trans; [exact Hc|apply confined_record].
  - intros _. intros s [HI Hs]. subst database. destruct HI as [Hc (st & Hb & Hcs)].
    apply database_syncEach_confined.
    + exists st. split; [exact Hb|exact Hcs].
    + intros b Hin. exists st. rewrite <- Hb. apply list_elem_of_fmap.
      exists b. split; [reflexivity|exact Hin].
    + split; [exact Hc|exists st; split; [exact Hb|exact Hcs]].
Qed.

Lemma database_handleTenantCreation_confined :
  hoare Inv (database.handleTenantCreation X) (fun _ s => Inv s).
Proof.
  unfold database.handleTenantCreation.
  eapply hoare_bind with (R := fun _ s => Inv s /\ writable (d_Status s.2)).
  { eapply hoare_weaken; [apply hoare_assign| |intros a s H; exact H].
    intros [w b] [Hc (st & Hb & Hcs)]. cbn [fst snd] in *. subst b.
    split; [split; [exact Hc|eexists; split; [reflexivity|first [exact Hcs|discriminate]]]|]. right. intros H. discriminate H. }
  intros _. eapply hoare_bind; [exact database_setState_confined|]. intros persisted.
  destruct persisted.2; [done_here|].
  eapply hoare_bind; [apply hoare_self|]. intros database.
  eapply hoare_bind with (R := fun _ => Inv).
  { apply hoare_call. intros w b [[Hc Hcopy] ->]. cbn [fst snd] in *.
    split; [|exact Hcopy]. cbn [fst].
    eapply confined_trans; [exact Hc|]. apply confined_TenantCreate.
    destruct Hcopy as (st & -> & _). apply F_tenant. }
  intros [err|]; [event; done_here|]. event.
  eapply hoare_bind with (R := fun _ s => Inv s /\ writable (d_Status s.2)).
  { eapply hoare_weaken; [apply hoare_assign| |intros a s H; exact H].
    intros [w b] [Hc (st & Hb & Hcs)]. cbn [fst snd] in *. subst b.
    split; [split; [exact Hc|eexists; split; [reflexivity|first [exact Hcs|discriminate]]]|]. right. intros _.
    unfold tenantInitialized. cbn [database.with_Condition d_Status Conditions].
    apply (IsStatusConditionTrue_set _
             {| cType := database.ConditionTenantInitialized; cStatus := "True";
                cReason := "TenantInitialized";
                cMessage := "Tenant creation is complete" |}). reflexivity. }
  intros _. apply database_persist_confined. done_here.
Qed.

Lemma database_phases_confined :
  hoare (fun s => Inv s /\ d_Status s.2 = resources.seed (d_Status cr))
    (database.phases X) (fun _ s => Inv s).
Proof.
  unfold database.phases.
  eapply hoare_bind with (R := fun _ => Inv).
  { eapply hoare_weaken; [exact database_setState_confined| |intros a s H; exact H].
    intros s [H Hs]. split; [exact H|]. left. exact Hs. }
  intros seeded.
  eapply hoare_bind; [exact database_waitForClusterResource_confined|]. intros o.
  destruct (stops o); [done_here|].
  eapply hoare_bind; [exact database_waitForStatefulSetToScale_confined|]. intros o1.
  destruct (stops o1); [done_here|].
  eapply hoare_bind; [exact database_handleResourcesSync_confined|]. intros o2.
  destruct (stops o2); [done_here|].
  eapply hoare_bind; [apply hoare_self|]. intros database.
  destruct (meta.IsStatusConditionTrue _ _); cbn [negb].
  - apply hoare_ret. intros s [H _]. exact H.
  - eapply hoare_bind with (R := fun _ => Inv).
    + eapply hoare_weaken; [exact database_handleTenantCreation_confined| |intros a s H; exact H].
      intros s [H _]. exact H.
    + intros o3. destruct (stops o3); done_here.
Qed.

End DatabaseWalk.

(** ** What follows from a footprint *)

Lemma confined_calls (allowed : Call -> Prop) (w w' : World) :
  confined allowed w w' ->
  exists l, calls w' = calls w ++ l /\ Forall (fun ce => allowed ce.1) l.
Proof. intros (_ & _ & _ & _ & l & Hl & Hall & _). eauto. Qed.

Lemma allowed_logged (allowed : Call -> Prop) (l : list (Call * option Err))
    (c : Call) (e : option Err) :
  Forall (fun ce => allowed ce.1) l -> (c, e) ∈ l -> allowed c.
Proof. intros Hall Hin. rewrite List.Forall_forall in Hall. apply (Hall (c, e)), list_elem_of_In, Hin. Qed.

Lemma confined_storages (allowed : Call -> Prop) (w w' : World) (k : string * string) :
  confined allowed w w' ->
  (forall st, ~ allowed (CStatusUpdate "Storage" k st)) ->
  storages w' !! k = storages w !! k.
Proof.
  intros (_ & _ & _ & _ & l & _ & Hall & Hs & _) Hno.
  destruct (Hs k) as [H|(st & _ & Hin)]; [exact H|].
  destruct (Hno st (allowed_logged _ _ _ _ Hall Hin)).
Qed.

Lemma confined_databases (allowed : Call -> Prop) (w w' : World) (k : string * string) :
  confined allowed w w' ->
  (forall st, ~ allowed (CStatusUpdate "Database" k st)) ->
  databases w' !! k = databases w !! k.
Proof.
  intros (_ & _ & _ & _ & l & _ & Hall & _ & Hd & _) Hno.
  destruct (Hd k) as [H|(st & _ & Hin)]; [exact H|].
  destruct (Hno st (allowed_logged _ _ _ _ Hall Hin)).
Qed.

Lemma confined_objects (allowed : Call -> Prop) (w w' : World)
    (kind namespace name : string) :
  confined allowed w w' ->
  ~ allowed (CCreate kind (namespace, name)) ->
  ~ allowed (CUpdate kind (namespace, name)) ->
  objects w' !! (kind, namespace, name) = objects w !! (kind, namespace, name).
Proof.
  intros (_ & _ & _ & _ & l & _ & Hall & _ & _ & Ho) Hc Hu.
  destruct (Ho kind namespace name) as [H|[Hin|Hin]]; [exact H| |].
  - destruct (Hc (allowed_logged _ _ _ _ Hall Hin)).
  - destruct (Hu (allowed_logged _ _ _ _ Hall Hin)).
Qed.

Lemma confined_tenantCalls (allowed : Call -> Prop) (w w' : World) :
  confined allowed w w' ->
  (forall tenant, ~ allowed (CTenantCreate tenant)) ->
  tenantCalls (calls w') = tenantCalls (calls w).
Proof.
  intros H Hno. destruct (confined_calls _ _ _ H) as (l & -> & Hall).
  rewrite tenantCalls_app.
  assert (Hnil : tenantCalls l = []).
  { induction Hall as [|[c e] l Hc Hl IH]; [reflexivity|].
    unfold tenantCalls in *. cbn [List.filter fst]. rewrite IH.
    destruct c; try reflexivity. destruct (Hno _ Hc). }
  rewrite Hnil. apply app_nil_r.
Qed.

Lemma confined_no_exec (allowed : Call -> Prop) (w w' : World) :
  confined allowed w w' ->
  (forall namespace pod container cmd, ~ allowed (CExec namespace pod container cmd)) ->
  exists l, calls w' = calls w ++ l /\ List.filter is_exec l = [].
Proof.
  intros H Hno. destruct (confined_calls _ _ _ H) as (l & Hl & Hall).
  exists l. split; [exact Hl|]. clear Hl.
  induction Hall as [|[c e] l0 Hc Hl0 IH]; [reflexivity|].
  cbn [List.filter]. unfold is_exec at 1. cbn [fst].
  destruct c; try exact IH. destruct (Hno _ _ _ _ Hc).
Qed.

(** ** A pass of the Storage reconciler *)

Lemma storage_calls_mono (X : Externals) (cr : Storage) (c : Call) :
  storage_calls X cr false c -> storage_calls X cr true c.
Proof.
  destruct c; cbn; tauto.
Qed.

(** The phases before the health check make none of the bootstrap's
    calls. *)
Lemma storage_provisioning_confined (X : Externals) (cr : Storage) (w0 : World)
    (bootstrap : bool) :
  let Inv := fun s : World * Storage =>
    confined (storage_calls X cr bootstrap) w0 s.1
    /\ exists st, s.2 = storage_copy X cr st /\ Conditions st <> None in
  hoare Inv (storage.waitForStatefulSetToScale X) (fun _ s => Inv s)
  /\ hoare Inv (storage.handleResourcesSync X) (fun _ s => Inv s).
Proof.
  cbv zeta. split.
  - apply storage_waitForStatefulSetToScale_confined.
    + left. split; reflexivity.
    + intros st Hst Hcs. cbn. auto.
    + right. left. split; reflexivity.
    + split; reflexivity.
  - apply storage_handleResourcesSync_confined.
    intros kind k Hchild. cbn. auto.
Qed.

Lemma storage_Sync_confined_run (X : Externals) (cr : Storage) (w : World) :
  let r := storage.Sync X cr w in
  confined (storage_calls X cr true) w r.2.1
  /\ exists st, r.2.2 = storage_copy X cr st /\ Conditions st <> None.
Proof.
  cbv zeta. unfold storage.Sync.
  apply (storage_phases_confined X cr (storage_calls X cr true) w).
  - left. split; reflexivity.
  - intros st Hst Hcs. cbn. auto.
  - right. left. split; reflexivity.
  - split; reflexivity.
  - intros kind k Hchild. cbn. auto.
  - split; reflexivity.
  - intros cmd Hcmd. cbn. auto.
  - split; [apply confined_refl|]. eexists. split; [reflexivity|].
    unfold resources.seed. cbn [resources.NewCluster s_Status].
    destruct (Conditions (s_Status cr)) eqn:E; [rewrite E|]; discriminate.
Qed.

(** X10. What a pass of the Storage reconciler touches.  Whatever the
    cluster holds and whatever fails, [Sync] on a Storage makes only
    the calls of its footprint and every change is accounted for by
    one of them.  So the Databases, the other Storages and the objects
    that are not its children are as before, no spec is changed, no
    object is removed, the tenant API is not called; and the working
    copy keeps the namespace and name it came with. *)
Theorem storage_Sync_footprint (X : Externals) (cr : Storage) (w : World) :
  let key := (s_Namespace cr, s_Name cr) in
  let r := storage.Sync X cr w in
  confined (storage_calls X cr true) w r.2.1
  /\ r.2.2 = storage_copy X cr (s_Status r.2.2)
  /\ databases r.2.1 = databases w
  /\ (forall k, k <> key -> storages r.2.1 !! k = storages w !! k)
  /\ (forall kind namespace name,
        ~ storage_children X cr (kind, namespace, name) ->
        objects r.2.1 !! (kind, namespace, name) = objects w !! (kind, namespace, name))
  /\ tenantCalls (calls r.2.1) = tenantCalls (calls w).
Proof.
  intros key r. destruct (storage_Sync_confined_run X cr w) as [Hc (st & Hst & _)].
  fold r in Hc, Hst. split; [exact Hc|].
  split; [rewrite Hst; reflexivity|].
  split.
  { apply map_eq. intros k. apply (confined_databases _ _ _ _ Hc).
    intros st' (H & _). discriminate H. }
  split.
  { intros k Hk. apply (confined_storages _ _ _ _ Hc). intros st' (_ & H & _). contradiction. }
  split.
  { intros kind ns name Hk. apply (confined_objects _ _ _ _ _ _ Hc); exact Hk. }
  apply (confined_tenantCalls _ _ _ Hc). intros tenant H. exact H.
Qed.

(** X11. Ready only beside StorageInitialized.  Every status a pass of
    the Storage reconciler sends to the API server has a non-nil
    conditions sequence and, when its [State] is Ready, carries
    StorageInitialized true; and a stored status it leaves behind is
    either the one that was there or one that was so written. *)
Theorem storage_Sync_ready_only_initialized (X : Externals) (cr : Storage) (w : World) :
  let key := (s_Namespace cr, s_Name cr) in
  let r := storage.Sync X cr w in
  let sound := fun st : Status =>
    Conditions st <> None
    /\ (State st = "Ready" ->
        meta.IsStatusConditionTrue (Conditions st) storage.StorageInitializedCondition
        = true) in
  (exists l, calls r.2.1 = calls w ++ l
     /\ forall kind k st e, (CStatusUpdate kind k st, e) ∈ l ->
          kind = "Storage" /\ k = key /\ sound st)
  /\ (forall k, storages r.2.1 !! k = storages w !! k
                \/ exists st, snd <$> storages r.2.1 !! k = Some st /\ sound st).
Proof.
  intros key r sound. destruct (storage_Sync_confined_run X cr w) as [Hc _].
  fold r in Hc. destruct Hc as (_ & _ & _ & _ & l & Hl & Hall & Hs & _).
  split.
  - exists l. split; [exact Hl|]. intros kind k st e Hin.
    exact (allowed_logged _ _ _ _ Hall Hin).
  - intros k. destruct (Hs k) as [H|(st & Hst & Hin)]; [left; exact H|].
    right. exists st. split; [exact Hst|].
    destruct (allowed_logged _ _ _ _ Hall Hin) as (_ & _ & H). exact H.
Qed.

(** ** A pass of the Database reconciler *)

Lemma database_Sync_confined_run (X : Externals) (ydbCr : Database) (w : World) :
  let r := database.Sync X ydbCr w in
  confined (database_calls X ydbCr) w r.2.1
  /\ exists st, r.2.2 = database_copy X ydbCr st /\ Conditions st <> None.
Proof.
  cbv zeta. unfold database.Sync.
  apply (database_phases_confined X ydbCr (database_calls X ydbCr) w).
  - left. split; reflexivity.
  - intros st Hst Hcs. cbn. auto.
  - right. left. split; reflexivity.
  - right. right. left. split; reflexivity.
  - intros kind k Hchild. cbn. auto.
  - intros st. exists st. reflexivity.
  - split; [split; [apply confined_refl|]|reflexivity]. eexists. split; [reflexivity|].
    unfold resources.seed. cbn [resources.NewDatabase d_Status].
    destruct (Conditions (d_Status ydbCr)) eqn:E; [rewrite E|]; discriminate.
Qed.

(** X12. What a pass of the Database reconciler touches.  Whatever the
    cluster holds and whatever fails, [Sync] on a Database makes only
    the calls of its footprint and every change is accounted for by
    one of them.  So the Storages, the other Databases and the objects
    that are not its children are as before, no spec is changed, no
    object is removed; it lists no pods, runs no command in a pod and
    probes no health; and the working copy keeps the namespace and name
    it came with. *)
Theorem database_Sync_footprint (X : Externals) (ydbCr : Database) (w : World) :
  let key := (d_Namespace ydbCr, d_Name ydbCr) in
  let r := database.Sync X ydbCr w in
  confined (database_calls X ydbCr) w r.2.1
  /\ r.2.2 = database_copy X ydbCr (d_Status r.2.2)
  /\ storages r.2.1 = storages w
  /\ (forall k, k <> key -> databases r.2.1 !! k = databases w !! k)
  /\ (forall kind namespace name,
        ~ database_children X ydbCr (kind, namespace, name) ->
        objects r.2.1 !! (kind, namespace, name) = objects w !! (kind, namespace, name))
  /\ (exists l, calls r.2.1 = calls w ++ l
        /\ Forall (fun ce => match ce.1 with
                             | CList _ _ | CExec _ _ _ _ | CHealthCheck _ => False
                             | _ => True
                             end) l).
Proof.
  intros key r. destruct (database_Sync_confined_run X ydbCr w) as [Hc (st & Hst & _)].
  fold r in Hc, Hst. split; [exact Hc|].
  split; [rewrite Hst; reflexivity|].
  split.
  { apply map_eq. intros k. apply (confined_storages _ _ _ _ Hc).
    intros st' (H & _). discriminate H. }
  split.
  { intros k Hk. apply (confined_databases _ _ _ _ Hc). intros st' (_ & H & _). contradiction. }
  split.
  { intros kind ns name Hk. apply (confined_objects _ _ _ _ _ _ Hc); exact Hk. }
  destruct (confined_calls _ _ _ Hc) as (l & Hl & Hall). exists l. split; [exact Hl|].
  eapply List.Forall_impl; [|exact Hall]. intros [c e] H. cbn [fst] in *.
  destruct c; try exact I; exact H.
Qed.

(** X13. Ready only beside TenantInitialized.  A status that a pass of
    the Database reconciler sends to the API server has a non-nil
    conditions sequence, and is the status the resource came with (its
    conditions made non-nil) or carries TenantInitialized true whenever
    its [State] is Ready; and a stored status it leaves behind is the
    one that was there or one that was so written.  So a pass on a
    resource that is not Ready without its tenant never stores such a
    status. *)
Theorem database_Sync_ready_only_initialized (X : Externals) (ydbCr : Database)
    (w : World) :
  let key := (d_Namespace ydbCr, d_Name ydbCr) in
  let r := database.Sync X ydbCr w in
  let sound := fun st : Status =>
    State st = database.Ready -> tenantInitialized st = true in
  (exists l, calls r.2.1 = calls w ++ l
     /\ forall kind k st e, (CStatusUpdate kind k st, e) ∈ l ->
          kind = "Database" /\ k = key /\ Conditions st <> None
          /\ (st = resources.seed (d_Status ydbCr) \/ sound st))
  /\ (forall k, databases r.2.1 !! k = databases w !! k
                \/ exists st, snd <$> databases r.2.1 !! k = Some st
                              /\ (st = resources.seed (d_Status ydbCr) \/ sound st))
  /\ (sound (d_Status ydbCr) ->
      forall k, databases r.2.1 !! k = databases w !! k
                \/ exists st, snd <$> databases r.2.1 !! k = Some st /\ sound st).
Proof.
  intros key r sound. destruct (database_Sync_confined_run X ydbCr w) as [Hc _].
  fold r in Hc. destruct Hc as (_ & _ & _ & _ & l & Hl & Hall & _ & Hd & _).
  assert (Hstored : forall k, databases r.2.1 !! k = databases w !! k
            \/ exists st, snd <$> databases r.2.1 !! k = Some st
                 /\ (st = resources.seed (d_Status ydbCr) \/ sound st)).
  { intros k. destruct (Hd k) as [H|(st & Hst & Hin)]; [left; exact H|].
    right. exists st. split; [exact Hst|].
    destruct (allowed_logged _ _ _ _ Hall Hin) as (_ & _ & _ & H). exact H. }
  split; [|split; [exact Hstored|]].
  - exists l. split; [exact Hl|]. intros kind k st e Hin.
    exact (allowed_logged _ _ _ _ Hall Hin).
  - intros Hcame k. destruct (Hstored k) as [H|(st & Hst & [->|Hsound])];
      [left; exact H| |right; eauto].
    right. eexists. split; [exact Hst|]. unfold sound in *.
    rewrite seed_State, seed_tenantInitialized. exact Hcame.
Qed.

(** ** The order of the bootstrap *)

Lemma runDefineBoxScript_calls (w : World) (storage : Storage) :
  let r := storage.runDefineBoxScript (w, storage) in
  exists after,
    calls r.2.1 = calls w ++ after
    /\ (after = []
        \/ exists e rest,
             after = (CExec (s_Namespace storage) (s_Name storage +:+ "-0") "ydb-storage"
                        storage.cmdDefineBox, e) :: rest).
Proof.
  cbv zeta.
  destruct (meta.IsStatusConditionTrue (Conditions (s_Status storage))
              storage.StorageInitializedCondition) eqn:Hgate.
  - exists []. unfold storage.runDefineBoxScript. run. rewrite Hgate. cbn [fst snd].
    rewrite app_nil_r. auto.
  - destruct (runDefineBoxScript_runs_commands w storage Hgate) as (e1 & l & Hl & _).
    eexists. split; [exact Hl|]. right. eauto.
Qed.

(** X14. The commands come after a healthy probe.  In a pass of the
    Storage reconciler every command run in a pod comes after a health
    probe of this pass that answered nil, with no call in between; the
    first one is the box definition in the first member pod. *)
Theorem storage_Sync_commands_after_probe (X : Externals) (cr : Storage) (w : World) :
  let key := (s_Namespace cr, s_Name cr) in
  let r := storage.Sync X cr w in
  exists before after,
    calls r.2.1 = calls w ++ before ++ after
    /\ List.filter is_exec before = []
    /\ (after = []
        \/ (last before = Some (CHealthCheck key, None)
            /\ exists e rest,
                 after = (CExec (s_Namespace cr) (s_Name cr +:+ "-0") "ydb-storage"
                            storage.cmdDefineBox, e) :: rest)).
Proof.
  intros key r. subst r. unfold storage.Sync.
  set (Inv := fun s : World * Storage =>
         confined (storage_calls X cr false) w s.1
         /\ exists st, s.2 = storage_copy X cr st /\ Conditions st <> None).
  destruct (storage_provisioning_confined X cr w false) as [P1 P2]. fold Inv in P1, P2.
  assert (Hquiet : forall s : World * Storage, Inv s ->
            exists before, calls s.1 = calls w ++ before /\ List.filter is_exec before = []).
  { intros s [Hc _]. apply (confined_no_exec _ _ _ Hc).
    intros ns pod container cmd (H & _). discriminate H. }
  assert (Hstop : forall s : World * Storage, Inv s ->
            exists before after,
              calls s.1 = calls w ++ before ++ after
              /\ List.filter is_exec before = []
              /\ (after = []
                  \/ (last before = Some (CHealthCheck key, None)
                      /\ exists e rest,
                           after = (CExec (s_Namespace cr) (s_Name cr +:+ "-0") "ydb-storage"
                                      storage.cmdDefineBox, e) :: rest))).
  { intros s Hs. destruct (Hquiet s Hs) as (before & Hb & Hn).
    exists before, []. rewrite app_nil_r. auto. }
  assert (H0 : Inv (w, resources.SetStatusOnFirstReconcile (resources.NewCluster X cr))).
  { split; [apply confined_refl|]. eexists. split; [reflexivity|].
    unfold resources.seed. cbn [resources.NewCluster s_Status].
    destruct (Conditions (s_Status cr)) eqn:E; [rewrite E|]; discriminate. }
  unfold storage.phases. run.
  pose proof (P1 _ H0) as H1.
  destruct (storage.waitForStatefulSetToScale X _) as [o1 s1]. cbn [fst snd] in H1.
  destruct (stops o1); [apply Hstop, H1|].
  pose proof (P2 _ H1) as H2.
  destruct (storage.handleResourcesSync X s1) as [o2 s2]. cbn [fst snd] in H2.
  destruct (stops o2); [apply Hstop, H2|].
  destruct s2 as [w2 b2]. destruct (Hquiet _ H2) as (before & Hb & Hn).
  destruct H2 as [_ (st2 & Hst2 & _)]. cbn [fst snd] in *. subst b2.
  unfold storage.waitForHealthCheck, CheckBootstrapHealth. run.
  cbn [storage_copy s_Namespace s_Name]. fold key.
  destruct (answer (probeOutcomes w2)) as [err|]; run.
  - cbn [stops]. frame. exists (before ++ [(CHealthCheck key, Some err)]), [].
    rewrite app_nil_r, Hb, <- app_assoc. split; [reflexivity|].
    rewrite List.filter_app, Hn. auto.
  - replace (stops ({| ctrl.Requeue := false; ctrl.RequeueAfter := 0 |}, None))
      with false by reflexivity.
    match goal with |- context [storage.runDefineBoxScript (?w3, ?b3)] =>
      pose proof (runDefineBoxScript_calls w3 b3) as H4;
      destruct (storage.runDefineBoxScript (w3, b3)) as [o4 [w4 b4]] end.
    cbv zeta in H4. cbn [fst snd] in H4. frame in H4.
    cbn [storage_copy s_Namespace s_Name] in H4.
    destruct H4 as (after & Ha & Hafter).
    assert (Hres : exists before0, calls w4 = calls w ++ before0 ++ after
              /\ List.filter is_exec before0 = []
              /\ last before0 = Some (CHealthCheck key, None)).
    { exists (before ++ [(CHealthCheck key, None)]). rewrite Ha, Hb, <- !app_assoc.
      split; [reflexivity|]. rewrite List.filter_app, Hn. split; [reflexivity|].
      apply last_snoc. }
    destruct Hres as (before0 & Hc4 & Hn0 & Hlast).
    destruct (stops o4); cbn [fst snd]; exists before0, after;
      (split; [exact Hc4|]); (split; [exact Hn0|]);
      (destruct Hafter as [->|Hex]; [left; reflexivity|right; split; [exact Hlast|exact Hex]]).
Qed.

(** ** Creation comes before initialization *)

Lemma confined_filter (allowed : Call -> Prop) (p : Call * option Err -> bool)
    (w w' : World) :
  (forall c e, allowed c -> p (c, e) = false) ->
  confined allowed w w' ->
  List.filter p (calls w') = List.filter p (calls w).
Proof.
  intros Hp H. destruct (confined_calls _ _ _ H) as (l & -> & Hall).
  rewrite List.filter_app.
  assert (Hnil : List.filter p l = []).
  { induction Hall as [|[c e] l Hc Hl IH]; [reflexivity|].
    cbn [List.filter]. rewrite (Hp c e Hc). exact IH. }
  rewrite Hnil. apply app_nil_r.
Qed.

Lemma storage_syncEach_uncreated (storage : Storage) (builders : list ResourceBuilder) :
  forall (created : bool) (w : World),
    let r := storage.syncEach storage builders created (w, storage) in
    stops r.1 = false -> created = false /\ creates r.2.1 = creates w.
Proof.
  induction builders as [|b rest IH]; intros created w.
  - cbn [storage.syncEach]. run. destruct created; cbn [fst snd]; intros H.
    + discriminate H.
    + split; reflexivity.
  - cbn [storage.syncEach]. run.
    destruct (controllerutil.CreateOrUpdate (rb_Kind b) _ (storage.mutateFn storage b) w)
      as [[res [err|]] w1] eqn:E; run.
    { cbn [fst snd]. intros H. discriminate H. }
    destruct (CreateOrUpdate_applied _ _ (storage_mutateFn_pure storage b) _ _ _ _ _ E)
      as (_ & _ & Hcount).
    specialize (IH (created || bool_decide (res = controllerutil.OperationResultCreated)) w1).
    cbv zeta in IH. cbn [fst snd]. intros Hgo. destruct (IH Hgo) as [Hor Hcr].
    apply orb_false_elim in Hor as [Hcreated Hres]. rewrite Hres in Hcount.
    split; [exact Hcreated|]. transitivity (creates w1); [exact Hcr|]. rewrite Hcount. lia.
Qed.

Lemma database_syncEach_uncreated (database : Database) (builders : list ResourceBuilder) :
  forall (created : bool) (w : World),
    let r := database.syncEach database builders created (w, database) in
    stops r.1 = false -> created = false /\ creates r.2.1 = creates w.
Proof.
  induction builders as [|b rest IH]; intros created w.
  - cbn [database.syncEach]. run. destruct created; cbn [fst snd]; intros H.
    + discriminate H.
    + split; reflexivity.
  - cbn [database.syncEach]. run.
    destruct (controllerutil.CreateOrUpdate (rb_Kind b) _ (database.mutateFn database b) w)
      as [[res [err|]] w1] eqn:E; run.
    { cbn [fst snd]. intros H. discriminate H. }
    destruct (CreateOrUpdate_applied _ _ (database_mutateFn_pure database b) _ _ _ _ _ E)
      as (_ & _ & Hcount).
    specialize (IH (created || bool_decide (res = controllerutil.OperationResultCreated)) w1).
    cbv zeta in IH. cbn [fst snd]. intros Hgo. destruct (IH Hgo) as [Hor Hcr].
    apply orb_false_elim in Hor as [Hcreated Hres]. rewrite Hres in Hcount.
    split; [exact Hcreated|]. transitivity (creates w1); [exact Hcr|]. rewrite Hcount. lia.
Qed.

Lemma storage_handleResourcesSync_uncreated (X : Externals) (w : World) (storage : Storage) :
  let r := storage.handleResourcesSync X (w, storage) in
  stops r.1 = false -> creates r.2.1 = creates w.
Proof.
  cbv zeta. unfold storage.handleResourcesSync. run. intros H.
  destruct (storage_syncEach_uncreated storage _ false _ H) as [_ Hc]. exact Hc.
Qed.

Lemma database_handleResourcesSync_uncreated (X : Externals) (w : World)
    (database : Database) :
  let r := database.handleResourcesSync X (w, database) in
  stops r.1 = false -> creates r.2.1 = creates w.
Proof.
  cbv zeta. unfold database.handleResourcesSync. run. intros H.
  destruct (database_syncEach_uncreated database _ false _ H) as [_ Hc]. exact Hc.
Qed.

(** X20. Creation comes before initialization.  No pass of the Storage
    reconciler both makes a [Create] call and probes the health or runs
    a command in a pod, and no pass of the Database reconciler both
    makes a [Create] call and calls the tenant API: a pass in which a
    child had to be created ends at the resource sync. *)
Theorem creation_before_initialization (X : Externals) (w : World) (cr : Storage)
    (ydbCr : Database) :
  (let r := storage.Sync X cr w in
   creates r.2.1 = creates w \/ bootstrapCalls (calls r.2.1) = bootstrapCalls (calls w))
  /\ (let r := database.Sync X ydbCr w in
      creates r.2.1 = creates w \/ tenantCalls (calls r.2.1) = tenantCalls (calls w)).
Proof.
  set (uncreative := fun c : Call => match c with CCreate _ _ => False | _ => True end).
  set (plain := fun c : Call =>
         match c with
         | CExec _ _ _ _ | CHealthCheck _ | CTenantCreate _ => False
         | _ => True
         end).
  set (quiet := fun c : Call => uncreative c /\ plain c).
  assert (Hcreates : forall allowed w1 w2,
            (forall c, allowed c -> uncreative c) -> confined allowed w1 w2 ->
            creates w2 = creates w1).
  { intros allowed w1 w2 Ha Hc. unfold creates. f_equal.
    apply (confined_filter allowed); [|exact Hc].
    intros c e Hce. apply Ha in Hce. destruct c; try reflexivity. destruct Hce. }
  assert (Hboot : forall allowed w1 w2,
            (forall c, allowed c -> plain c) -> confined allowed w1 w2 ->
            bootstrapCalls (calls w2) = bootstrapCalls (calls w1)).
  { intros allowed w1 w2 Ha Hc. apply (confined_filter allowed); [|exact Hc].
    intros c e Hce. apply Ha in Hce. destruct c; try reflexivity; destruct Hce. }
  assert (Htenant : forall allowed w1 w2,
            (forall c, allowed c -> plain c) -> confined allowed w1 w2 ->
            tenantCalls (calls w2) = tenantCalls (calls w1)).
  { intros allowed w1 w2 Ha Hc. apply (confined_filter allowed); [|exact Hc].
    intros c e Hce. apply Ha in Hce. destruct c; try reflexivity; destruct Hce. }
  split; cbv zeta.
  - unfold storage.Sync.
    assert (Hcopy : exists st,
              resources.SetStatusOnFirstReconcile (resources.NewCluster X cr)
              = storage_copy X cr st /\ Conditions st <> None).
    { eexists. split; [reflexivity|]. unfold resources.seed.
      cbn [resources.NewCluster s_Status].
      destruct (Conditions (s_Status cr)) eqn:E; [rewrite E|]; discriminate. }
    unfold storage.phases. run.
    (* the scale wait *)
    pose proof (storage_waitForStatefulSetToScale_confined X cr quiet w) as P1.
    specialize (P1 (conj I I) (fun _ _ _ => conj I I) (conj I I) (conj I I)
                  (w, _) (conj (confined_refl _ w) Hcopy)).
    destruct (storage.waitForStatefulSetToScale X _) as [o1 [w1 b1]].
    cbn [fst snd] in P1. destruct P1 as [C1 Hcopy1].
    pose proof (Hcreates _ _ _ (fun c H => proj1 H) C1) as Hcr1.
    pose proof (Hboot _ _ _ (fun c H => proj2 H) C1) as Hb1.
    destruct (stops o1); [left; exact Hcr1|].
    (* the resource sync *)
    pose proof (storage_handleResourcesSync_confined X cr plain w1) as P2.
    specialize (P2 (fun _ _ _ => conj I (conj I I)) (w1, b1)
                  (conj (confined_refl _ w1) Hcopy1)).
    pose proof (storage_handleResourcesSync_uncreated X w1 b1) as U2. cbv zeta in U2.
    destruct (storage.handleResourcesSync X (w1, b1)) as [o2 [w2 b2]].
    cbn [fst snd] in P2, U2. destruct P2 as [C2 Hcopy2].
    pose proof (Hboot _ _ _ (fun c H => H) C2) as Hb2.
    destruct (stops o2); [right; exact (eq_trans Hb2 Hb1)|].
    specialize (U2 eq_refl).
    assert (Hcr2 : creates w2 = creates w) by exact (eq_trans U2 Hcr1).
    (* the health check and the bootstrap *)
    pose proof (storage_waitForHealthCheck_confined X cr uncreative w2 I (w2, b2)
                  (conj (confined_refl _ w2) Hcopy2)) as P3.
    destruct (storage.waitForHealthCheck (w2, b2)) as [o3 s3].
    pose proof (Hcreates _ _ _ (fun c H => H) (proj1 P3)) as Hcr3. cbn [fst snd] in Hcr3.
    destruct (stops o3); [left; exact (eq_trans Hcr3 Hcr2)|].
    pose proof (storage_runDefineBoxScript_confined X cr uncreative w2 I
                  (fun _ _ _ => I) (fun _ _ => I) s3 P3) as P4.
    destruct (storage.runDefineBoxScript s3) as [o4 s4].
    pose proof (Hcreates _ _ _ (fun c H => H) (proj1 P4)) as Hcr4. cbn [fst snd] in Hcr4.
    destruct (stops o4); left; exact (eq_trans Hcr4 Hcr2).
  - unfold database.Sync.
    assert (Hcopy : exists st,
              resources.SetStatusOnFirstReconcile_db (resources.NewDatabase X ydbCr)
              = database_copy X ydbCr st /\ Conditions st <> None).
    { eexists. split; [reflexivity|]. unfold resources.seed.
      cbn [resources.NewDatabase d_Status].
      destruct (Conditions (d_Status ydbCr)) eqn:E; [rewrite E|]; discriminate. }
    unfold database.phases. run.
    (* the seed, the dependency wait and the scale wait *)
    pose proof (database_setState_confined X ydbCr quiet w (conj I I)
                  (fun _ _ _ => conj I I) (w, _)
                  (conj (conj (confined_refl _ w) Hcopy) (or_introl eq_refl))) as P0.
    destruct (database.setState _) as [o0 s0]. cbn [fst snd] in P0.
    pose proof (database_waitForClusterResource_confined X ydbCr quiet w (conj I I) s0 P0)
      as P1.
    destruct (database.waitForClusterResource s0) as [o1 s1]. cbn [fst snd] in P1.
    pose proof (Hcreates _ _ _ (fun c H => proj1 H) (proj1 P1)) as Hcr1.
    destruct (stops o1); [left; exact Hcr1|].
    pose proof (database_waitForStatefulSetToScale_confined X ydbCr quiet w (conj I I)
                  (fun _ _ _ => conj I I) (conj I I) s1 P1) as P2.
    destruct (database.waitForStatefulSetToScale s1) as [o2 [w2 b2]]. cbn [fst snd] in P2.
    destruct P2 as [C2 Hcopy2].
    pose proof (Hcreates _ _ _ (fun c H => proj1 H) C2) as Hcr2.
    pose proof (Htenant _ _ _ (fun c H => proj2 H) C2) as Ht2.
    destruct (stops o2); [left; exact Hcr2|].
    (* the resource sync *)
    pose proof (database_handleResourcesSync_confined X ydbCr plain w2
                  (fun _ _ _ => conj I (conj I I)) (w2, b2)
                  (conj (confined_refl _ w2) Hcopy2)) as P3.
    pose proof (database_handleResourcesSync_uncreated X w2 b2) as U3. cbv zeta in U3.
    destruct (database.handleResourcesSync X (w2, b2)) as [o3 [w3 b3]].
    cbn [fst snd] in P3, U3. destruct P3 as [C3 Hcopy3].
    pose proof (Htenant _ _ _ (fun c H => H) C3) as Ht3.
    destruct (stops o3); [right; exact (eq_trans Ht3 Ht2)|].
    specialize (U3 eq_refl). cbn [fst snd].
    assert (Hcr3 : creates w3 = creates w) by exact (eq_trans U3 Hcr2).
    destruct (negb _); [|left; exact Hcr3].
    (* the tenant creation *)
    pose proof (database_handleTenantCreation_confined X ydbCr uncreative w3 I
                  (fun _ _ _ => I) (fun _ => I) (w3, b3)
                  (conj (confined_refl _ w3) Hcopy3)) as P4.
    destruct (database.handleTenantCreation X (w3, b3)) as [o4 s4].
    pose proof (Hcreates _ _ _ (fun c H => H) (proj1 P4)) as Hcr4. cbn [fst snd] in Hcr4.
    destruct (stops o4); left; exact (eq_trans Hcr4 Hcr3).
Qed.

(** ** The children of a completed resource sync *)

Lemma SetControllerReference_owner (ownerKind ownerNamespace ownerName : string)
    (controlled v : Object) :
  controllerutil.SetControllerReference ownerKind ownerNamespace ownerName controlled = inr v ->
  o_Owner v = Some (ownerKind, ownerName)
  /\ (ownerNamespace <> "" -> o_Namespace v = ownerNamespace).
Proof.
  unfold controllerutil.SetControllerReference.
  destruct (bool_decide (ownerNamespace <> "")) eqn:Hns; cbn [andb].
  - apply bool_decide_eq_true in Hns.
    destruct (bool_decide (o_Namespace controlled = "")); [discriminate|].
    destruct (bool_decide (ownerNamespace <> o_Namespace controlled)) eqn:Hsame; [discriminate|].
    apply bool_decide_eq_false in Hsame.
    assert (Heq : ownerNamespace = o_Namespace controlled).
    { destruct (decide (ownerNamespace = o_Namespace controlled)); [assumption|contradiction]. }
    destruct (o_Owner controlled) as [existing|] eqn:Ho.
    + destruct (bool_decide (existing = (ownerKind, ownerName))) eqn:He; [|discriminate].
      apply bool_decide_eq_true in He. intros [= <-]. subst existing. auto.
    + intros [= <-]. cbn. auto.
  - apply bool_decide_eq_false in Hns.
    destruct (o_Owner controlled) as [existing|] eqn:Ho.
    + destruct (bool_decide (existing = (ownerKind, ownerName))) eqn:He; [|discriminate].
      apply bool_decide_eq_true in He. intros [= <-]. subst existing.
      split; [exact Ho|]. intros H. contradiction.
    + intros [= <-]. cbn. split; [reflexivity|]. intros H. contradiction.
Qed.

Section Owned.
Variables (f : Object -> World -> (Err + Object) * World) (g : Object -> Err + Object).
Variable owner : string * string.
Hypothesis f_pure :
  forall o w, exists w',
    f o w = (g o, w') /\ objects w' = objects w /\ calls w' = calls w
    /\ apiFaults w' = apiFaults w.
Hypothesis g_owner : forall src v, g src = inr v -> o_Owner v = Some owner.

(** A successful apply leaves the child controlled by the owner, and the
    children that were so remain so. *)
Lemma CreateOrUpdate_owned (kind : string) (ph : Object) (w w' : World)
    (res : controllerutil.OperationResult) :
  controllerutil.CreateOrUpdate kind ph f w = ((res, None), w') ->
  controlledBy owner w' (kind, o_Namespace ph, o_Name ph)
  /\ (forall k, controlledBy owner w k -> controlledBy owner w' k).
Proof.
  intros E.
  destruct (CreateOrUpdate_applied f g f_pure _ _ _ _ _ E)
    as (Hother & (v & src & Hv & Hg & _) & _).
  assert (Hnew : controlledBy owner w' (kind, o_Namespace ph, o_Name ph)).
  { exists v. split; [exact Hv|]. exact (g_owner _ _ Hg). }
  split; [exact Hnew|]. intros k Hk.
  destruct (decide (k = (kind, o_Namespace ph, o_Name ph))) as [->|Hne]; [exact Hnew|].
  destruct Hk as (v0 & Hv0 & Ho). exists v0. rewrite (Hother k Hne). auto.
Qed.

End Owned.

Lemma storage_syncEach_owned (storage : Storage) (builders : list ResourceBuilder) :
  let ns := s_Namespace storage in
  let name := s_Name storage in
  let owner := ("Storage", name) in
  forall (created : bool) (w : World),
    let r := storage.syncEach storage builders created (w, storage) in
    r.1.2 = None ->
    (forall k, controlledBy owner w k -> controlledBy owner r.2.1 k)
    /\ (forall b, b ∈ builders -> controlledBy owner r.2.1 (identity ns name b)).
Proof.
  intros ns name owner. induction builders as [|b rest IH]; intros created w.
  - cbn [storage.syncEach]. run. destruct created; cbn [fst snd]; intros _;
      (split; [intros k Hk; exact Hk|intros b Hb; inversion Hb]).
  - cbn [storage.syncEach]. run. fold ns name.
    destruct (controllerutil.CreateOrUpdate (rb_Kind b) (Placeholder b ns name)
                (storage.mutateFn storage b) w) as [[res [err|]] w1] eqn:E; run.
    { cbn [fst snd]. intros H. discriminate H. }
    assert (Hg : forall src v, storage.desired storage b src = inr v -> o_Owner v = Some owner).
    { intros src v. unfold storage.desired. destruct (Build b src) as [e|rr]; [discriminate|].
      intros H. apply SetControllerReference_owner in H as [H _]. exact H. }
    destruct (CreateOrUpdate_owned _ _ owner (storage_mutateFn_pure storage b) Hg _ _ _ _ _ E)
      as [Hnew Hkeep].
    specialize (IH (created || bool_decide (res = controllerutil.OperationResultCreated)) w1).
    cbv zeta in IH. intros Hok. destruct (IH Hok) as [IH1 IH2].
    split; [intros k Hk; apply IH1, Hkeep, Hk|].
    intros b0 Hb0. apply elem_of_cons in Hb0 as [->|Hb0]; [apply IH1, Hnew|apply IH2, Hb0].
Qed.

Lemma database_syncEach_owned (database : Database) (builders : list ResourceBuilder) :
  let ns := d_Namespace database in
  let name := d_Name database in
  let owner := ("Database", name) in
  forall (created : bool) (w : World),
    let r := database.syncEach database builders created (w, database) in
    r.1.2 = None ->
    (forall k, controlledBy owner w k -> controlledBy owner r.2.1 k)
    /\ (forall b, b ∈ builders -> controlledBy owner r.2.1 (identity ns name b)).
Proof.
  intros ns name owner. induction builders as [|b rest IH]; intros created w.
  - cbn [database.syncEach]. run. destruct created; cbn [fst snd]; intros _;
      (split; [intros k Hk; exact Hk|intros b Hb; inversion Hb]).
  - cbn [database.syncEach]. run. fold ns name.
    destruct (controllerutil.CreateOrUpdate (rb_Kind b) (Placeholder b ns name)
                (database.mutateFn database b) w) as [[res [err|]] w1] eqn:E; run.
    { cbn [fst snd]. intros H. discriminate H. }
    assert (Hg : forall src v, database.desired database b src = inr v -> o_Owner v = Some owner).
    { intros src v. unfold database.desired. destruct (Build b src) as [e|rr]; [discriminate|].
      intros H. apply SetControllerReference_owner in H as [H _]. exact H. }
    destruct (CreateOrUpdate_owned _ _ owner (database_mutateFn_pure database b) Hg _ _ _ _ _ E)
      as [Hnew Hkeep].
    specialize (IH (created || bool_decide (res = controllerutil.OperationResultCreated)) w1).
    cbv zeta in IH. intros Hok. destruct (IH Hok) as [IH1 IH2].
    split; [intros k Hk; apply IH1, Hkeep, Hk|].
    intros b0 Hb0. apply elem_of_cons in Hb0 as [->|Hb0]; [apply IH1, Hnew|apply IH2, Hb0].
Qed.

(** X15. After a resource sync that returns no error every child of the
    builder set is stored and is controlled by the owner, a Storage or
    a Database, whatever was stored under its identity before; and a
    child that was controlled by the owner before still is. *)
Theorem handleResourcesSync_children_owned (X : Externals) (w : World)
    (storage : Storage) (database : Database) :
  (let r := storage.handleResourcesSync X (w, storage) in
   let owner := ("Storage", s_Name storage) in
   r.1.2 = None ->
   (forall b, b ∈ resources.GetResourceBuilders X storage ->
      controlledBy owner r.2.1 (identity (s_Namespace storage) (s_Name storage) b))
   /\ (forall k, controlledBy owner w k -> controlledBy owner r.2.1 k))
  /\ (let r := database.handleResourcesSync X (w, database) in
      let owner := ("Database", d_Name database) in
      r.1.2 = None ->
      (forall b, b ∈ DatabaseResourceBuilders X database ->
         controlledBy owner r.2.1 (identity (d_Namespace database) (d_Name database) b))
      /\ (forall k, controlledBy owner w k -> controlledBy owner r.2.1 k)).
Proof.
  split.
  - cbv zeta. unfold storage.handleResourcesSync. run. intros Hok.
    destruct (storage_syncEach_owned storage (resources.GetResourceBuilders X storage) false
                (record {| ev_Type := EventTypeNormal; ev_Reason := "Provisioning" |} w) Hok)
      as [H1 H2].
    split; [exact H2|]. intros k Hk. apply H1. exact Hk.
  - cbv zeta. unfold database.handleResourcesSync. run. intros Hok.
    destruct (database_syncEach_owned database (DatabaseResourceBuilders X database) false
                (record {| ev_Type := EventTypeNormal; ev_Reason := "Provisioning" |} w) Hok)
      as [H1 H2].
    split; [exact H2|]. intros k Hk. apply H1. exact Hk.
Qed.

Lemma handleResourcesSync_children_owned_witness :
  let r := storage.handleResourcesSync demo.X (demo.underscaled, demo.storageCr "" None) in
  controlledBy ("Storage", "store") r.2.1 ("ConfigMap", "ydb", "store")
  /\ controlledBy ("Storage", "store") r.2.1 ("StatefulSet", "ydb", "store").
Proof.
  destruct (proj1 (handleResourcesSync_children_owned demo.X demo.underscaled
                     (demo.storageCr "" None) (demo.databaseCr "" None))) as [H _].
  - vm_compute. reflexivity.
  - split.
    + apply (H (demo.builderMethods
                  (ConfigMapBuilder (demo.storageCr "" None)
                     (configuration_Build demo.X (demo.storageCr "" None))
                     (labels_ClusterLabels demo.X (demo.storageCr "" None))))).
      unfold resources.GetResourceBuilders. cbv zeta. apply elem_of_app. right.
      do 3 apply list_elem_of_further. apply list_elem_of_here.
    + apply (H demo.statefulSetBuilder).
      unfold resources.GetResourceBuilders. cbv zeta. apply elem_of_app. right.
      do 4 apply list_elem_of_further. apply list_elem_of_here.
Defined.

(** ** A pass that finds the workload short of its members *)

Lemma storage_scale_wait_underscaled_run (X : Externals) (w : World) (storage : Storage)
    (sts : Object) :
  let key := (s_Namespace storage, s_Name storage) in
  let members :=
    List.filter (client.selects (s_Namespace storage) (storage.podLabels X storage)) (pods w) in
  let provisioning := storage.with_State "Provisioning" storage in
  clear 2 (apiFaults w) = true ->
  objects w !! ("StatefulSet", key.1, key.2) = Some sts ->
  persistOutcome "Storage" (drop 2 (apiFaults w)) (storages w !! key) = None ->
  Z.of_nat (length (List.filter (fun e => bool_decide (p_Phase e = "Running")) members))
  <> st_Nodes (s_Spec storage) ->
  exists w',
    storage.waitForStatefulSetToScale X (w, storage)
    = (controllers.RequeueAfter (10 * ctrl.Second) None, (w', provisioning))
    /\ storages w' = alter (fun old => (old.1, s_Status provisioning)) key (storages w)
    /\ databases w' = databases w /\ objects w' = objects w
    /\ calls w'
       = calls w ++ [(CGet "StatefulSet" key, None);
                     (CList (s_Namespace storage) (storage.podLabels X storage), None);
                     (CGet "Storage" key, None);
                     (CStatusUpdate "Storage" key (s_Status provisioning), None)].
Proof.
  intros key members provisioning Hclear Hsts Hpersist Hne.
  apply clear_S in Hclear as [H1 Hclear]. apply clear_S in Hclear as [H2 _].
  unfold storage.waitForStatefulSetToScale. api.
  rewrite request_served by exact H1. frame.
  unfold key in Hsts. cbn [fst snd] in Hsts. rewrite Hsts. run.
  rewrite request_served by (frame; exact H2). frame. run.
  rewrite countRunning_length. fold members.
  assert (Hdrop : tail (tail (apiFaults w)) = drop 2 (apiFaults w))
    by (destruct (apiFaults w) as [|? [|? ?]]; reflexivity).
  rewrite bool_decide_true by exact Hne. run. fold provisioning.
  match goal with |- context [storage.setState (?w1, provisioning)] =>
    destruct (storage_setState_ok w1 provisioning)
      as (wp & Ep & Hsp & Hdp & Hop & _ & _ & _ & _ & _ & Hcp) end.
  { frame. cbn [provisioning storage.with_State s_Namespace s_Name]. rewrite Hdrop.
    exact Hpersist. }
  rewrite Ep. run. frame in Hsp. frame in Hdp. frame in Hop. frame in Hcp.
  cbn [provisioning storage.with_State s_Namespace s_Name] in Hsp, Hcp.
  fold key in Hsp, Hcp. fold provisioning in Hsp, Hcp.
  eexists. split; [reflexivity|]. frame.
  split; [exact Hsp|]. split; [exact Hdp|]. split; [exact Hop|].
  rewrite Hcp, <- !app_assoc. reflexivity.
Qed.

(** X16. A pass of the Storage reconciler that finds the workload short
    of its members, whatever [State] the Storage has, Ready included:
    with the fetch, the listing and the status write going through,
    [Sync] compares the running members with [Spec.Nodes] after the
    spec defaults, stores [State] Provisioning with the conditions it
    came with, requeues after 10 seconds and stops there: these four
    calls are all it makes, so no child is synced, nothing is probed
    and no command is run. *)
Theorem storage_Sync_scale_regression (X : Externals) (cr : Storage) (w : World)
    (sts : Object) :
  let key := (s_Namespace cr, s_Name cr) in
  let members :=
    List.filter (client.selects (s_Namespace cr) (storage.podLabels X cr)) (pods w) in
  let status :=
    {| State := "Provisioning"; Conditions := Some (default [] (Conditions (s_Status cr))) |} in
  clear 2 (apiFaults w) = true ->
  objects w !! ("StatefulSet", key.1, key.2) = Some sts ->
  persistOutcome "Storage" (drop 2 (apiFaults w)) (storages w !! key) = None ->
  Z.of_nat (length (List.filter (fun e => bool_decide (p_Phase e = "Running")) members))
  <> st_Nodes (SetStorageClusterSpecDefaults X (s_Spec cr)) ->
  let r := storage.Sync X cr w in
  r.1 = controllers.RequeueAfter (10 * ctrl.Second) None
  /\ s_Status r.2.2 = status
  /\ snd <$> storages r.2.1 !! key = Some status
  /\ objects r.2.1 = objects w
  /\ calls r.2.1
     = calls w ++ [(CGet "StatefulSet" key, None);
                   (CList (s_Namespace cr) (storage.podLabels X cr), None);
                   (CGet "Storage" key, None);
                   (CStatusUpdate "Storage" key status, None)].
Proof.
  intros key members status Hclear Hsts Hpersist Hne r.
  destruct (persistOutcome_stored _ _ _ Hpersist) as [old Hold].
  subst r. unfold storage.Sync, storage.phases. run.
  destruct (storage_scale_wait_underscaled_run X w
              (resources.SetStatusOnFirstReconcile (resources.NewCluster X cr)) sts)
    as (w' & E & Hs & _ & Ho & Hc); try assumption.
  assert (Hstatus : s_Status (storage.with_State "Provisioning"
                       (resources.SetStatusOnFirstReconcile (resources.NewCluster X cr)))
                    = status).
  { unfold status, resources.SetStatusOnFirstReconcile, resources.seed, resources.NewCluster.
    cbn [storage.with_State s_Status]. destruct (s_Status cr) as [s0 [cs|]]; reflexivity. }
  rewrite E.
  replace (stops (controllers.RequeueAfter (10 * ctrl.Second) None)) with true by reflexivity.
  cbn [fst snd].
  cbn [resources.SetStatusOnFirstReconcile resources.NewCluster s_Namespace s_Name] in Hs, Hc.
  fold key in Hs, Hc. rewrite Hstatus in Hs, Hc.
  split; [reflexivity|]. split; [exact Hstatus|]. split.
  { rewrite Hs, lookup_alter_eq, Hold. reflexivity. }
  split; [exact Ho|exact Hc].
Qed.

Lemma storage_Sync_scale_regression_witness :
  let w := demo.cluster demo.ready demo.fresh ["Running"; "Running"; "Failed"] [] in
  let r := storage.Sync demo.X (demo.storageCr "Ready" (Conditions demo.ready)) w in
  r.1 = controllers.RequeueAfter (10 * ctrl.Second) None
  /\ State (s_Status r.2.2) = "Provisioning".
Proof.
  destruct (storage_Sync_scale_regression demo.X
              (demo.storageCr "Ready" (Conditions demo.ready))
              (demo.cluster demo.ready demo.fresh ["Running"; "Running"; "Failed"] [])
              (demo.workload "store" 3)) as (H1 & H2 & _).
  - reflexivity.
  - vm_compute. reflexivity.
  - vm_compute. reflexivity.
  - vm_compute. discriminate.
  - cbv zeta. rewrite H1, H2. split; reflexivity.
Defined.

Lemma persistOutcome_clear {A : Type} (kind : string) (faults : list (option string))
    (stored : option A) :
  clear 2 faults = true -> is_Some stored -> persistOutcome kind faults stored = None.
Proof.
  intros Hc [a ->]. unfold persistOutcome.
  destruct faults as [|[m|] [|[m'|] rest]]; try discriminate; reflexivity.
Qed.

Lemma clear_drop (n m : nat) (plan : list (option string)) :
  clear (n + m) plan = true -> clear m (drop n plan) = true.
Proof.
  revert plan. induction n as [|n IH]; intros plan H; [exact H|].
  destruct plan as [|[x|] rest]; cbn in *.
  - destruct m; reflexivity.
  - discriminate.
  - apply IH. exact H.
Qed.

Lemma tail_drop {A : Type} (n : nat) (l : list A) : tail (drop n l) = drop (S n) l.
Proof.
  revert l. induction n as [|n IH]; intros [|x l]; cbn [drop tail].
  - reflexivity.
  - destruct l; reflexivity.
  - destruct n; reflexivity.
  - apply IH.
Qed.

Lemma clear_le (n m : nat) (plan : list (option string)) :
  (m <= n)%nat -> clear n plan = true -> clear m plan = true.
Proof.
  revert m plan. induction n as [|n IH]; intros m plan Hle H.
  - replace m with O by lia. reflexivity.
  - destruct m as [|m]; [reflexivity|].
    destruct plan as [|[x|] rest]; cbn in *; [reflexivity|discriminate|].
    apply IH; [lia|exact H].
Qed.

Lemma waitForClusterResource_ready_run (w : World) (database : Database)
    (stored : StorageSpec * Status) :
  let ref := (ref_Namespace (StorageClusterRef (d_Spec database)),
              ref_Name (StorageClusterRef (d_Spec database))) in
  clear 1 (apiFaults w) = true ->
  storages w !! ref = Some stored ->
  State stored.2 = "Ready" ->
  database.waitForClusterResource (w, database)
  = (controllers.Ok,
     (log (CGet "Storage" ref) None (set_apiFaults (tail (apiFaults w)) w), database)).
Proof.
  intros ref Hclear Hstored Hready.
  unfold database.waitForClusterResource. api. fold ref.
  rewrite request_served by exact Hclear. frame. rewrite Hstored.
  cbn [fmap option_fmap option_map]. run.
  cbn [client.storageAt s_Status snd].
  rewrite bool_decide_false by (intros Hne; apply Hne, Hready). reflexivity.
Qed.

Lemma database_scale_wait_underscaled_run (w : World) (database : Database) (sts : Object) :
  let key := (d_Namespace database, d_Name database) in
  let provisioning := database.with_State database.Provisioning database in
  clear 1 (apiFaults w) = true ->
  objects w !! ("StatefulSet", key.1, key.2) = Some sts ->
  persistOutcome "Database" (tail (apiFaults w)) (databases w !! key) = None ->
  o_Replicas sts <> db_Nodes (d_Spec database) ->
  exists w',
    database.waitForStatefulSetToScale (w, database)
    = (controllers.RequeueAfter (10 * ctrl.Second) None, (w', provisioning))
    /\ databases w' = alter (fun old => (old.1, d_Status provisioning)) key (databases w)
    /\ storages w' = storages w /\ objects w' = objects w
    /\ calls w'
       = calls w ++ [(CGet "StatefulSet" key, None); (CGet "Database" key, None);
                     (CStatusUpdate "Database" key (d_Status provisioning), None)].
Proof.
  intros key provisioning Hclear Hsts Hpersist Hne.
  unfold database.waitForStatefulSetToScale. api.
  rewrite request_served by exact Hclear. frame.
  unfold key in Hsts. cbn [fst snd] in Hsts. rewrite Hsts. run.
  rewrite bool_decide_true by exact Hne. run. fold provisioning.
  match goal with |- context [database.setState (?w1, provisioning)] =>
    destruct (database_setState_ok w1 provisioning)
      as (wp & Ep & Hdp & Hsp & Hop & _ & _ & _ & _ & _ & Hcp) end.
  { frame. exact Hpersist. }
  rewrite Ep. run. frame in Hsp. frame in Hdp. frame in Hop. frame in Hcp.
  cbn [provisioning database.with_State d_Namespace d_Name] in Hdp, Hcp.
  fold key in Hdp, Hcp. fold provisioning in Hdp, Hcp.
  eexists. split; [reflexivity|]. frame.
  split; [exact Hdp|]. split; [exact Hsp|]. split; [exact Hop|].
  rewrite Hcp, <- !app_assoc. reflexivity.
Qed.

(** X17. A pass of the Database reconciler that gets through the
    dependency wait and finds the workload short of its replicas: with
    the Database stored, the referenced Storage (in the Database's
    namespace when the reference names none) stored with [State] Ready,
    the API server serving the six requests, and a replica count of the
    workload object other than [Spec.Nodes], [Sync] writes the status
    it came with, fetches the Storage and the workload, stores [State]
    Provisioning, requeues after 10 seconds and stops there: no child
    is synced and no tenant is created. *)
Theorem database_Sync_scale_regression (X : Externals) (ydbCr : Database) (w : World)
    (stored : StorageSpec * Status) (sts : Object) :
  let key := (d_Namespace ydbCr, d_Name ydbCr) in
  let ref := (if decide (ref_Namespace (StorageClusterRef (d_Spec ydbCr)) = "")
              then d_Namespace ydbCr
              else ref_Namespace (StorageClusterRef (d_Spec ydbCr)),
              ref_Name (StorageClusterRef (d_Spec ydbCr))) in
  let seeded := resources.seed (d_Status ydbCr) in
  let status := {| State := "Provisioning"; Conditions := Conditions seeded |} in
  clear 6 (apiFaults w) = true ->
  is_Some (databases w !! key) ->
  storages w !! ref = Some stored ->
  State stored.2 = "Ready" ->
  objects w !! ("StatefulSet", key.1, key.2) = Some sts ->
  o_Replicas sts <> db_Nodes (d_Spec ydbCr) ->
  let r := database.Sync X ydbCr w in
  r.1 = controllers.RequeueAfter (10 * ctrl.Second) None
  /\ d_Status r.2.2 = status
  /\ snd <$> databases r.2.1 !! key = Some status
  /\ objects r.2.1 = objects w
  /\ calls r.2.1
     = calls w ++ [(CGet "Database" key, None);
                   (CStatusUpdate "Database" key seeded, None);
                   (CGet "Storage" ref, None);
                   (CGet "StatefulSet" key, None);
                   (CGet "Database" key, None);
                   (CStatusUpdate "Database" key status, None)].
Proof.
  intros key ref seeded status Hclear [old Hold] Hstored Hready Hsts Hne r.
  subst r. unfold database.Sync, database.phases. run.
  set (b0 := resources.SetStatusOnFirstReconcile_db (resources.NewDatabase X ydbCr)).
  assert (Hspec : d_Spec b0
                  = SetDatabaseSpecDefaults (ImagePathFormat X) (RegistryPath X) (DefaultTag X)
                      (Sprintf X) ydbCr (d_Spec ydbCr)) by reflexivity.
  assert (Hnodes : db_Nodes (d_Spec b0) = db_Nodes (d_Spec ydbCr)).
  { rewrite Hspec, SetDatabaseSpecDefaults_unfold. reflexivity. }
  assert (Href : (ref_Namespace (StorageClusterRef (d_Spec b0)),
                  ref_Name (StorageClusterRef (d_Spec b0))) = ref).
  { rewrite Hspec, SetDatabaseSpecDefaults_unfold. reflexivity. }
  assert (Hkey : (d_Namespace b0, d_Name b0) = key) by reflexivity.
  assert (Hns : d_Namespace b0 = d_Namespace ydbCr) by reflexivity.
  assert (Hn : d_Name b0 = d_Name ydbCr) by reflexivity.
  cbn [key fst snd] in Hsts.
  assert (Hst0 : d_Status b0 = seeded) by reflexivity.
  clearbody b0.
  (* the seed *)
  destruct (database_setState_ok w b0)
    as (w1 & E1 & Hd1 & Hs1 & Ho1 & _ & _ & _ & _ & Hf1 & Hc1).
  { rewrite Hkey. apply persistOutcome_clear; [|eauto].
    apply (clear_le 6); [lia|exact Hclear]. }
  rewrite E1. rewrite Hkey, Hst0 in Hd1, Hc1.
  (* the dependency wait *)
  rewrite (waitForClusterResource_ready_run w1 b0 stored);
    [|rewrite Hf1; apply (clear_drop 2 1), (clear_le 6); [lia|exact Hclear]
     |rewrite Href, Hs1; exact Hstored|exact Hready].
  replace (stops controllers.Ok) with false by reflexivity. rewrite Href.
  (* the scale wait *)
  match goal with |- context [database.waitForStatefulSetToScale (?w2, b0)] =>
    destruct (database_scale_wait_underscaled_run w2 b0 sts)
      as (w3 & E3 & Hd3 & _ & Ho3 & Hc3) end.
  { frame. rewrite Hf1, tail_drop.
    apply (clear_drop 3 1 (apiFaults w)), (clear_le 6); [lia|exact Hclear]. }
  { frame. rewrite Hns, Hn, Ho1. exact Hsts. }
  { frame. rewrite Hkey, Hf1, Hd1, !tail_drop. apply persistOutcome_clear.
    - apply (clear_drop 4 2 (apiFaults w)). exact Hclear.
    - rewrite lookup_alter_eq, Hold. eauto. }
  { rewrite Hnodes. exact Hne. }
  rewrite E3.
  replace (stops (controllers.RequeueAfter (10 * ctrl.Second) None)) with true by reflexivity.
  cbn [fst snd]. frame in Hd3. frame in Ho3. frame in Hc3.
  rewrite Hkey in Hd3, Hc3.
  assert (Hstatus : d_Status (database.with_State database.Provisioning b0) = status).
  { cbn [database.with_State d_Status]. rewrite Hst0. reflexivity. }
  rewrite Hstatus in Hd3, Hc3.
  split; [reflexivity|]. split; [exact Hstatus|]. split.
  { rewrite Hd3, lookup_alter_eq, Hd1, lookup_alter_eq, Hold. reflexivity. }
  split; [rewrite Ho3; exact Ho1|].
  rewrite Hc3, Hc1, <- !app_assoc. reflexivity.
Qed.

Lemma database_Sync_scale_regression_witness :
  let w := set_objects (<[("StatefulSet", "ydb", "db") := demo.workload "db" 1]>
                          (objects demo.tenantless)) demo.tenantless in
  let r := database.Sync demo.X (demo.databaseCr "" None) w in
  r.1 = controllers.RequeueAfter (10 * ctrl.Second) None
  /\ d_Status r.2.2 = {| State := "Provisioning"; Conditions := Some [] |}.
Proof.
  destruct (database_Sync_scale_regression demo.X (demo.databaseCr "" None)
              (set_objects (<[("StatefulSet", "ydb", "db") := demo.workload "db" 1]>
                              (objects demo.tenantless)) demo.tenantless)
              ({| st_Nodes := 3 |}, demo.ready) (demo.workload "db" 1)) as (H1 & H2 & _).
  - reflexivity.
  - vm_compute. eauto.
  - vm_compute. reflexivity.
  - reflexivity.
  - vm_compute. reflexivity.
  - vm_compute. discriminate.
  - cbv zeta. rewrite H1, H2. split; reflexivity.
Defined.

(** ** A pass over a converged resource *)

Lemma storage_mutateFn_ok (storage : Storage) (b : ResourceBuilder) (o v : Object)
    (w : World) :
  storage.desired storage b o = inr v -> storage.mutateFn storage b o w = (inr v, w).
Proof.
  unfold storage.desired, storage.mutateFn. destruct (Build b o) as [e|rr]; [discriminate|].
  destruct (controllerutil.SetControllerReference _ _ _ rr) as [e|rr']; [discriminate|].
  intros [= <-]. reflexivity.
Qed.

Lemma database_mutateFn_ok (database : Database) (b : ResourceBuilder) (o v : Object)
    (w : World) :
  database.desired database b o = inr v -> database.mutateFn database b o w = (inr v, w).
Proof.
  unfold database.desired, database.mutateFn. destruct (Build b o) as [e|rr]; [discriminate|].
  destruct (controllerutil.SetControllerReference _ _ _ rr) as [e|rr']; [discriminate|].
  intros [= <-]. reflexivity.
Qed.

Lemma reads_refl (w : World) : reads [] w w.
Proof. unfold reads. cbn. rewrite app_nil_r. repeat split. Qed.

Lemma reads_record (ev : Event) (w : World) : reads [] w (record ev w).
Proof. unfold reads. frame. cbn. rewrite app_nil_r. repeat split. Qed.

Lemma reads_trans (cs1 cs2 : list Call) (w1 w2 w3 : World) :
  reads cs1 w1 w2 -> reads cs2 w2 w3 -> reads (cs1 ++ cs2) w1 w3.
Proof.
  intros (A1 & A2 & A3 & A4 & A5 & A6 & A7 & A8 & A9)
         (B1 & B2 & B3 & B4 & B5 & B6 & B7 & B8 & B9).
  unfold reads. rewrite B1, B2, B3, B4, B5, B6, B7, B8, B9, A1, A2, A3, A4, A5, A6, A7, A8, A9.
  repeat (split; [reflexivity|]). split.
  - rewrite length_app, drop_drop. reflexivity.
  - rewrite fmap_app, app_assoc. reflexivity.
Qed.

Lemma reads_served (c : Call) (w : World) :
  reads [c] w (log c None (set_apiFaults (tail (apiFaults w)) w)).
Proof.
  unfold reads. frame. repeat (split; [reflexivity|]). reflexivity.
Qed.

(** Applying to a child that is already what the mutation makes of it,
    the fetch being served: one call, the fetch, and nothing written. *)
Lemma CreateOrUpdate_settled_run (f : Object -> World -> (Err + Object) * World)
    (kind : string) (ph v : Object) (w : World) :
  let key := (kind, o_Namespace ph, o_Name ph) in
  objects w !! key = Some v ->
  (forall w0, f v w0 = (inr v, w0)) ->
  (o_Namespace v, o_Name v) = (o_Namespace ph, o_Name ph) ->
  clear 1 (apiFaults w) = true ->
  controllerutil.CreateOrUpdate kind ph f w
  = ((controllerutil.OperationResultNone, None),
     log (CGet kind (o_Namespace ph, o_Name ph)) None (set_apiFaults (tail (apiFaults w)) w)).
Proof.
  intros key Hv Hf Hkey Hclear.
  unfold controllerutil.CreateOrUpdate, controllerutil.mutate. api.
  rewrite request_served by exact Hclear. frame. fold key. rewrite Hv.
  rewrite Hf. rewrite (bool_decide_true _ Hkey). rewrite bool_decide_true by reflexivity.
  reflexivity.
Qed.

Lemma settled_reads (desired : ResourceBuilder -> Object -> Err + Object)
    (namespace name : string) (cs : list Call) (w w' : World) (b : ResourceBuilder) :
  reads cs w w' -> settled desired namespace name w b -> settled desired namespace name w' b.
Proof. intros (_ & _ & Ho & _) (v & Hv & H). exists v. rewrite Ho. auto. Qed.

Lemma storage_syncEach_settled_run (storage : Storage) (builders : list ResourceBuilder) :
  let ns := s_Namespace storage in
  let name := s_Name storage in
  forall (created : bool) (w : World),
    clear (length builders) (apiFaults w) = true ->
    (forall b, b ∈ builders -> settled (storage.desired storage) ns name w b) ->
    exists w',
      storage.syncEach storage builders created (w, storage)
      = ((if created then controllers.RequeueImmediately else controllers.Ok), (w', storage))
      /\ reads (fetchOf ns name <$> builders) w w'.
Proof.
  intros ns name. induction builders as [|b rest IH]; intros created w Hclear Hall.
  - cbn [storage.syncEach]. run. eexists. split; [destruct created; reflexivity|].
    apply reads_record.
  - cbn [storage.syncEach]. run. fold ns name.
    destruct (Hall b (list_elem_of_here _ _)) as (v & Hv & Hg & Hkey).
    cbn [length] in Hclear. apply clear_S in Hclear as [H1 Hrest].
    rewrite (CreateOrUpdate_settled_run _ _ _ v w Hv
               (fun w0 => storage_mutateFn_ok storage b v v w0 Hg) Hkey H1).
    cbn [fst snd]. rewrite bool_decide_false by discriminate. rewrite orb_false_r.
    pose proof (reads_served (fetchOf ns name b) w) as Hstep.
    destruct (IH created (log (fetchOf ns name b) None (set_apiFaults (tail (apiFaults w)) w)))
      as (w' & E & Hreads).
    { exact Hrest. }
    { intros b0 Hb0. eapply settled_reads; [exact Hstep|].
      apply Hall, list_elem_of_further, Hb0. }
    exists w'. split; [exact E|]. exact (reads_trans [_] _ _ _ _ Hstep Hreads).
Qed.

Lemma database_syncEach_settled_run (database : Database) (builders : list ResourceBuilder) :
  let ns := d_Namespace database in
  let name := d_Name database in
  forall (created : bool) (w : World),
    clear (length builders) (apiFaults w) = true ->
    (forall b, b ∈ builders -> settled (database.desired database) ns name w b) ->
    exists w',
      database.syncEach database builders created (w, database)
      = ((if created then controllers.RequeueImmediately else controllers.Ok), (w', database))
      /\ reads (fetchOf ns name <$> builders) w w'.
Proof.
  intros ns name. induction builders as [|b rest IH]; intros created w Hclear Hall.
  - cbn [database.syncEach]. run. eexists. split; [destruct created; reflexivity|].
    apply reads_record.
  - cbn [database.syncEach]. run. fold ns name.
    destruct (Hall b (list_elem_of_here _ _)) as (v & Hv & Hg & Hkey).
    cbn [length] in Hclear. apply clear_S in Hclear as [H1 Hrest].
    rewrite (CreateOrUpdate_settled_run _ _ _ v w Hv
               (fun w0 => database_mutateFn_ok database b v v w0 Hg) Hkey H1).
    cbn [fst snd]. rewrite bool_decide_false by discriminate. rewrite orb_false_r.
    pose proof (reads_served (fetchOf ns name b) w) as Hstep.
    destruct (IH created (log (fetchOf ns name b) None (set_apiFaults (tail (apiFaults w)) w)))
      as (w' & E & Hreads).
    { exact Hrest. }
    { intros b0 Hb0. eapply settled_reads; [exact Hstep|].
      apply Hall, list_elem_of_further, Hb0. }
    exists w'. split; [exact E|]. exact (reads_trans [_] _ _ _ _ Hstep Hreads).
Qed.

Lemma storage_scale_wait_settled_run (X : Externals) (w : World) (storage : Storage)
    (sts : Object) :
  let key := (s_Namespace storage, s_Name storage) in
  let members :=
    List.filter (client.selects (s_Namespace storage) (storage.podLabels X storage)) (pods w) in
  clear 2 (apiFaults w) = true ->
  objects w !! ("StatefulSet", key.1, key.2) = Some sts ->
  Z.of_nat (length (List.filter (fun e => bool_decide (p_Phase e = "Running")) members))
  = st_Nodes (s_Spec storage) ->
  State (s_Status storage) = "Ready"
  \/ meta.IsStatusConditionTrue (Conditions (s_Status storage))
       storage.StorageInitializedCondition = false ->
  exists w',
    storage.waitForStatefulSetToScale X (w, storage) = (controllers.Ok, (w', storage))
    /\ reads [CGet "StatefulSet" key;
              CList (s_Namespace storage) (storage.podLabels X storage)] w w'.
Proof.
  intros key members Hclear Hsts Hcount Hrest.
  apply clear_S in Hclear as [H1 Hclear]. apply clear_S in Hclear as [H2 _].
  unfold storage.waitForStatefulSetToScale. api.
  rewrite request_served by exact H1. frame.
  unfold key in Hsts. cbn [fst snd] in Hsts. rewrite Hsts. run.
  rewrite request_served by (frame; exact H2). frame. run.
  rewrite countRunning_length. fold members. rewrite Hcount.
  rewrite bool_decide_false by (intros Hne; apply Hne; reflexivity).
  assert (Hgate : bool_decide (State (s_Status storage) <> "Ready")
                  && meta.IsStatusConditionTrue (Conditions (s_Status storage))
                       storage.StorageInitializedCondition = false).
  { destruct Hrest as [Hr|Hr].
    - rewrite bool_decide_false by (intros Hne; apply Hne, Hr). reflexivity.
    - rewrite Hr. apply andb_false_r. }
  rewrite Hgate. run. eexists. split; [reflexivity|].
  exact (reads_trans [_] [_] _ _ _ (reads_served _ w) (reads_served _ _)).
Qed.

(** X18. A converged Storage is left alone.  On a Storage that is Ready
    with StorageInitialized true, whose workload has as many running
    members as [Spec.Nodes], whose children are stored as their
    builders make them, with the API server serving the requests and a
    healthy probe, [Sync] returns continue with no requeue; it reads
    the workload, the pods and each child, probes the health, and
    writes nothing: no status, no object, no command in a pod. *)
Theorem storage_Sync_converged (X : Externals) (cr : Storage) (w : World) (sts : Object) :
  let key := (s_Namespace cr, s_Name cr) in
  let storage := resources.SetStatusOnFirstReconcile (resources.NewCluster X cr) in
  let builders := resources.GetResourceBuilders X storage in
  let members :=
    List.filter (client.selects (s_Namespace cr) (storage.podLabels X cr)) (pods w) in
  State (s_Status cr) = "Ready" ->
  meta.IsStatusConditionTrue (Conditions (s_Status cr))
    storage.StorageInitializedCondition = true ->
  objects w !! ("StatefulSet", key.1, key.2) = Some sts ->
  Z.of_nat (length (List.filter (fun e => bool_decide (p_Phase e = "Running")) members))
  = st_Nodes (SetStorageClusterSpecDefaults X (s_Spec cr)) ->
  (forall b, b ∈ builders ->
     settled (storage.desired storage) (s_Namespace cr) (s_Name cr) w b) ->
  clear (2 + length builders) (apiFaults w) = true ->
  clear 1 (probeOutcomes w) = true ->
  let r := storage.Sync X cr w in
  r.1 = controllers.Ok
  /\ s_Status r.2.2 = s_Status cr
  /\ storages r.2.1 = storages w /\ databases r.2.1 = databases w
  /\ objects r.2.1 = objects w
  /\ calls r.2.1
     = calls w
       ++ ((fun c => (c, None))
             <$> [CGet "StatefulSet" key; CList (s_Namespace cr) (storage.podLabels X cr)]
                 ++ (fetchOf (s_Namespace cr) (s_Name cr) <$> builders)
                 ++ [CHealthCheck key]).
Proof.
  intros key storage builders members Hstate Hsi Hsts Hcount Hsettled Hclear Hprobe r.
  assert (Hstatus : s_Status storage = s_Status cr).
  { unfold storage, resources.SetStatusOnFirstReconcile, resources.seed. cbn [s_Status].
    unfold resources.NewCluster. cbn [s_Status].
    destruct (s_Status cr) as [s0 [cs|]]; [reflexivity|discriminate Hsi]. }
  subst r. unfold storage.Sync. fold storage. unfold storage.phases. run.
  destruct (storage_scale_wait_settled_run X w storage sts) as (w1 & E1 & R1).
  { apply (clear_le (2 + length builders)); [lia|exact Hclear]. }
  { exact Hsts. }
  { exact Hcount. }
  { left. rewrite Hstatus. exact Hstate. }
  rewrite E1. replace (stops controllers.Ok) with false by reflexivity.
  unfold storage.handleResourcesSync. run. fold builders.
  pose proof (reads_record {| ev_Type := EventTypeNormal; ev_Reason := "Provisioning" |} w1)
    as R1'.
  pose proof (reads_trans _ _ _ _ _ R1 R1') as R2. cbn [app] in R2.
  destruct (storage_syncEach_settled_run storage builders false
              (record {| ev_Type := EventTypeNormal; ev_Reason := "Provisioning" |} w1))
    as (w2 & E2 & R3).
  { destruct R2 as (_ & _ & _ & _ & _ & _ & _ & -> & _).
    apply (clear_drop 2). exact Hclear. }
  { intros b Hb. eapply settled_reads; [exact R2|]. apply Hsettled, Hb. }
  rewrite E2. replace (stops controllers.Ok) with false by reflexivity.
  pose proof (reads_trans _ _ _ _ _ R2 R3) as R4.
  destruct R4 as (A1 & A2 & A3 & _ & _ & A6 & _ & _ & A9).
  unfold storage.waitForHealthCheck, CheckBootstrapHealth. run.
  rewrite A6, (answer_clear _ Hprobe). run.
  replace (stops ({| ctrl.Requeue := false; ctrl.RequeueAfter := 0 |}, None))
    with false by reflexivity.
  unfold storage.runDefineBoxScript. run. rewrite Hstatus, Hsi.
  replace (stops ({| ctrl.Requeue := false; ctrl.RequeueAfter := 0 |}, None))
    with false by reflexivity.
  cbn [fst snd]. frame.
  split; [reflexivity|]. split; [exact Hstatus|].
  split; [exact A1|]. split; [exact A2|]. split; [exact A3|].
  rewrite A9, !fmap_app, <- !app_assoc. reflexivity.
Qed.

Lemma database_scale_wait_settled_run (w : World) (database : Database) (sts : Object) :
  let key := (d_Namespace database, d_Name database) in
  clear 1 (apiFaults w) = true ->
  objects w !! ("StatefulSet", key.1, key.2) = Some sts ->
  o_Replicas sts = db_Nodes (d_Spec database) ->
  State (d_Status database) = database.Ready
  \/ tenantInitialized (d_Status database) = false ->
  exists w',
    database.waitForStatefulSetToScale (w, database) = (controllers.Ok, (w', database))
    /\ reads [CGet "StatefulSet" key] w w'.
Proof.
  intros key Hclear Hsts Heq Hrest.
  unfold database.waitForStatefulSetToScale. api.
  rewrite request_served by exact Hclear. frame.
  unfold key in Hsts. cbn [fst snd] in Hsts. rewrite Hsts. run.
  rewrite bool_decide_false by (intros Hne; apply Hne, Heq).
  assert (Hgate : bool_decide (State (d_Status database) <> database.Ready)
                  && meta.IsStatusConditionTrue (Conditions (d_Status database))
                       database.ConditionTenantInitialized = false).
  { destruct Hrest as [Hr|Hr].
    - rewrite bool_decide_false by (intros Hne; apply Hne, Hr). reflexivity.
    - unfold tenantInitialized in Hr. rewrite Hr. apply andb_false_r. }
  rewrite Hgate. run. eexists. split; [reflexivity|]. apply reads_served.
Qed.

(** X19. A converged Database is left as it is.  On the stored resource
    of a Database that is Ready with TenantInitialized true, whose
    Storage is Ready, whose workload reports as many replicas as
    [Spec.Nodes] and whose children are stored as their builders make
    them, with the API server serving the requests, [Sync] returns
    continue with no requeue; it writes the stored status back
    unchanged, reads the Storage, the workload and each child, and
    changes nothing: the stored resources and objects are as before and
    the tenant API is not called. *)
Theorem database_Sync_converged (X : Externals) (key : string * string)
    (stored : DatabaseSpec * Status) (w : World) (storageStored : StorageSpec * Status)
    (sts : Object) :
  let ydbCr := client.databaseAt key stored in
  let database := resources.SetStatusOnFirstReconcile_db (resources.NewDatabase X ydbCr) in
  let ref := (ref_Namespace (StorageClusterRef (d_Spec database)),
              ref_Name (StorageClusterRef (d_Spec database))) in
  let builders := DatabaseResourceBuilders X database in
  databases w !! key = Some stored ->
  State stored.2 = database.Ready ->
  tenantInitialized stored.2 = true ->
  storages w !! ref = Some storageStored ->
  State storageStored.2 = "Ready" ->
  objects w !! ("StatefulSet", key.1, key.2) = Some sts ->
  o_Replicas sts = db_Nodes stored.1 ->
  (forall b, b ∈ builders -> settled (database.desired database) key.1 key.2 w b) ->
  clear (4 + length builders) (apiFaults w) = true ->
  let r := database.Sync X ydbCr w in
  r.1 = controllers.Ok
  /\ d_Status r.2.2 = stored.2
  /\ databases r.2.1 = databases w /\ storages r.2.1 = storages w
  /\ objects r.2.1 = objects w
  /\ tenantOutcomes r.2.1 = tenantOutcomes w
  /\ calls r.2.1
     = calls w
       ++ ((fun c => (c, None))
             <$> [CGet "Database" key; CStatusUpdate "Database" key stored.2;
                  CGet "Storage" ref; CGet "StatefulSet" key]
                 ++ (fetchOf key.1 key.2 <$> builders)).
Proof.
  intros ydbCr database ref builders Hstored Hstate Hti Hstorage Hready Hsts Hrep
         Hsettled Hclear r.
  destruct key as [ns name]. destruct stored as [spec status]. cbn [fst snd] in *.
  assert (Hstatus : d_Status database = status).
  { unfold database, resources.SetStatusOnFirstReconcile_db, resources.seed. cbn [d_Status].
    unfold resources.NewDatabase, ydbCr, client.databaseAt. cbn [d_Status snd].
    destruct status as [s0 [cs|]]; [reflexivity|discriminate Hti]. }
  assert (Hnodes : db_Nodes (d_Spec database) = db_Nodes spec).
  { unfold database, resources.SetStatusOnFirstReconcile_db, resources.NewDatabase.
    cbn [d_Spec]. rewrite SetDatabaseSpecDefaults_unfold. reflexivity. }
  assert (Hns : d_Namespace database = ns) by reflexivity.
  assert (Hn : d_Name database = name) by reflexivity.
  subst r. unfold database.Sync. fold ydbCr. fold database. unfold database.phases. run.
  fold ref builders. clearbody database. clear ydbCr.
  (* the seed writes the stored status back *)
  destruct (database_setState_ok w database)
    as (w1 & E1 & Hd1 & Hs1 & Ho1 & _ & _ & _ & Ht1 & Hf1 & Hc1).
  { rewrite Hns, Hn. apply persistOutcome_clear; [|eauto].
    apply (clear_le (4 + length builders)); [lia|exact Hclear]. }
  rewrite E1. rewrite Hns, Hn, Hstatus in Hd1, Hc1.
  assert (Hd1' : databases w1 = databases w).
  { rewrite Hd1. apply alter_id. intros x Hx. rewrite Hstored in Hx. injection Hx as <-.
    reflexivity. }
  (* the dependency wait *)
  rewrite (waitForClusterResource_ready_run w1 database storageStored);
    [|rewrite Hf1; apply (clear_drop 2 1), (clear_le (4 + length builders)); [lia|exact Hclear]
     |fold ref; rewrite Hs1; exact Hstorage|exact Hready].
  replace (stops controllers.Ok) with false by reflexivity. fold ref.
  (* the scale wait *)
  match goal with |- context [database.waitForStatefulSetToScale (?w2, database)] =>
    destruct (database_scale_wait_settled_run w2 database sts) as (w3 & E3 & R3) end.
  { frame. rewrite Hf1, tail_drop.
    apply (clear_drop 3 1 (apiFaults w)), (clear_le (4 + length builders)); [lia|exact Hclear]. }
  { frame. rewrite Hns, Hn, Ho1. exact Hsts. }
  { rewrite Hnodes. exact Hrep. }
  { left. rewrite Hstatus. exact Hstate. }
  rewrite E3. replace (stops controllers.Ok) with false by reflexivity.
  rewrite Hns, Hn in R3.
  destruct R3 as (B1 & B2 & B3 & _ & _ & _ & B7 & B8 & B9).
  frame in B1. frame in B2. frame in B3. frame in B7. frame in B8. frame in B9.
  (* the resource sync *)
  unfold database.handleResourcesSync. run. fold builders.
  destruct (database_syncEach_settled_run database builders false
              (record {| ev_Type := EventTypeNormal; ev_Reason := "Provisioning" |} w3))
    as (w4 & E4 & R4).
  { frame. rewrite B8, Hf1, tail_drop. cbn [length].
    rewrite drop_drop. apply (clear_drop (3 + 1)). exact Hclear. }
  { intros b Hb. rewrite Hns, Hn. destruct (Hsettled b Hb) as (v & Hv & H).
    exists v. frame. rewrite B3, Ho1. auto. }
  rewrite E4. replace (stops controllers.Ok) with false by reflexivity.
  rewrite Hns, Hn in R4.
  destruct R4 as (A1 & A2 & A3 & _ & _ & _ & A7 & _ & A9).
  frame in A1. frame in A2. frame in A3. frame in A7. frame in A9.
  unfold tenantInitialized in Hti. rewrite Hstatus, Hti. cbn [negb fst snd].
  split; [reflexivity|]. split; [exact Hstatus|].
  split; [rewrite A2, B2; exact Hd1'|]. split; [rewrite A1, B1; exact Hs1|].
  split; [rewrite A3, B3; exact Ho1|]. split; [rewrite A7, B7; exact Ht1|].
  rewrite A9, B9, Hc1, fmap_app, <- !app_assoc. reflexivity.
Qed.

Lemma storage_Sync_converged_witness :
  let r := storage.Sync demo.X (demo.storageCr "Ready" (Conditions demo.ready))
             demo.converged in
  r.1 = controllers.Ok
  /\ storages r.2.1 = storages demo.converged
  /\ objects r.2.1 = objects demo.converged.
Proof.
  destruct (storage_Sync_converged demo.X (demo.storageCr "Ready" (Conditions demo.ready))
              demo.converged (demo.child ("Storage", "store") "store" "ydb" 3))
    as (H1 & _ & H3 & _ & H5 & _).
  - reflexivity.
  - reflexivity.
  - vm_compute. reflexivity.
  - vm_compute. reflexivity.
  - intros b Hb. unfold resources.GetResourceBuilders in Hb. cbv zeta in Hb.
    apply elem_of_app in Hb as [Hb|Hb].
    + apply list_elem_of_fmap in Hb as (e & -> & He).
      apply list_elem_of_singleton in He. subst e.
      exists (demo.child ("Storage", "store") "store-storage" "monitor" 0).
      split; [vm_compute; reflexivity|]. split; reflexivity.
    + repeat (apply elem_of_cons in Hb as [->|Hb]); [| | | | |inversion Hb].
      * exists (demo.child ("Storage", "store") "store-grpc" "service" 0).
        split; [vm_compute; reflexivity|]. split; reflexivity.
      * exists (demo.child ("Storage", "store") "store-interconnect" "headless" 0).
        split; [vm_compute; reflexivity|]. split; reflexivity.
      * exists (demo.child ("Storage", "store") "store-status" "service" 0).
        split; [vm_compute; reflexivity|]. split; reflexivity.
      * exists (demo.child ("Storage", "store") "store" "config" 0).
        split; [vm_compute; reflexivity|]. split; reflexivity.
      * exists (demo.child ("Storage", "store") "store" "ydb" 3).
        split; [vm_compute; reflexivity|]. split; reflexivity.
  - vm_compute. reflexivity.
  - reflexivity.
  - split; [exact H1|]. split; [exact H3|exact H5].
Defined.

Lemma database_Sync_converged_witness :
  let r := database.Sync demo.X
             (client.databaseAt ("ydb", "db")
                (d_Spec (demo.databaseCr "" None), demo.serving))
             demo.converged in
  r.1 = controllers.Ok
  /\ databases r.2.1 = databases demo.converged
  /\ objects r.2.1 = objects demo.converged.
Proof.
  destruct (database_Sync_converged demo.X ("ydb", "db")
              (d_Spec (demo.databaseCr "" None), demo.serving) demo.converged
              ({| st_Nodes := 3 |}, demo.ready)
              (demo.child ("Database", "db") "db" "ydb" 3))
    as (H1 & _ & H3 & _ & H5 & _).
  - vm_compute. reflexivity.
  - reflexivity.
  - reflexivity.
  - vm_compute. reflexivity.
  - reflexivity.
  - vm_compute. reflexivity.
  - reflexivity.
  - intros b Hb. apply list_elem_of_singleton in Hb. subst b.
    exists (demo.child ("Database", "db") "db" "ydb" 3).
    split; [vm_compute; reflexivity|]. split; reflexivity.
  - reflexivity.
  - split; [exact H1|]. split; [exact H3|exact H5].
Defined.

(** ** The endpoint of a Storage *)

Lemma append_nil (b : string) : "" +:+ b = b.
Proof. reflexivity. Qed.

Lemma append_cons (x : ascii) (a b : string) : String x a +:+ b = String x (a +:+ b).
Proof. reflexivity. Qed.

Lemma append_assoc (a b c : string) : (a +:+ b) +:+ c = a +:+ (b +:+ c).
Proof.
  induction a as [|x a IH]; [reflexivity|]. rewrite !append_cons, IH. reflexivity.
Qed.

Lemma append_length (a b : string) :
  String.length (a +:+ b) = (String.length a + String.length b)%nat.
Proof.
  induction a as [|x a IH]; [reflexivity|]. rewrite append_cons. cbn [String.length].
  rewrite IH. reflexivity.
Qed.

Lemma append_inv_tail (a b t : string) : a +:+ t = b +:+ t -> a = b.
Proof.
  revert b. induction a as [|x a IH]; intros [|y b] H;
    rewrite ?append_nil, ?append_cons in H.
  - reflexivity.
  - apply (f_equal String.length) in H. cbn [String.length] in H.
    rewrite append_length in H. lia.
  - apply (f_equal String.length) in H. cbn [String.length] in H.
    rewrite append_length in H. lia.
  - injection H as -> H. f_equal. apply IH, H.
Qed.

Lemma nodot_append (a b : string) : nodot (a +:+ b) = nodot a && nodot b.
Proof.
  induction a as [|x a IH]; [reflexivity|]. rewrite append_cons. cbn [nodot].
  rewrite IH. apply andb_assoc.
Qed.

(** Two strings that agree are cut alike at their first dot. *)
Lemma until_dot (a b s t : string) :
  nodot a = true -> nodot b = true ->
  a +:+ String "."%char s = b +:+ String "."%char t -> a = b /\ s = t.
Proof.
  revert b. induction a as [|x a IH]; intros [|y b] Ha Hb H;
    rewrite ?append_nil, ?append_cons in H; cbn [nodot] in Ha, Hb.
  - injection H as ->. auto.
  - injection H as <- _. discriminate Hb.
  - injection H as -> _. discriminate Ha.
  - injection H as -> H. apply andb_prop in Ha as [_ Ha]. apply andb_prop in Hb as [_ Hb].
    destruct (IH b Ha Hb H) as [-> ->]. auto.
Qed.

Lemma GetEndpoint_unfold (X : Externals) (b : Storage) :
  resources.GetEndpoint X b
  = (s_Name b +:+ "-grpc")
    +:+ String "."%char
          (s_Namespace b +:+ (".svc.cluster.local" +:+ ":" +:+ pretty (GRPCPort X))).
Proof.
  unfold resources.GetEndpoint. cbv zeta. rewrite !append_assoc. reflexivity.
Qed.

(** X21. The endpoint identifies the Storage.  Two Storages whose names
    hold no dot (they name a Service, a DNS label) and that have the
    same endpoint have the same name and the same namespace. *)
Theorem GetEndpoint_identifies (X : Externals) (b b' : Storage) :
  nodot (s_Name b) = true -> nodot (s_Name b') = true ->
  resources.GetEndpoint X b = resources.GetEndpoint X b' ->
  s_Name b = s_Name b' /\ s_Namespace b = s_Namespace b'.
Proof.
  intros Hb Hb' H. rewrite !GetEndpoint_unfold in H.
  apply until_dot in H as [Hname Hns].
  - split; [exact (append_inv_tail _ _ _ Hname)|exact (append_inv_tail _ _ _ Hns)].
  - rewrite nodot_append, Hb. reflexivity.
  - rewrite nodot_append, Hb'. reflexivity.
Qed.

Lemma GetEndpoint_identifies_witness :
  resources.GetEndpoint demo.X (demo.storageCr "" None)
  = "store-grpc.ydb.svc.cluster.local:2135"
  /\ s_Name (demo.storageCr "" None) = s_Name (demo.storageCr "Ready" None).
Proof.
  split; [reflexivity|].
  apply (GetEndpoint_identifies demo.X (demo.storageCr "" None) (demo.storageCr "Ready" None));
    reflexivity.
Defined.

(** ** The results of a pass *)


Lemma hoare_any {S A B} (m : Op S A) (f : A -> Op S B) (Q : B -> S -> Prop) :
  (forall a, hoare any (f a) Q) -> hoare any (m ≫= f) Q.
Proof.
  intros Hf. apply hoare_bind with (R := fun _ => any); [intros s _; exact I|exact Hf].
Qed.

Ltac outcome_is tac :=
  apply hoare_ret; intros ? _; unfold database_outcome, storage_outcome; solve [tac].

Lemma storage_waitForStatefulSetToScale_outcome (X : Externals) :
  hoare any (storage.waitForStatefulSetToScale X) (fun o _ => storage_outcome o).
Proof.
  unfold storage.waitForStatefulSetToScale.
  apply hoare_any; intros storage. apply hoare_any; intros [err|found].
  - destruct (IsNotFound err); [outcome_is ltac:(auto)|].
    apply hoare_any; intros _. outcome_is ltac:(eauto 6).
  - apply hoare_any; intros [err|items].
    + apply hoare_any; intros _. outcome_is ltac:(eauto 6).
    + destruct (bool_decide _).
      * apply hoare_any; intros _. apply hoare_any; intros persisted.
        destruct persisted.2; [outcome_is ltac:(eauto 6)|].
        apply hoare_any; intros _. outcome_is ltac:(auto 6).
      * destruct (_ && _); [|outcome_is ltac:(auto)].
        apply hoare_any; intros _. apply hoare_any; intros persisted.
        destruct persisted.2; [outcome_is ltac:(eauto 6)|].
        apply hoare_any; intros _. outcome_is ltac:(auto).
Qed.

Lemma storage_syncEach_outcome (storage : Storage) (builders : list ResourceBuilder)
    (created : bool) :
  hoare any (storage.syncEach storage builders created) (fun o _ => storage_outcome o).
Proof.
  revert created. induction builders as [|b rest IH]; intros created; cbn [storage.syncEach].
  - apply hoare_any; intros _. destruct created; outcome_is ltac:(auto).
  - apply hoare_any; intros applied. destruct applied.2; [|apply IH].
    apply hoare_any; intros _. outcome_is ltac:(eauto 6).
Qed.

Lemma hoare_always {S A} (P : S -> Prop) (m : Op S A) (Q : A -> S -> Prop) :
  hoare any m Q -> hoare P m Q.
Proof. intros H s _. apply H. exact I. Qed.

Lemma storage_handleResourcesSync_outcome (X : Externals) :
  hoare any (storage.handleResourcesSync X) (fun o _ => storage_outcome o).
Proof.
  unfold storage.handleResourcesSync. apply hoare_any; intros storage.
  apply hoare_any; intros _. apply storage_syncEach_outcome.
Qed.

Lemma storage_waitForHealthCheck_outcome :
  hoare any storage.waitForHealthCheck (fun o _ => storage_outcome o).
Proof.
  unfold storage.waitForHealthCheck. apply hoare_any; intros storage.
  apply hoare_any; intros [err|]; apply hoare_any; intros _;
    [outcome_is ltac:(eauto 6)|outcome_is ltac:(auto)].
Qed.

Lemma storage_runDefineBoxScript_outcome :
  hoare any storage.runDefineBoxScript (fun o _ => storage_outcome o).
Proof.
  unfold storage.runDefineBoxScript. apply hoare_any; intros storage.
  destruct (meta.IsStatusConditionTrue _ _); [outcome_is ltac:(auto)|].
  apply hoare_any; intros [err|]; [outcome_is ltac:(eauto 6)|].
  apply hoare_any; intros [err|]; [outcome_is ltac:(eauto 6)|].
  apply hoare_any; intros _. apply hoare_any; intros persisted.
  destruct persisted.2; [outcome_is ltac:(eauto 6)|outcome_is ltac:(auto)].
Qed.

Ltac next_phase H :=
  eapply hoare_bind; [apply hoare_always, H|];
  let o := fresh "o" in
  intros o; destruct (stops o); [apply hoare_ret; intros ? Ho; exact Ho|].

Lemma storage_phases_outcome (X : Externals) :
  hoare any (storage.phases X) (fun o _ => storage_outcome o).
Proof.
  unfold storage.phases.
  next_phase (storage_waitForStatefulSetToScale_outcome X).
  next_phase (storage_handleResourcesSync_outcome X).
  next_phase storage_waitForHealthCheck_outcome.
  next_phase storage_runDefineBoxScript_outcome.
  apply hoare_ret. intros _ _. left. reflexivity.
Qed.

Lemma database_waitForStatefulSetToScale_outcome :
  hoare any database.waitForStatefulSetToScale (fun o _ => storage_outcome o).
Proof.
  unfold database.waitForStatefulSetToScale.
  apply hoare_any; intros database. apply hoare_any; intros [err|found].
  - destruct (IsNotFound err); [outcome_is ltac:(auto)|].
    apply hoare_any; intros _. outcome_is ltac:(eauto 6).
  - destruct (bool_decide _).
    + apply hoare_any; intros _. apply hoare_any; intros persisted.
      destruct persisted.2; [outcome_is ltac:(eauto 6)|].
      apply hoare_any; intros _. outcome_is ltac:(auto 6).
    + destruct (_ && _); [|outcome_is ltac:(auto)].
      apply hoare_any; intros _. apply hoare_any; intros persisted.
      destruct persisted.2; [outcome_is ltac:(eauto 6)|].
      apply hoare_any; intros _. outcome_is ltac:(auto).
Qed.

Lemma database_syncEach_outcome (database : Database) (builders : list ResourceBuilder)
    (created : bool) :
  hoare any (database.syncEach database builders created) (fun o _ => storage_outcome o).
Proof.
  revert created. induction builders as [|b rest IH]; intros created; cbn [database.syncEach].
  - apply hoare_any; intros _. destruct created; outcome_is ltac:(auto).
  - apply hoare_any; intros applied. destruct applied.2; [|apply IH].
    apply hoare_any; intros _. outcome_is ltac:(eauto 6).
Qed.

Lemma database_waitForClusterResource_outcome :
  hoare any database.waitForClusterResource (fun o _ => database_outcome o).
Proof.
  unfold database.waitForClusterResource. apply hoare_any; intros database.
  apply hoare_any; intros [err|found].
  - apply hoare_any; intros _. outcome_is ltac:(right; eexists; reflexivity).
  - destruct (bool_decide _);
      [apply hoare_any; intros _; outcome_is ltac:(right; eexists; reflexivity)|].
    outcome_is ltac:(auto).
Qed.

Lemma database_handleResourcesSync_outcome (X : Externals) :
  hoare any (database.handleResourcesSync X) (fun o _ => storage_outcome o).
Proof.
  unfold database.handleResourcesSync. apply hoare_any; intros database.
  apply hoare_any; intros _. apply database_syncEach_outcome.
Qed.

Lemma database_handleTenantCreation_outcome (X : Externals) :
  hoare any (database.handleTenantCreation X) (fun o _ => storage_outcome o).
Proof.
  unfold database.handleTenantCreation. apply hoare_any; intros _.
  apply hoare_any; intros persisted.
  destruct persisted.2; [outcome_is ltac:(eauto 6)|].
  apply hoare_any; intros database. apply hoare_any; intros [err|].
  - apply hoare_any; intros _. outcome_is ltac:(eauto 6).
  - apply hoare_any; intros _. apply hoare_any; intros _. apply hoare_any; intros persisted2.
    destruct persisted2.2; [outcome_is ltac:(eauto 6)|outcome_is ltac:(auto)].
Qed.

Lemma hoare_storage_outcome {S} (m : Op S Outcome) :
  hoare any m (fun o _ => storage_outcome o) -> hoare any m (fun o _ => database_outcome o).
Proof. intros H s Hs. left. apply H, Hs. Qed.

Lemma database_phases_outcome (X : Externals) :
  hoare any (database.phases X) (fun o _ => database_outcome o).
Proof.
  unfold database.phases. apply hoare_any; intros seeded.
  next_phase database_waitForClusterResource_outcome.
  next_phase (hoare_storage_outcome _ database_waitForStatefulSetToScale_outcome).
  next_phase (hoare_storage_outcome _ (database_handleResourcesSync_outcome X)).
  eapply hoare_bind; [apply hoare_always, hoare_self|]. intros database.
  destruct (negb _); [|apply hoare_ret; intros _ _; left; left; reflexivity].
  next_phase (hoare_storage_outcome _ (database_handleTenantCreation_outcome X)).
  apply hoare_ret. intros _ _. left. left. reflexivity.
Qed.

(** X22. The results of a pass.  [Sync] on a Storage returns continue,
    an immediate requeue, an error with no delay, a requeue after 10
    seconds without an error, or a requeue after 30 seconds with the
    error of a probe or a command; [Sync] on a Database returns one of
    those (the 30 seconds with the error of the tenant API) or a
    requeue after 60 seconds.  So no delay exceeds 60 seconds, and an
    error comes with a delay of 0, 30 or 60 seconds. *)
Theorem Sync_outcomes (X : Externals) (w : World) (cr : Storage) (ydbCr : Database) :
  storage_outcome (storage.Sync X cr w).1
  /\ database_outcome (database.Sync X ydbCr w).1
  /\ (forall o, database_outcome o ->
        0 <= ctrl.RequeueAfter o.1 <= 60 * ctrl.Second
        /\ (o.2 <> None ->
            ctrl.RequeueAfter o.1 = 0 \/ ctrl.RequeueAfter o.1 = 30 * ctrl.Second
            \/ ctrl.RequeueAfter o.1 = 60 * ctrl.Second)).
Proof.
  split; [|split].
  - apply (storage_phases_outcome X (w, _)). exact I.
  - apply (database_phases_outcome X (w, _)). exact I.
  - intros o [[->|[->|[[e ->]|[->|[e ->]]]]]|[err ->]];
      unfold controllers.Ok, controllers.RequeueImmediately, controllers.NoRequeue,
        controllers.RequeueAfter, ctrl.Second;
      cbn [fst snd ctrl.RequeueAfter]; (split; [lia|]); intros H; auto;
      try (destruct err; auto); contradiction.
Qed.

(** ** The members of a Storage *)

Lemma request_set_pods {A} (c : Call) (serve : World -> (Err + A) * World)
    (others : list Pod) (w : World) :
  (forall w0, serve (set_pods others w0) = ((serve w0).1, set_pods others (serve w0).2)) ->
  request c serve (set_pods others w)
  = ((request c serve w).1, set_pods others (request c serve w).2).
Proof.
  intros Hserve. unfold request. cbn [apiFaults set_pods].
  change (set_apiFaults (tail (apiFaults w)) (set_pods others w))
    with (set_pods others (set_apiFaults (tail (apiFaults w)) w)).
  destruct (head (apiFaults w)) as [[msg|]|]; [reflexivity| |];
    rewrite Hserve; destruct (serve _) as [r w2]; reflexivity.
Qed.

Lemma request_pods {A} (c : Call) (serve : World -> (Err + A) * World) (w : World) :
  (forall w0, pods (serve w0).2 = pods w0) -> pods (request c serve w).2 = pods w.
Proof.
  intros Hserve. unfold request.
  destruct (head (apiFaults w)) as [[msg|]|]; [reflexivity| |];
    specialize (Hserve (set_apiFaults (tail (apiFaults w)) w));
    destruct (serve _) as [r w2]; exact Hserve.
Qed.

Lemma storage_setState_set_pods (others : list Pod) (w : World) (storage : Storage) :
  storage.setState (set_pods others w, storage)
  = ((storage.setState (w, storage)).1,
     (set_pods others (storage.setState (w, storage)).2.1,
      (storage.setState (w, storage)).2.2)).
Proof.
  unfold storage.setState, client.GetStorage, client.StatusUpdateStorage. run.
  rewrite request_set_pods by reflexivity.
  destruct (request _ _ w) as [[err|storageCr] w1]; [reflexivity|]. cbn [fst snd].
  rewrite request_set_pods.
  - destruct (request _ _ w1) as [[err|[]] w2]; reflexivity.
  - intros w0. cbn [storages set_pods]. destruct (storages w0 !! _); reflexivity.
Qed.

(** X23. Only the members count.  The Storage scale wait sees the pods
    through its selector alone: in two clusters that differ in their
    pods only and hold the same pods of the Storage's namespace that
    carry the selector's labels, it returns the same result, leaves the
    same working copy and makes the same changes.  A running pod of
    another namespace or of another component is not counted. *)
Theorem storage_scale_wait_counts_members_only (X : Externals) (w : World)
    (storage : Storage) (others : list Pod) :
  let members := client.selects (s_Namespace storage) (storage.podLabels X storage) in
  List.filter members others = List.filter members (pods w) ->
  let r := storage.waitForStatefulSetToScale X (w, storage) in
  storage.waitForStatefulSetToScale X (set_pods others w, storage)
  = (r.1, (set_pods others r.2.1, r.2.2)).
Proof.
  intros members Hsame r. subst r.
  unfold storage.waitForStatefulSetToScale, client.GetObject, client.ListPods. run.
  rewrite request_set_pods by reflexivity.
  pose proof (request_pods (CGet "StatefulSet" (s_Namespace storage, s_Name storage))
                (fun w0 => (client.found "StatefulSet"
                              (objects w0 !! ("StatefulSet", s_Namespace storage,
                                              s_Name storage)), w0))
                w (fun _ => eq_refl)) as Hpods.
  cbn [fst snd] in Hpods |- *.
  destruct (request _ _ w) as [[err|found] w1]; cbn [fst snd] in *.
  { destruct (IsNotFound err); reflexivity. }
  fold members.
  assert (Hlist : forall c,
            request c (fun w0 => (inr (List.filter members (pods w0)), w0)) (set_pods others w1)
            = ((request c (fun w0 => (inr (List.filter members (pods w0)), w0)) w1).1,
               set_pods others
                 (request c (fun w0 => (inr (List.filter members (pods w0)), w0)) w1).2)).
  { intros c. unfold request. cbn [apiFaults set_pods pods set_apiFaults].
    rewrite Hsame, <- Hpods.
    destruct (head (apiFaults w1)) as [[msg|]|]; reflexivity. }
  rewrite Hlist.
  destruct (request _ _ w1) as [[err|items] w2]; cbn [fst snd]; [reflexivity|].
  destruct (bool_decide _).
  - rewrite storage_setState_set_pods.
    destruct (storage.setState (w2, _)) as [[res [e|]] [w3 b3]]; reflexivity.
  - destruct (_ && _); [|reflexivity].
    rewrite storage_setState_set_pods.
    destruct (storage.setState (w2, _)) as [[res [e|]] [w3 b3]]; reflexivity.
Qed.

Lemma storage_scale_wait_counts_members_only_witness :
  let stranger := {| p_Namespace := "other"; p_Labels := ∅; p_Phase := "Running" |} in
  (storage.waitForStatefulSetToScale demo.X
     (set_pods (stranger :: pods demo.underscaled) demo.underscaled,
      demo.storageCr "" None)).1
  = controllers.RequeueAfter (10 * ctrl.Second) None.
Proof.
  cbv zeta.
  rewrite (storage_scale_wait_counts_members_only demo.X demo.underscaled
             (demo.storageCr "" None)
             ({| p_Namespace := "other"; p_Labels := ∅; p_Phase := "Running" |}
                :: pods demo.underscaled)).
  - vm_compute. reflexivity.
  - vm_compute. reflexivity.
Defined.
